(** * Hospital feedback analytics: a shallow embedding of the analytics core

    The development follows the Python sources module by module:
    - [Py]: the Python built-ins the code relies on ([round], [int], [min],
      [sorted], slicing, [str.lower], substring tests, insertion-ordered
      dictionaries, [numpy.mean]);
    - [AlertSystem]: [backend/alert_system.py];
    - [FacilityMonitor]: [facility_monitor.py];
    - [DoctorAnalyzer]: [backend/doctor_analyzer.py];
    - [Sentiment]: [sentiment_analyzer.py];
    - [Dashboard]: [backend/dashboard.py];
    - [Scenarios]: the concrete stores and inputs used in examples.

    The properties follow, one module of facts per source module.

    Conventions of the embedding.
    - Python floats are read as exact rationals ([Q]); every comparison and
      arithmetic operation is the exact one.  Statements about numbers use
      [==], [<=] and [<] of [Q].
    - [datetime.now()] is an explicit argument [now], a count of microseconds
      ([Z]); an ISO timestamp is the same count, and [timedelta(days=d)] is
      [d * 86400000000].  The clock is read once per call of a modelled
      function.
    - Dictionaries whose iteration order the code depends on are association
      lists in insertion order; stores that are only looked up by key are
      [gmap]s.
    - Strings are byte strings; [lower] acts on ASCII letters. *)

From stdpp Require Import gmap strings list.
From Stdlib Require Import ZArith QArith Qround Qminmax Qabs Lia Lqa.
From Stdlib Require Import Ascii Permutation Sorted.

(** ** Python built-ins *)

Module Py.

(** *** Numbers *)

(** Nearest integer, ties to the even neighbour. *)
Definition round_half_even (x : Q) : Z :=
  let f := Qfloor x in
  match (x - inject_Z f ?= 1 # 2)%Q with
  | Lt => f
  | Gt => (f + 1)%Z
  | Eq => if Z.even f then f else (f + 1)%Z
  end.

Definition pow10 (ndigits : nat) : Z := (10 ^ Z.of_nat ndigits)%Z.

(** [round(x, ndigits)]. *)
Definition round (x : Q) (ndigits : nat) : Q :=
  (inject_Z (round_half_even (x * inject_Z (pow10 ndigits)))
     / inject_Z (pow10 ndigits))%Q.

(** [int(x)] on a float: truncation toward zero. *)
Definition int (x : Q) : Z := Z.quot (Qnum x) (Zpos (Qden x)).

(** [min(a, b)] returns its first argument unless the second is strictly
    smaller, [max(a, b)] unless the second is strictly larger. *)
Definition min (a b : Q) : Q := Qmin a b.
Definition max (a b : Q) : Q := Qmax a b.

(** Comparisons of floats are decided. *)
#[global] Instance Qlt_decision (a b : Q) : Decision (a < b)%Q :=
  match Qlt_le_dec a b with
  | left H => left H
  | right H => right (Qle_not_lt _ _ H)
  end.

#[global] Instance Qle_decision (a b : Q) : Decision (a <= b)%Q :=
  match Qlt_le_dec b a with
  | left H => right (Qlt_not_le _ _ H)
  | right H => left H
  end.

(** [sum(l)]: left to right, from [0]. *)
Definition sum (l : list Q) : Q := fold_left Qplus l 0%Q.

Definition sum_int (l : list Z) : Z := fold_left Z.add l 0%Z.

(** [numpy.mean] of a non-empty list. *)
Definition mean (l : list Q) : Q := (sum l / inject_Z (Z.of_nat (length l)))%Q.

(** *** Lists *)

Section Sorting.
Context {A : Type} (key : A → Z).

(** [x] is placed in front of the first element it may precede. *)
Fixpoint insert_by (before : Z → Z → bool) (x : A) (l : list A) : list A :=
  match l with
  | [] => [x]
  | y :: l' =>
      if before (key x) (key y) then x :: y :: l'
      else y :: insert_by before x l'
  end.

(** [sorted(l, key=key, reverse=reverse)]: a stable sort, so elements
    with equal keys keep their order in [l], also when [reverse] is set. *)
Definition sorted (reverse : bool) (l : list A) : list A :=
  foldr (insert_by (if reverse then Z.geb else Z.leb)) [] l.

(** The order of the keys in a sorted list: ascending, or descending when
    [reverse] is set. *)
Definition in_order (reverse : bool) (a b : A) : Prop :=
  if reverse then (key b <= key a)%Z else (key a <= key b)%Z.
End Sorting.

(** [l[:n]]: a negative [n] counts from the end. *)
Definition slice_to {A : Type} (n : Z) (l : list A) : list A :=
  if (0 <=? n)%Z then take (Z.to_nat n) l
  else take (length l - Z.to_nat (- n)) l.

(** The number of times [x] occurs in [l]. *)
Definition occurrences {A : Type} `{EqDecision A} (x : A) (l : list A) : nat :=
  length (filter (λ y, y = x) l).

(** [enumerate(l)]. *)
Definition enumerate {A : Type} (l : list A) : list (nat * A) :=
  zip (seq 0 (length l)) l.

(** *** Strings *)

Definition lower_ascii (c : ascii) : ascii :=
  let n := nat_of_ascii c in
  if (65 <=? n)%nat && (n <=? 90)%nat then ascii_of_nat (n + 32) else c.

Fixpoint lower (s : string) : string :=
  match s with
  | EmptyString => EmptyString
  | String c s' => String (lower_ascii c) (lower s')
  end.

(** [needle in hay] for strings. *)
Fixpoint str_in (needle hay : string) : bool :=
  String.prefix needle hay ||
  match hay with
  | EmptyString => false
  | String _ hay' => str_in needle hay'
  end.

(** [s[:n]] for [n >= 0]. *)
Definition str_take (n : nat) (s : string) : string := String.substring 0 n s.

(** [str.isalpha], on ASCII letters; false on the empty string. *)
Definition is_alpha_ascii (c : ascii) : bool :=
  let n := nat_of_ascii c in
  ((65 <=? n)%nat && (n <=? 90)%nat) || ((97 <=? n)%nat && (n <=? 122)%nat).

Fixpoint all_alpha (s : string) : bool :=
  match s with
  | EmptyString => true
  | String c s' => is_alpha_ascii c && all_alpha s'
  end.

Definition isalpha (s : string) : bool :=
  match s with
  | EmptyString => false
  | String _ _ => all_alpha s
  end.

Definition is_space (c : ascii) : bool :=
  let n := nat_of_ascii c in
  ((9 <=? n)%nat && (n <=? 13)%nat) || ((28 <=? n)%nat && (n <=? 32)%nat).

(** [s.split()]: the maximal runs of non-whitespace characters; [word] is
    the run being read, in reverse. *)
Fixpoint split_from (word : list ascii) (s : string) : list string :=
  let flush (rest : list string) :=
    match word with
    | [] => rest
    | _ :: _ => String.string_of_list_ascii (rev word) :: rest
    end in
  match s with
  | EmptyString => flush []
  | String c s' =>
      if is_space c then flush (split_from [] s')
      else split_from (c :: word) s'
  end.

Definition split (s : string) : list string := split_from [] s.

(** *** Insertion-ordered dictionaries *)

Section Dict.
Context {K V : Type} `{EqDecision K}.

Fixpoint dict_get (k : K) (d : list (K * V)) : option V :=
  match d with
  | [] => None
  | (k', v) :: d' => if bool_decide (k = k') then Some v else dict_get k d'
  end.

(** [d[k] = v]: an existing key keeps its position, a new one goes last. *)
Fixpoint dict_set (k : K) (v : V) (d : list (K * V)) : list (K * V) :=
  match d with
  | [] => [(k, v)]
  | (k', v') :: d' =>
      if bool_decide (k = k') then (k, v) :: d'
      else (k', v') :: dict_set k v d'
  end.

(** [d[k] = f(d[k])] on a [defaultdict] whose factory returns [dflt]. *)
Definition dict_update (dflt : V) (f : V → V) (k : K) (d : list (K * V))
  : list (K * V) :=
  dict_set k (f (default dflt (dict_get k d))) d.
End Dict.

(** [for k in l: d[k] += 1] on a [defaultdict(int)]. *)
Definition tally {K : Type} `{EqDecision K} (l : list K) (d : list (K * nat))
  : list (K * nat) :=
  fold_left (λ d k, dict_update 0%nat S k d) l d.

(** *** Values of mixed type, and f-strings

    A dictionary such as [details] holds numbers, strings and [None]; an
    f-string is kept as its sequence of literal pieces and formatted
    values. *)

Inductive value : Type :=
| VNone
| VInt (z : Z)
| VFloat (q : Q)
| VStr (s : string).

Inductive piece : Type :=
| Lit (s : string)
| Fmt (v : value).

Definition fstring : Type := list piece.

End Py.

(** Microseconds in [timedelta(days=1)] and [timedelta(hours=1)]. *)
Definition microseconds_per_day : Z := 86400000000.

Definition timedelta_days (days : Z) : Z := (days * microseconds_per_day)%Z.

(** ** backend/alert_system.py *)

Module AlertSystem.
Import Py.

Inductive AlertSeverity : Type := CRITICAL | HIGH | MEDIUM | LOW.

Inductive AlertType : Type :=
| SENTIMENT_CRITICAL
| DOCTOR_BURNOUT
| COMPLAINT_FILED
| FOOD_QUALITY
| ROOM_QUALITY
| ISSUE_CLUSTER
| SYSTEM_ERROR.

#[global] Instance AlertSeverity_eq_dec : EqDecision AlertSeverity.
Proof. solve_decision. Defined.

#[global] Instance AlertType_eq_dec : EqDecision AlertType.
Proof. solve_decision. Defined.

(** The [.value] of the enumeration members. *)
Definition severity_value (s : AlertSeverity) : string :=
  match s with
  | CRITICAL => "CRITICAL"
  | HIGH => "HIGH"
  | MEDIUM => "MEDIUM"
  | LOW => "LOW"
  end.

Definition type_value (t : AlertType) : string :=
  match t with
  | SENTIMENT_CRITICAL => "SENTIMENT_CRITICAL"
  | DOCTOR_BURNOUT => "DOCTOR_BURNOUT"
  | COMPLAINT_FILED => "COMPLAINT_FILED"
  | FOOD_QUALITY => "FOOD_QUALITY"
  | ROOM_QUALITY => "ROOM_QUALITY"
  | ISSUE_CLUSTER => "ISSUE_CLUSTER"
  | SYSTEM_ERROR => "SYSTEM_ERROR"
  end.

(** [class Alert].  The identifier ["ALT_<timestamp>"] is determined by the
    clock reading at creation and is kept as that reading. *)
Record Alert : Type := mkAlert {
  alert_id : Z;
  alert_type : AlertType;
  severity : AlertSeverity;
  message : fstring;
  details : list (string * value);
  created_at : Z;
  acknowledged : bool;
  acknowledged_at : option Z;
  acknowledged_by : option string
}.

(** [Alert.__init__] *)
Definition new_alert (now : Z) (alert_type : AlertType)
    (severity : AlertSeverity) (message : fstring)
    (details : list (string * value)) : Alert :=
  {| alert_id := now;
     alert_type := alert_type;
     severity := severity;
     message := message;
     details := details;
     created_at := now;
     acknowledged := false;
     acknowledged_at := None;
     acknowledged_by := None |}.

(** [Alert.to_dict] *)
Record AlertDict : Type := mkAlertDict {
  d_alert_id : Z;
  d_alert_type : string;
  d_severity : string;
  d_message : fstring;
  d_details : list (string * value);
  d_created_at : Z;
  d_acknowledged : bool;
  d_acknowledged_at : option Z;
  d_acknowledged_by : option string
}.

Definition to_dict (a : Alert) : AlertDict :=
  {| d_alert_id := alert_id a;
     d_alert_type := type_value (alert_type a);
     d_severity := severity_value (severity a);
     d_message := message a;
     d_details := details a;
     d_created_at := created_at a;
     d_acknowledged := acknowledged a;
     d_acknowledged_at := acknowledged_at a;
     d_acknowledged_by := acknowledged_by a |}.

(** [Alert.acknowledge] *)
Definition acknowledge (now : Z) (user_id : string) (a : Alert) : Alert :=
  {| alert_id := alert_id a;
     alert_type := alert_type a;
     severity := severity a;
     message := message a;
     details := details a;
     created_at := created_at a;
     acknowledged := true;
     acknowledged_at := Some now;
     acknowledged_by := Some user_id |}.

(** [AlertManager.threshold_config]: set in [__init__], never reassigned. *)
Definition threshold_config : list (string * Q) :=
  [ ("sentiment_critical", -0.7);
    ("sentiment_warning", -0.4);
    ("burnout_critical", 0.7);
    ("burnout_high", 0.5);
    ("complaint_critical", 1);
    ("food_quality_critical", 2.0);
    ("room_quality_critical", 2.0);
    ("issue_cluster_critical", 5) ]%Q.

(** [self.threshold_config[key]]; every key the code uses is present. *)
Definition threshold (key : string) : Q :=
  default 0%Q (dict_get key threshold_config).

(** [class AlertManager]: the state is the list [self.alerts].  The
    registered handlers only print; they are observers of [create_alert]
    and are not part of the state. *)
Abbreviation AlertManager := (list Alert) (only parsing).

Definition init : AlertManager := [].

(** [AlertManager.create_alert] *)
Definition create_alert (self : AlertManager) (now : Z)
    (alert_type : AlertType) (severity : AlertSeverity) (message : fstring)
    (details : list (string * value)) : Alert * AlertManager :=
  let alert := new_alert now alert_type severity message details in
  (alert, self ++ [alert]).

Definition optional_str (s : option string) : value :=
  match s with Some s => VStr s | None => VNone end.

(** [AlertManager.check_sentiment_alert] *)
Definition check_sentiment_alert (self : AlertManager) (now : Z)
    (sentiment_score : Q) (review_id : option string)
    : option Alert * AlertManager :=
  if decide (sentiment_score < threshold "sentiment_critical")%Q then
    let (a, self') :=
      create_alert self now SENTIMENT_CRITICAL HIGH
        [Lit "Critical negative sentiment detected (Score: ";
         Fmt (VFloat sentiment_score); Lit ")"]
        [("sentiment_score", VFloat sentiment_score);
         ("review_id", optional_str review_id)] in
    (Some a, self')
  else (None, self).

(** [AlertManager.check_food_quality_alert] *)
Definition check_food_quality_alert (self : AlertManager) (now : Z)
    (quality_score : Q) : option Alert * AlertManager :=
  if decide (quality_score < threshold "food_quality_critical")%Q then
    let (a, self') :=
      create_alert self now FOOD_QUALITY HIGH
        [Lit "CRITICAL: Food quality issue reported (Score: ";
         Fmt (VFloat quality_score); Lit ")"]
        [("quality_score", VFloat quality_score)] in
    (Some a, self')
  else (None, self).

(** [AlertManager.check_room_quality_alert] *)
Definition check_room_quality_alert (self : AlertManager) (now : Z)
    (room_id : string) (cleanliness_score : Q)
    : option Alert * AlertManager :=
  if decide (cleanliness_score < threshold "room_quality_critical")%Q then
    let (a, self') :=
      create_alert self now ROOM_QUALITY HIGH
        [Lit "CRITICAL: Room "; Fmt (VStr room_id);
         Lit " cleanliness issue (Score: ";
         Fmt (VFloat cleanliness_score); Lit ")"]
        [("room_id", VStr room_id);
         ("cleanliness_score", VFloat cleanliness_score)] in
    (Some a, self')
  else (None, self).

(** The sort key of [get_active_alerts]:
    [{'CRITICAL': 0, 'HIGH': 1, 'MEDIUM': 2, 'LOW': 3}[x.severity.value]]. *)
Definition severity_rank_table : list (string * Z) :=
  [("CRITICAL", 0); ("HIGH", 1); ("MEDIUM", 2); ("LOW", 3)]%Z.

Definition severity_rank (a : Alert) : Z :=
  default 0%Z (dict_get (severity_value (severity a)) severity_rank_table).

(** [AlertManager.get_active_alerts].  An enumeration member is truthy, so
    [if severity:] tests only whether the argument was given. *)
Definition get_active_alerts (self : AlertManager)
    (severity_filter : option AlertSeverity) : list AlertDict :=
  let active_alerts := filter (λ a, acknowledged a = false) self in
  let active_alerts :=
    match severity_filter with
    | Some s => filter (λ a, severity a = s) active_alerts
    | None => active_alerts
    end in
  to_dict <$> sorted severity_rank true active_alerts.

(** [AlertManager.acknowledge_alert]: the first alert carrying the id is
    acknowledged in place. *)
Fixpoint acknowledge_alert (self : AlertManager) (now : Z) (alert_id0 : Z)
    (user_id : string) : bool * AlertManager :=
  match self with
  | [] => (false, [])
  | alert :: rest =>
      if bool_decide (alert_id alert = alert_id0) then
        (true, acknowledge now user_id alert :: rest)
      else
        let (found, rest') := acknowledge_alert rest now alert_id0 user_id in
        (found, alert :: rest')
  end.

(** [AlertManager.check_burnout_alert]; the level alone decides, the score
    is only recorded. *)
Definition check_burnout_alert (self : AlertManager) (now : Z)
    (doctor_id : string) (burnout_score : Q) (burnout_level : string)
    : option Alert * AlertManager :=
  let details :=
    [("doctor_id", VStr doctor_id);
     ("burnout_score", VFloat burnout_score);
     ("risk_level", VStr burnout_level)] in
  if bool_decide (burnout_level = "CRITICAL") then
    let (a, self') :=
      create_alert self now DOCTOR_BURNOUT CRITICAL
        [Lit "CRITICAL: Doctor "; Fmt (VStr doctor_id);
         Lit " showing severe burnout symptoms"]
        details in
    (Some a, self')
  else if bool_decide (burnout_level = "HIGH") then
    let (a, self') :=
      create_alert self now DOCTOR_BURNOUT HIGH
        [Lit "Doctor "; Fmt (VStr doctor_id);
         Lit " showing high burnout risk"]
        details in
    (Some a, self')
  else (None, self).

(** [AlertManager.check_complaint_alert] *)
Definition check_complaint_alert (self : AlertManager) (now : Z)
    (doctor_id complaint_type severity : string)
    : option Alert * AlertManager :=
  let details :=
    [("doctor_id", VStr doctor_id);
     ("complaint_type", VStr complaint_type);
     ("severity", VStr severity)] in
  if bool_decide (severity = "CRITICAL") then
    let (a, self') :=
      create_alert self now COMPLAINT_FILED CRITICAL
        [Lit "CRITICAL complaint filed against Doctor "; Fmt (VStr doctor_id);
         Lit ": "; Fmt (VStr complaint_type)]
        details in
    (Some a, self')
  else if bool_decide (severity = "HIGH") then
    let (a, self') :=
      create_alert self now COMPLAINT_FILED HIGH
        [Lit "Serious complaint filed against Doctor "; Fmt (VStr doctor_id)]
        details in
    (Some a, self')
  else (None, self).

(** A number held in a dictionary; [None] for a value that Python cannot
    compare with a number. *)
Definition number_of (v : value) : option Q :=
  match v with
  | VInt z => Some (inject_Z z)
  | VFloat q => Some q
  | VNone | VStr _ => None
  end.

(** [AlertManager.check_issue_cluster_alert]; the outer [None] is the
    [TypeError] of comparing a frequency that is not a number. *)
Definition check_issue_cluster_alert (self : AlertManager) (now : Z)
    (cluster_data : list (string * value))
    : option (option Alert * AlertManager) :=
  frequency ← number_of (default (VInt 0) (dict_get "frequency" cluster_data));
  Some
    (if decide (threshold "issue_cluster_critical" <= frequency)%Q then
       let (a, self') :=
         create_alert self now ISSUE_CLUSTER MEDIUM
           [Lit "Issue cluster detected: ";
            Fmt (default VNone (dict_get "primary_issue" cluster_data));
            Lit " (";
            Fmt (default VNone (dict_get "frequency" cluster_data));
            Lit " cases)"]
           cluster_data in
       (Some a, self')
     else (None, self)).

(** Microseconds in [timedelta(hours=1)]. *)
Definition timedelta_hours (hours : Z) : Z := (hours * 3600000000)%Z.

(** The report of [get_alert_statistics]. *)
Record AlertStatistics : Type := mkAlertStatistics {
  period_hours : Z;
  total_alerts : nat;
  unacknowledged_alerts : nat;
  severity_distribution : list (string * nat);
  type_distribution : list (string * nat)
}.

(** [AlertManager.get_alert_statistics] *)
Definition get_alert_statistics (self : AlertManager) (now hours : Z)
    : AlertStatistics :=
  let recent_alerts :=
    filter (λ a, (now - timedelta_hours hours < created_at a)%Z) self in
  let count (s : AlertSeverity) :=
    length (filter (λ a, severity a = s) recent_alerts) in
  let severity_count :=
    [("CRITICAL", count CRITICAL); ("HIGH", count HIGH);
     ("MEDIUM", count MEDIUM); ("LOW", count LOW)] in
  let type_count :=
    fold_left (λ d alert, dict_update 0%nat S (type_value (alert_type alert)) d)
      recent_alerts [] in
  {| period_hours := hours;
     total_alerts := length recent_alerts;
     unacknowledged_alerts :=
       length (filter (λ a, acknowledged a = false) recent_alerts);
     severity_distribution := severity_count;
     type_distribution := type_count |}.

End AlertSystem.

(** ** facility_monitor.py *)

Module FacilityMonitor.
Import Py.

Record FoodReview : Type := mkFoodReview {
  food_review_id : string;
  quality_score : Q;
  food_aspects : list (string * Q);
  food_comments : string;
  food_submitted_date : Z;
  food_status : string
}.

Record RoomReview : Type := mkRoomReview {
  room_review_id : string;
  room_id : string;
  cleanliness_score : Q;
  room_aspects : list (string * Q);
  room_comments : string;
  room_submitted_date : Z;
  room_status : string
}.

(** The [alert] dictionary of a submission; [alert_room_id] is the
    ['room_id'] key, present for rooms only. *)
Record QualityAlert : Type := mkQualityAlert {
  alert_type : string;
  alert_severity : string;
  alert_room_id : option string;
  alert_message : fstring;
  alert_timestamp : Z
}.

Record SubmitResult : Type := mkSubmitResult {
  result_status : string;
  result_review_id : string;
  result_room_id : option string;
  result_alert : option QualityAlert
}.

(** [class FacilityQualityMonitor]: [defaultdict(list)] stores. *)
Record FacilityQualityMonitor : Type := mkMonitor {
  food_reviews : gmap string (list FoodReview);
  room_reviews : gmap string (list RoomReview)
}.

Definition init : FacilityQualityMonitor :=
  {| food_reviews := ∅; room_reviews := ∅ |}.

(** [FacilityQualityMonitor.submit_food_quality_review] *)
Definition submit_food_quality_review (self : FacilityQualityMonitor)
    (now : Z) (review_id : string) (quality_score : Q)
    (aspects : list (string * Q)) (comments : string)
    : SubmitResult * FacilityQualityMonitor :=
  let review :=
    {| food_review_id := review_id;
       quality_score := quality_score;
       food_aspects := aspects;
       food_comments := comments;
       food_submitted_date := now;
       food_status := "ACTIVE" |} in
  let self' :=
    {| food_reviews :=
         <[review_id := default [] (food_reviews self !! review_id) ++ [review]]>
           (food_reviews self);
       room_reviews := room_reviews self |} in
  let alert :=
    if decide (quality_score <= 2)%Q then
      Some {| alert_type := "FOOD_QUALITY_CRITICAL";
              alert_severity := "HIGH";
              alert_room_id := None;
              alert_message :=
                [Lit "Critical food quality issue reported (Score: ";
                 Fmt (VFloat quality_score); Lit ")"];
              alert_timestamp := now |}
    else None in
  ({| result_status := "submitted";
      result_review_id := review_id;
      result_room_id := None;
      result_alert := alert |}, self').

(** [FacilityQualityMonitor.submit_room_quality_review] *)
Definition submit_room_quality_review (self : FacilityQualityMonitor)
    (now : Z) (review_id room_id : string) (cleanliness_score : Q)
    (aspects : list (string * Q)) (comments : string)
    : SubmitResult * FacilityQualityMonitor :=
  let review :=
    {| room_review_id := review_id;
       room_id := room_id;
       cleanliness_score := cleanliness_score;
       room_aspects := aspects;
       room_comments := comments;
       room_submitted_date := now;
       room_status := "ACTIVE" |} in
  let self' :=
    {| food_reviews := food_reviews self;
       room_reviews :=
         <[room_id := default [] (room_reviews self !! room_id) ++ [review]]>
           (room_reviews self) |} in
  let alert :=
    if decide (cleanliness_score <= 2)%Q then
      Some {| alert_type := "ROOM_QUALITY_CRITICAL";
              alert_severity := "HIGH";
              alert_room_id := Some room_id;
              alert_message :=
                [Lit "Critical room cleanliness issue in room ";
                 Fmt (VStr room_id); Lit " (Score: ";
                 Fmt (VFloat cleanliness_score); Lit ")"];
              alert_timestamp := now |}
    else None in
  ({| result_status := "submitted";
      result_review_id := review_id;
      result_room_id := Some room_id;
      result_alert := alert |}, self').

(** [FacilityQualityMonitor._get_food_quality_status] *)
Definition _get_food_quality_status (avg_score : Q) : string :=
  if decide (4.5 <= avg_score)%Q then "EXCELLENT"
  else if decide (4.0 <= avg_score)%Q then "VERY_GOOD"
  else if decide (3.5 <= avg_score)%Q then "GOOD"
  else if decide (2.5 <= avg_score)%Q then "FAIR"
  else "POOR".

(** [FacilityQualityMonitor._get_room_quality_status] *)
Definition _get_room_quality_status (avg_score : Q) : string :=
  if decide (4.5 <= avg_score)%Q then "EXCELLENT"
  else if decide (4.0 <= avg_score)%Q then "VERY_GOOD"
  else if decide (3.5 <= avg_score)%Q then "GOOD"
  else if decide (2.5 <= avg_score)%Q then "FAIR"
  else "POOR".

(** An entry of the maintenance priority list. *)
Record PriorityEntry : Type := mkPriorityEntry {
  entry_room_id : string;
  entry_score : Q;
  priority : string
}.

Definition priority_of (score : Q) : string :=
  if decide (score < 3)%Q then "URGENT"
  else if decide (score < 3.5)%Q then "HIGH"
  else if decide (score < 4)%Q then "MEDIUM"
  else "LOW".

(** The sort key of [_get_maintenance_priority]:
    [{'URGENT': 0, 'HIGH': 1, 'MEDIUM': 2, 'LOW': 3}[x['priority']]]. *)
Definition priority_rank_table : list (string * Z) :=
  [("URGENT", 0); ("HIGH", 1); ("MEDIUM", 2); ("LOW", 3)]%Z.

Definition priority_rank (entry : PriorityEntry) : Z :=
  default 0%Z (dict_get (priority entry) priority_rank_table).

(** [FacilityQualityMonitor._get_maintenance_priority]; [room_scores] is the
    dictionary of room averages, in its order. *)
Definition _get_maintenance_priority (room_scores : list (string * Q))
    : list PriorityEntry :=
  let priority_list :=
    (λ '(room_id, score),
       {| entry_room_id := room_id;
          entry_score := score;
          priority := priority_of score |}) <$> room_scores in
  sorted priority_rank false priority_list.

End FacilityMonitor.

(** ** backend/doctor_analyzer.py *)

Module DoctorAnalyzer.
Import Py.

Record Shift : Type := mkShift {
  date : string;
  hours : Q;
  patient_count : Z;
  emergency_cases : Z;
  workload_index : Q;
  timestamp : Z
}.

Record Complaint : Type := mkComplaint {
  complaint_id : fstring;
  complaint_doctor_id : string;
  complaint_type : string;
  description : string;
  complaint_severity : string;
  complaint_status : string;
  filed_date : Z;
  resolved_date : option Z
}.

Record SentimentSample : Type := mkSample {
  score : Q;
  sample_review_id : option string;
  sample_timestamp : Z
}.

(** [class DoctorAnalyzer]: the three [defaultdict(list)] stores.  The
    [doctors] dictionary is never written by this module. *)
Record DoctorAnalyzer : Type := mkAnalyzer {
  duty_logs : gmap string (list Shift);
  complaints : gmap string (list Complaint);
  sentiment_scores : gmap string (list SentimentSample)
}.

Definition init : DoctorAnalyzer :=
  {| duty_logs := ∅; complaints := ∅; sentiment_scores := ∅ |}.

(** [DoctorAnalyzer.register_duty_shift] *)
Definition register_duty_shift (self : DoctorAnalyzer) (now : Z)
    (doctor_id shift_date : string) (hours : Q)
    (patient_count emergency_cases : Z) : Shift * DoctorAnalyzer :=
  let shift_info :=
    {| date := shift_date;
       hours := hours;
       patient_count := patient_count;
       emergency_cases := emergency_cases;
       workload_index :=
         if decide (0 < hours)%Q then (inject_Z patient_count / hours)%Q else 0%Q;
       timestamp := now |} in
  (shift_info,
   {| duty_logs :=
        <[doctor_id := default [] (duty_logs self !! doctor_id) ++ [shift_info]]>
          (duty_logs self);
      complaints := complaints self;
      sentiment_scores := sentiment_scores self |}).

(** The three weighted factors of the burnout score, as functions of the
    per-shift averages. *)
Definition hours_factor (avg_hours_per_shift : Q) : Q :=
  (min (avg_hours_per_shift / 12) 1 * 0.4)%Q.

Definition patient_factor (avg_patients_per_shift : Q) : Q :=
  (min (avg_patients_per_shift / 30) 1 * 0.35)%Q.

Definition emergency_factor (avg_emergencies_per_shift : Q) : Q :=
  (min (avg_emergencies_per_shift / 5) 1 * 0.25)%Q.

Definition burnout_score_of (avg_hours_per_shift avg_patients_per_shift
    avg_emergencies_per_shift : Q) : Q :=
  (hours_factor avg_hours_per_shift
   + patient_factor avg_patients_per_shift
   + emergency_factor avg_emergencies_per_shift)%Q.

Definition risk_level_of (burnout_score : Q) : string :=
  if decide (0.7 < burnout_score)%Q then "CRITICAL"
  else if decide (0.5 < burnout_score)%Q then "HIGH"
  else if decide (0.3 < burnout_score)%Q then "MODERATE"
  else "LOW".

(** [DoctorAnalyzer._get_burnout_recommendations] *)
Definition _get_burnout_recommendations (burnout_score : Q) : list string :=
  if decide (0.7 < burnout_score)%Q then
    ["URGENT: Reduce work schedule immediately";
     "Schedule wellness check-up";
     "Consider temporary leave";
     "Assign additional support staff"]
  else if decide (0.5 < burnout_score)%Q then
    ["Monitor workload closely";
     "Reduce patient load by 20-30%";
     "Encourage breaks and time off";
     "Provide mental health support"]
  else if decide (0.3 < burnout_score)%Q then
    ["Continue current schedule with monitoring";
     "Encourage regular breaks";
     "Schedule monthly wellness check-ins"]
  else ["Current workload is sustainable"].

Record BurnoutMetrics : Type := mkMetrics {
  average_hours_per_shift : Q;
  average_patients_per_shift : Q;
  total_emergency_cases : Z;
  total_shifts_analyzed : nat;
  metric_hours_factor : Q;
  metric_patient_factor : Q;
  metric_emergency_factor : Q
}.

(** The report of [calculate_burnout_risk]; [metrics = None] is the empty
    dictionary and [recommendations = None] an absent key. *)
Record BurnoutReport : Type := mkBurnoutReport {
  burnout_doctor_id : string;
  risk_level : string;
  risk_score : Q;
  metrics : option BurnoutMetrics;
  recommendations : option (list string)
}.

(** The shifts of [recent_shifts] newer than the cutoff. *)
Definition shifts_in_window (now days_window : Z) (recent_shifts : list Shift)
    : list Shift :=
  filter (λ s, (now - timedelta_days days_window < timestamp s)%Z) recent_shifts.

(** [DoctorAnalyzer.calculate_burnout_risk] *)
Definition calculate_burnout_risk (self : DoctorAnalyzer) (now : Z)
    (doctor_id : string) (days_window : Z) : BurnoutReport :=
  let recent_shifts := default [] (duty_logs self !! doctor_id) in
  match recent_shifts with
  | [] =>
      {| burnout_doctor_id := doctor_id;
         risk_level := "NO_DATA";
         risk_score := 0;
         metrics := None;
         recommendations := None |}
  | _ :: _ =>
      let recent := shifts_in_window now days_window recent_shifts in
      match recent with
      | [] =>
          {| burnout_doctor_id := doctor_id;
             risk_level := "LOW";
             risk_score := 0;
             metrics := None;
             recommendations := None |}
      | _ :: _ =>
          let total_hours := sum (hours <$> recent) in
          let total_patients := sum_int (patient_count <$> recent) in
          let total_emergencies := sum_int (emergency_cases <$> recent) in
          let num_shifts := length recent in
          let n := inject_Z (Z.of_nat num_shifts) in
          let avg_hours_per_shift :=
            if decide (0 < num_shifts)%nat then (total_hours / n)%Q
            else 0%Q in
          let avg_patients_per_shift :=
            if decide (0 < num_shifts)%nat then (inject_Z total_patients / n)%Q
            else 0%Q in
          let burnout_score :=
            burnout_score_of avg_hours_per_shift avg_patients_per_shift
              (inject_Z total_emergencies / n)%Q in
          {| burnout_doctor_id := doctor_id;
             risk_level := risk_level_of burnout_score;
             risk_score := round burnout_score 3;
             metrics :=
               Some
                 {| average_hours_per_shift := round avg_hours_per_shift 2;
                    average_patients_per_shift :=
                      round avg_patients_per_shift 2;
                    total_emergency_cases := total_emergencies;
                    total_shifts_analyzed := num_shifts;
                    metric_hours_factor :=
                      round (hours_factor avg_hours_per_shift) 3;
                    metric_patient_factor :=
                      round (patient_factor avg_patients_per_shift) 3;
                    metric_emergency_factor :=
                      round
                        (emergency_factor (inject_Z total_emergencies / n)%Q)
                        3 |};
             recommendations :=
               Some (_get_burnout_recommendations burnout_score) |}
      end
  end.

(** The per-shift averages of hours, patients and emergencies that
    [calculate_burnout_risk] computes from a non-empty [recent]. *)
Definition averages_of (recent : list Shift) : Q * Q * Q :=
  let n := inject_Z (Z.of_nat (length recent)) in
  ((sum (hours <$> recent) / n)%Q,
   (inject_Z (sum_int (patient_count <$> recent)) / n)%Q,
   (inject_Z (sum_int (emergency_cases <$> recent)) / n)%Q).

(** A shift without negative hours, patients or emergencies. *)
Definition plausible_shift (s : Shift) : Prop :=
  (0 <= hours s)%Q ∧ (0 <= patient_count s)%Z ∧ (0 <= emergency_cases s)%Z.

(** [DoctorAnalyzer.file_complaint] *)
Definition file_complaint (self : DoctorAnalyzer) (now : Z)
    (doctor_id complaint_type description severity : string)
    : Complaint * DoctorAnalyzer :=
  let complaint :=
    {| complaint_id :=
         [Lit "CMPL_"; Fmt (VStr doctor_id); Lit "_"; Fmt (VInt now)];
       complaint_doctor_id := doctor_id;
       complaint_type := complaint_type;
       description := description;
       complaint_severity := severity;
       complaint_status := "OPEN";
       filed_date := now;
       resolved_date := None |} in
  (complaint,
   {| duty_logs := duty_logs self;
      complaints :=
        <[doctor_id := default [] (complaints self !! doctor_id) ++ [complaint]]>
          (complaints self);
      sentiment_scores := sentiment_scores self |}).

(** [DoctorAnalyzer._calculate_complaint_status] *)
Definition _calculate_complaint_status (cs : list Complaint) : string :=
  match cs with
  | [] => "GOOD"
  | _ :: _ =>
      let unresolved :=
        length (filter (λ c, complaint_status c = "OPEN") cs) in
      let critical :=
        length (filter (λ c, complaint_severity c = "CRITICAL") cs) in
      if decide (0 < critical ∨ 3 < unresolved)%nat then "CRITICAL"
      else if decide (1 < unresolved)%nat then "CONCERNING"
      else "ACCEPTABLE"
  end.

Record ComplaintPatterns : Type := mkPatterns {
  severity_distribution : list (string * nat);
  resolution_rate : Q;
  recent_complaints : list Complaint;
  overall_complaint_status : string
}.

(** The report of [get_complaint_history]; the keys of [patterns] are
    absent for a doctor without complaints. *)
Record ComplaintReport : Type := mkComplaintReport {
  complaint_report_doctor_id : string;
  total_complaints : nat;
  complaint_patterns : list (string * nat);
  patterns : option ComplaintPatterns
}.

(** [l[-n:]] *)
Definition last_n {A : Type} (n : nat) (l : list A) : list A :=
  drop (length l - n) l.

(** [DoctorAnalyzer.get_complaint_history] *)
Definition get_complaint_history (self : DoctorAnalyzer) (doctor_id : string)
    : ComplaintReport :=
  let cs := default [] (complaints self !! doctor_id) in
  match cs with
  | [] =>
      {| complaint_report_doctor_id := doctor_id;
         total_complaints := 0;
         complaint_patterns := [];
         patterns := None |}
  | _ :: _ =>
      let complaint_types :=
        fold_left (λ d c, dict_update 0%nat S (complaint_type c) d) cs [] in
      let severity_dist :=
        fold_left (λ d c, dict_update 0%nat S (complaint_severity c) d) cs [] in
      let resolved :=
        length (filter (λ c, complaint_status c = "RESOLVED") cs) in
      let resolution_rate :=
        (inject_Z (Z.of_nat resolved) / inject_Z (Z.of_nat (length cs)) * 100)%Q in
      {| complaint_report_doctor_id := doctor_id;
         total_complaints := length cs;
         complaint_patterns := complaint_types;
         patterns :=
           Some {| severity_distribution := severity_dist;
                   resolution_rate := round resolution_rate 2;
                   recent_complaints := last_n 5 cs;
                   overall_complaint_status :=
                     _calculate_complaint_status cs |} |}
  end.

(** [DoctorAnalyzer.track_sentiment] *)
Definition track_sentiment (self : DoctorAnalyzer) (now : Z)
    (doctor_id : string) (sentiment_score : Q) (review_id : option string)
    : DoctorAnalyzer :=
  {| duty_logs := duty_logs self;
     complaints := complaints self;
     sentiment_scores :=
       <[doctor_id :=
           default [] (sentiment_scores self !! doctor_id)
             ++ [{| score := sentiment_score;
                    sample_review_id := review_id;
                    sample_timestamp := now |}]]>
         (sentiment_scores self) |}.

(** [DoctorAnalyzer._get_rating_status] *)
Definition _get_rating_status (rating : Q) : string :=
  if decide (4.5 <= rating)%Q then "EXCELLENT"
  else if decide (4.0 <= rating)%Q then "VERY_GOOD"
  else if decide (3.5 <= rating)%Q then "GOOD"
  else if decide (3.0 <= rating)%Q then "FAIR"
  else "POOR".

(** The affine map from a sentiment score in [-1, 1] to a rating in
    [1, 5]. *)
Definition rating_of_score (score : Q) : Q := ((score + 1) / 2 * 4 + 1)%Q.

(** The report of [get_doctor_rating]; the last two keys are absent for a
    doctor without samples. *)
Record RatingReport : Type := mkRatingReport {
  rating_doctor_id : string;
  rating : Q;
  total_reviews : nat;
  rating_distribution : list (Z * nat);
  average_sentiment_score : option Q;
  rating_status : option string
}.

(** [DoctorAnalyzer.get_doctor_rating] *)
Definition get_doctor_rating (self : DoctorAnalyzer) (doctor_id : string)
    : RatingReport :=
  let sentiments := default [] (sentiment_scores self !! doctor_id) in
  match sentiments with
  | [] =>
      {| rating_doctor_id := doctor_id;
         rating := 0;
         total_reviews := 0;
         rating_distribution := [];
         average_sentiment_score := None;
         rating_status := None |}
  | _ :: _ =>
      let scores := score <$> sentiments in
      let avg_score := mean scores in
      let rating := rating_of_score avg_score in
      let rating_dist :=
        fold_left
          (λ d score,
             let rating_val := rating_of_score score in
             let bin_num := Z.min 5 (Z.max 1 (int rating_val)) in
             dict_update 0%nat S bin_num d)
          scores [] in
      {| rating_doctor_id := doctor_id;
         rating := round rating 2;
         total_reviews := length sentiments;
         rating_distribution := rating_dist;
         average_sentiment_score := Some (round avg_score 3);
         rating_status := Some (_get_rating_status rating) |}
  end.

(** The composite score of [get_doctor_performance_dashboard], before
    rounding. *)
Definition performance_score_of (rating risk_score : Q)
    (total_complaints : nat) : Q :=
  ((rating / 5 * 100) * 0.5
   + ((1 - risk_score) * 100) * 0.3
   + inject_Z (100 - Z.min (Z.of_nat total_complaints * 5) 100) * 0.2)%Q.

Record PerformanceDashboard : Type := mkDashboard {
  dashboard_doctor_id : string;
  overall_performance_score : Q;
  burnout_analysis : BurnoutReport;
  complaint_analysis : ComplaintReport;
  patient_rating : RatingReport;
  dashboard_generated : Z
}.

(** [DoctorAnalyzer.get_doctor_performance_dashboard]; the burnout risk is
    taken over the default window of 30 days. *)
Definition get_doctor_performance_dashboard (self : DoctorAnalyzer) (now : Z)
    (doctor_id : string) : PerformanceDashboard :=
  let burnout := calculate_burnout_risk self now doctor_id 30 in
  let complaints := get_complaint_history self doctor_id in
  let rating := get_doctor_rating self doctor_id in
  let performance_score :=
    performance_score_of (DoctorAnalyzer.rating rating) (risk_score burnout)
      (total_complaints complaints) in
  {| dashboard_doctor_id := doctor_id;
     overall_performance_score := round performance_score 2;
     burnout_analysis := burnout;
     complaint_analysis := complaints;
     patient_rating := rating;
     dashboard_generated := now |}.


(** The bin of one score in the rating distribution of
    [get_doctor_rating]: [min(5, max(1, int(rating_val)))]. *)
Definition rating_bin (score : Q) : Z :=
  Z.min 5 (Z.max 1 (int (rating_of_score score))).

End DoctorAnalyzer.

(** ** sentiment_analyzer.py *)

Module Sentiment.
Import Py.

(** *** The libraries the analyzer calls

    NLTK, TextBlob, the translation client and the transformer pipeline are
    not part of the repository: they are fields of the analyzer, and a call
    that can raise returns an [option], [None] standing for any exception. *)

(** [SentimentIntensityAnalyzer.polarity_scores] *)
Record PolarityScores : Type := mkPolarityScores {
  compound : Q;
  pos : Q;
  neg : Q;
  neu : Q
}.

(** What [translator.translate] returns: a dictionary, with or without a
    ['text'] key, or another object, of which [str] is taken. *)
Inductive Translated : Type :=
| TranslatedDict (text : option string)
| TranslatedOther (str : string).

Record Translator : Type := mkTranslator {
  (** [None]: raises; [Some None]: a falsy result; [Some (Some lang)]. *)
  detect : string → option (option string);
  (** [translate(text, src_lang=.., dest_lang='en')] *)
  translate : string → string → option Translated
}.

Record SentimentAnalyzer : Type := mkSentimentAnalyzer {
  HAS_GOOGLETRANS : bool;
  vader : string → PolarityScores;
  (** [TextBlob(text).sentiment]: polarity and subjectivity. *)
  textblob_sentiment : string → Q * Q;
  translator : option Translator;
  (** The pipeline applied to a text, giving the label and score of its
      first result. *)
  transformer : option (string → option (string * Q));
  (** English stop words; empty when the corpus cannot be loaded. *)
  stop_words : list string;
  word_tokenize : string → option (list string)
}.

(** [SentimentAnalyzer.detect_language] *)
Definition detect_language (self : SentimentAnalyzer) (text : string)
    : string :=
  match translator self with
  | Some t =>
      if HAS_GOOGLETRANS self then
        match detect t text with
        | Some (Some lang) => lang
        | Some None => "en"
        | None => "en"
        end
      else "en"
  | None => "en"
  end.

(** [SentimentAnalyzer.translate_to_english] *)
Definition translate_to_english (self : SentimentAnalyzer) (text : string)
    (source_lang : option string) : string :=
  if bool_decide (source_lang = Some "en") then text
  else
    let source_lang :=
      match source_lang, translator self with
      | None, Some _ => Some (detect_language self text)
      | _, _ => source_lang
      end in
    match source_lang with
    | None => text
    | Some lang =>
        if bool_decide (lang = "en") then text
        else
          match translator self with
          | Some t =>
              if HAS_GOOGLETRANS self then
                match translate t text lang with
                | Some (TranslatedDict (Some translated)) => translated
                | Some (TranslatedDict None) => text
                | Some (TranslatedOther str) => str
                | None => text
                end
              else text
          | None => text
          end
    end.

Record VaderResult : Type := mkVaderResult {
  vader_compound : Q;
  vader_positive : Q;
  vader_negative : Q;
  vader_neutral : Q
}.

(** [SentimentAnalyzer.analyze_with_vader] *)
Definition analyze_with_vader (self : SentimentAnalyzer) (text : string)
    : VaderResult :=
  let scores := vader self text in
  {| vader_compound := compound scores;
     vader_positive := pos scores;
     vader_negative := neg scores;
     vader_neutral := neu scores |}.

Record TextBlobResult : Type := mkTextBlobResult {
  polarity : Q;
  textblob_subjectivity : Q
}.

(** [SentimentAnalyzer.analyze_with_textblob] *)
Definition analyze_with_textblob (self : SentimentAnalyzer) (text : string)
    : TextBlobResult :=
  let sentiment := textblob_sentiment self text in
  {| polarity := fst sentiment; textblob_subjectivity := snd sentiment |}.

(** The dictionary of [analyze_with_transformer]: the ['score'] key is set
    on each of its three paths, the others on some. *)
Record TransformerResult : Type := mkTransformerResult {
  transformer_label : option string;
  transformer_positive : option Q;
  transformer_negative : option Q;
  transformer_score : Q
}.

(** [SentimentAnalyzer.analyze_with_transformer] *)
Definition analyze_with_transformer (self : SentimentAnalyzer)
    (text : string) : TransformerResult :=
  match transformer self with
  | None =>
      {| transformer_label := None;
         transformer_positive := Some 0.5;
         transformer_negative := Some 0.5;
         transformer_score := 0.0 |}
  | Some pipeline =>
      match pipeline (str_take 512 text) with
      | Some (result_label, score) =>
          let label := lower result_label in
          {| transformer_label := Some label;
             transformer_positive := None;
             transformer_negative := None;
             transformer_score :=
               if bool_decide (label = "positive") then score else (- score)%Q |}
      | None =>
          {| transformer_label := Some "neutral";
             transformer_positive := None;
             transformer_negative := None;
             transformer_score := 0.0 |}
      end
  end.

Definition emotion_keywords : list (string * list string) :=
  [ ("joy", ["happy"; "wonderful"; "excellent"; "great"; "amazing"; "love";
             "perfect"]);
    ("sadness", ["sad"; "unhappy"; "disappointed"; "depressed"; "miserable";
                 "terrible"]);
    ("anger", ["angry"; "furious"; "outraged"; "frustrated"; "irritated";
               "disgusted"]);
    ("fear", ["afraid"; "scared"; "worried"; "anxious"; "nervous";
              "terrified"]);
    ("surprise", ["surprised"; "amazed"; "shocked"; "astonished";
                  "unexpected"]);
    ("trust", ["trust"; "reliable"; "dependable"; "safe"; "secure";
               "confident"]) ].

(** The number of [keywords] that occur in [text]. *)
Definition count_matches (keywords : list string) (text : string) : nat :=
  length (filter (λ keyword, str_in keyword text = true) keywords).

(** [SentimentAnalyzer.extract_emotions] *)
Definition extract_emotions (text : string) : list (string * Q) :=
  let text_lower := lower text in
  (λ '(emotion, keywords),
     (emotion,
      min (inject_Z (Z.of_nat (count_matches keywords text_lower))
             / inject_Z (Z.of_nat (length keywords))) 1.0))
    <$> emotion_keywords.

(** [max(d, key=d.get)] on a non-empty dictionary: the first key whose
    value is largest. *)
Fixpoint argmax_from (best : string * Q) (d : list (string * Q)) : string :=
  match d with
  | [] => fst best
  | kv :: d' =>
      if decide (snd best < snd kv)%Q then argmax_from kv d'
      else argmax_from best d'
  end.

Definition argmax (d : list (string * Q)) : option string :=
  match d with
  | [] => None
  | kv :: d' => Some (argmax_from kv d')
  end.

(** [SentimentAnalyzer.identify_keywords]; when tokenizing fails the text
    is split on white space and stop words are kept. *)
Definition identify_keywords (self : SentimentAnalyzer) (text : string)
    (top_n : Z) : list string :=
  match word_tokenize self (lower text) with
  | Some tokens =>
      slice_to top_n
        (filter
           (λ word, isalpha word = true ∧ (word ∉ stop_words self)
                    ∧ (3 < String.length word)%nat)
           tokens)
  | None =>
      slice_to top_n
        (filter (λ word, isalpha word = true ∧ (3 < String.length word)%nat)
           (split (lower text)))
  end.

Definition negative_keywords : list string :=
  ["bad"; "poor"; "terrible"; "worst"; "horrible"; "disappointed"; "awful";
   "pain"; "delay"; "slow"; "rude"; "angry"; "error"; "problem"; "issue";
   "needs improvement"].

(** The text that is analysed: [translate_to_english] applied to the
    detected language. *)
Definition english_text_of (self : SentimentAnalyzer) (text : string)
    : string :=
  translate_to_english self text (Some (detect_language self text)).

(** The local [overall_score] of [comprehensive_analysis], before it is
    rounded for the result. *)
Definition fused_score (self : SentimentAnalyzer) (english_text : string)
    : Q :=
  (vader_compound (analyze_with_vader self english_text) * 0.4
   + polarity (analyze_with_textblob self english_text) * 0.3
   + transformer_score (analyze_with_transformer self english_text) * 0.3)%Q.

Definition neg_count (english_text : string) : nat :=
  count_matches negative_keywords (lower english_text).

(** The label decision of [comprehensive_analysis]. *)
Definition label_of (overall_score : Q) (neg_count : nat)
    (vader_compound polarity : Q) : string :=
  if decide (0.3 < overall_score)%Q then "POSITIVE"
  else if bool_decide (overall_score < -0.3)%Q
          || (0 <? neg_count)%nat
             && (bool_decide (vader_compound < 0)%Q
                 || bool_decide (polarity < 0)%Q)
  then "NEGATIVE"
  else "NEUTRAL".

Record Analysis : Type := mkAnalysis {
  original_language : string;
  translated_text : string;
  overall_score : Q;
  sentiment_label : string;
  confidence : Q;
  vader_scores : VaderResult;
  textblob_scores : TextBlobResult;
  transformer_scores : TransformerResult;
  emotions : list (string * Q);
  dominant_emotion : option string;
  keywords : list string;
  subjectivity : Q
}.

(** [SentimentAnalyzer.comprehensive_analysis] *)
Definition comprehensive_analysis (self : SentimentAnalyzer) (text : string)
    : Analysis :=
  let original_language := detect_language self text in
  let english_text :=
    translate_to_english self text (Some original_language) in
  let vader_scores := analyze_with_vader self english_text in
  let textblob_scores := analyze_with_textblob self english_text in
  let transformer_scores := analyze_with_transformer self english_text in
  let emotions := extract_emotions english_text in
  let keywords := identify_keywords self english_text 10 in
  let overall_score := fused_score self english_text in
  let sentiment_label :=
    label_of overall_score (neg_count english_text)
      (vader_compound vader_scores) (polarity textblob_scores) in
  {| original_language := original_language;
     translated_text := english_text;
     overall_score := round overall_score 3;
     sentiment_label := sentiment_label;
     confidence := round (Qabs overall_score) 3;
     vader_scores := vader_scores;
     textblob_scores := textblob_scores;
     transformer_scores := transformer_scores;
     emotions := emotions;
     dominant_emotion := argmax emotions;
     keywords := keywords;
     subjectivity := round (textblob_subjectivity textblob_scores) 3 |}.


(** [MultilingualSentimentAnalyzer.identify_critical_issues] *)
Definition identify_critical_issues (self : SentimentAnalyzer) (text : string)
    (threshold : Q) : bool :=
  let analysis := comprehensive_analysis self text in
  bool_decide (overall_score analysis < threshold)%Q.

End Sentiment.

(** ** backend/dashboard.py *)

Module Dashboard.
Import Py.

(** An entry of the review ledger; [extra] holds the five metadata keys
    when metadata was given. *)
Record Review : Type := mkReview {
  review_id : string;
  sentiment_score : Q;
  sentiment_label : string;
  category : string;
  emotions : list (string * Q);
  keywords : list string;
  original_language : string;
  timestamp : Z;
  extra : list (string * value)
}.

(** [class SentimentTrendAnalyzer]: the state is the ledger
    [self.reviews]; [self.issue_clusters] is never written. *)
Abbreviation SentimentTrendAnalyzer := (list Review) (only parsing).

Definition init : SentimentTrendAnalyzer := [].

(** [metadata.get(key)] *)
Definition metadata_get (key : string) (metadata : list (string * value))
    : value :=
  default VNone (dict_get key metadata).

(** [SentimentTrendAnalyzer.add_review_analysis]; an empty [metadata]
    dictionary is falsy, like [None]. *)
Definition add_review_analysis (self : SentimentTrendAnalyzer) (now : Z)
    (review_id : string) (sentiment_analysis : Sentiment.Analysis)
    (category : string) (metadata : option (list (string * value)))
    : SentimentTrendAnalyzer :=
  let extra :=
    match metadata with
    | Some (_ :: _ as m) =>
        [ ("input_method", metadata_get "input_method" m);
          ("patient_id", metadata_get "patient_id" m);
          ("patient_name", metadata_get "patient_name" m);
          ("rating", metadata_get "rating" m);
          ("language", metadata_get "language" m) ]
    | _ => []
    end in
  self ++
    [{| review_id := review_id;
        sentiment_score := Sentiment.overall_score sentiment_analysis;
        sentiment_label := Sentiment.sentiment_label sentiment_analysis;
        category := category;
        emotions := Sentiment.emotions sentiment_analysis;
        keywords := Sentiment.keywords sentiment_analysis;
        original_language := Sentiment.original_language sentiment_analysis;
        timestamp := now;
        extra := extra |}].

(** The calendar day of a timestamp, the part before ['T']; days are
    ordered like their ISO strings. *)
Definition date_of (timestamp : Z) : Z := (timestamp / microseconds_per_day)%Z.

(** The window and category filter shared by the trend queries. *)
Definition relevant_reviews (self : SentimentTrendAnalyzer) (now days : Z)
    (category0 : option string) : list Review :=
  filter
    (λ r, (now - timedelta_days days < timestamp r)%Z
          ∧ (category0 = None ∨ category0 = Some (category r)))
    self.

(** An entry of [daily_trends]. *)
Record DayCounts : Type := mkDayCounts {
  day_positive : nat;
  day_negative : nat;
  day_neutral : nat;
  day_scores : list Q
}.

Definition empty_day : DayCounts :=
  {| day_positive := 0; day_negative := 0; day_neutral := 0; day_scores := [] |}.

Definition count_review (review : Review) (day : DayCounts) : DayCounts :=
  let sentiment := sentiment_label review in
  let day :=
    if bool_decide (sentiment = "POSITIVE") then
      {| day_positive := S (day_positive day);
         day_negative := day_negative day;
         day_neutral := day_neutral day;
         day_scores := day_scores day |}
    else if bool_decide (sentiment = "NEGATIVE") then
      {| day_positive := day_positive day;
         day_negative := S (day_negative day);
         day_neutral := day_neutral day;
         day_scores := day_scores day |}
    else
      {| day_positive := day_positive day;
         day_negative := day_negative day;
         day_neutral := S (day_neutral day);
         day_scores := day_scores day |} in
  {| day_positive := day_positive day;
     day_negative := day_negative day;
     day_neutral := day_neutral day;
     day_scores := day_scores day ++ [sentiment_score review] |}.

Record DayTrend : Type := mkDayTrend {
  trend_date : Z;
  positive : nat;
  negative : nat;
  neutral : nat;
  average_score : Q;
  day_total_reviews : nat
}.

Record Distribution : Type := mkDistribution {
  positive_percentage : Q;
  negative_percentage : Q;
  neutral_percentage : Q
}.

(** [SentimentTrendAnalyzer._calculate_distribution] *)
Definition _calculate_distribution (reviews : list Review) : Distribution :=
  let count (label : string) :=
    length (filter (λ r, sentiment_label r = label) reviews) in
  let total := length reviews in
  let percentage (n : nat) :=
    if decide (0 < total)%nat then
      round (inject_Z (Z.of_nat n) / inject_Z (Z.of_nat total) * 100) 2
    else 0%Q in
  {| positive_percentage := percentage (count "POSITIVE");
     negative_percentage := percentage (count "NEGATIVE");
     neutral_percentage := percentage (count "NEUTRAL") |}.

(** The report of [get_sentiment_trends]; the last two keys are absent
    when the window is empty. *)
Record TrendReport : Type := mkTrendReport {
  period_days : Z;
  report_category : option string;
  total_reviews : nat;
  trend_data : list DayTrend;
  overall_average_score : option Q;
  sentiment_distribution : option Distribution
}.

(** [SentimentTrendAnalyzer.get_sentiment_trends] *)
Definition get_sentiment_trends (self : SentimentTrendAnalyzer) (now days : Z)
    (category0 : option string) : TrendReport :=
  let relevant := relevant_reviews self now days category0 in
  match relevant with
  | [] =>
      {| period_days := days;
         report_category := category0;
         total_reviews := 0;
         trend_data := [];
         overall_average_score := None;
         sentiment_distribution := None |}
  | _ :: _ =>
      let daily_trends :=
        fold_left
          (λ d review,
             dict_update empty_day (count_review review)
               (date_of (timestamp review)) d)
          relevant [] in
      let trend_data :=
        (λ date,
           let day_data := default empty_day (dict_get date daily_trends) in
           {| trend_date := date;
              positive := day_positive day_data;
              negative := day_negative day_data;
              neutral := day_neutral day_data;
              average_score := round (mean (day_scores day_data)) 3;
              day_total_reviews :=
                day_positive day_data + day_negative day_data
                + day_neutral day_data |})
          <$> sorted id false (fst <$> daily_trends) in
      {| period_days := days;
         report_category := category0;
         total_reviews := length relevant;
         trend_data := trend_data;
         overall_average_score :=
           Some (round (mean (sentiment_score <$> relevant)) 3);
         sentiment_distribution := Some (_calculate_distribution relevant) |}
  end.

(** [SentimentTrendAnalyzer._calculate_cluster_severity] *)
Definition _calculate_cluster_severity (review_ids : list string) : string :=
  if decide (10 ≤ length review_ids)%nat then "CRITICAL"
  else if decide (5 ≤ length review_ids)%nat then "HIGH"
  else if decide (3 ≤ length review_ids)%nat then "MEDIUM"
  else "LOW".

(** [any(word in issue_lower for word in words)] *)
Definition any_in (words : list string) (issue_lower : string) : bool :=
  existsb (λ word, str_in word issue_lower) words.

(** [SentimentTrendAnalyzer._get_cluster_recommendation] *)
Definition _get_cluster_recommendation (issue : string) : string :=
  let issue_lower := lower issue in
  if any_in ["staff"; "doctor"; "nurse"] issue_lower then
    "Review staff training and conduct 1-on-1 meetings"
  else if any_in ["clean"; "dirty"; "hygiene"] issue_lower then
    "Increase housekeeping frequency and conduct audits"
  else if any_in ["food"; "meal"; "diet"] issue_lower then
    "Review food preparation procedures with catering team"
  else if any_in ["wait"; "delay"; "slow"] issue_lower then
    "Review process efficiency and resource allocation"
  else if any_in ["pain"; "discomfort"; "ache"] issue_lower then
    "Review pain management protocols with medical team"
  else "Investigate and implement corrective measures".

Record IssueCluster : Type := mkIssueCluster {
  cluster_id : nat;
  primary_issue : string;
  frequency : nat;
  related_reviews : list string;
  severity : string;
  recommendation : string
}.

(** The report of [cluster_issues]; which of the optional keys are set
    depends on the path taken. *)
Record ClusterReport : Type := mkClusterReport {
  clusters : list IssueCluster;
  clustering_method : option string;
  cluster_total_reviews : option nat;
  cluster_message : option string;
  total_negative_reviews : option nat
}.

Definition negative_reviews (self : SentimentTrendAnalyzer) : list Review :=
  filter (λ r, sentiment_label r = "NEGATIVE") self.

(** [all_keywords]: the occurrences of each keyword, in first-seen
    order. *)
Definition count_keywords (reviews : list Review) : list (string * nat) :=
  fold_left (λ d review, tally (keywords review) d) reviews [].

(** [review_keyword_map] *)
Definition keyword_map (reviews : list Review) : list (string * list string) :=
  fold_left (λ d review, dict_set (review_id review) (keywords review) d)
    reviews [].

Definition make_cluster (review_keyword_map : list (string * list string))
    (entry : nat * (string * nat)) : IssueCluster :=
  let '(idx, (keyword, count)) := entry in
  let related_reviews :=
    fst <$> filter (λ item, keyword ∈ snd item) review_keyword_map in
  {| cluster_id := idx + 1;
     primary_issue := keyword;
     frequency := count;
     related_reviews := related_reviews;
     severity := _calculate_cluster_severity related_reviews;
     recommendation := _get_cluster_recommendation keyword |}.

(** [SentimentTrendAnalyzer.cluster_issues] *)
Definition cluster_issues (self : SentimentTrendAnalyzer) (max_clusters : Z)
    : ClusterReport :=
  if decide (length self < 3)%nat then
    {| clusters := [];
       clustering_method := Some "keyword_based";
       cluster_total_reviews := None;
       cluster_message := None;
       total_negative_reviews := None |}
  else
    let negative_reviews := negative_reviews self in
    match negative_reviews with
    | [] =>
        {| clusters := [];
           clustering_method := None;
           cluster_total_reviews := Some (length self);
           cluster_message := Some "No negative reviews to cluster";
           total_negative_reviews := None |}
    | _ :: _ =>
        let all_keywords := count_keywords negative_reviews in
        let review_keyword_map := keyword_map negative_reviews in
        let sorted_keywords :=
          sorted (λ x, Z.of_nat (snd x)) true all_keywords in
        {| clusters :=
             make_cluster review_keyword_map
               <$> enumerate (slice_to max_clusters sorted_keywords);
           clustering_method := Some "keyword_frequency_based";
           cluster_total_reviews := None;
           cluster_message := None;
           total_negative_reviews := Some (length negative_reviews) |}
    end.

End Dashboard.


(** ** qr_system.py *)

Module FeedbackForm.

(** The options of the [severity] field of [get_complaint_form]. *)
Definition complaint_severity_options : list string :=
  ["Low"; "Medium"; "High"; "Critical"].

End FeedbackForm.

(** ** app.py

    The service calls of two endpoints: the inner [try] block that runs once
    the request body has been validated.  [alert_manager] is [None] when the
    alert module could not be imported; the analyzers and the alert manager
    each read the clock themselves, so each call has its own time.  Of the
    JSON response the fields [shift_logged] and [complaint_filed] are kept
    as the record that was stored, whose status and ids the source reports. *)

Module App.
Import Py.



Record ComplaintResponse : Type := mkComplaintResponse {
  complaint_filed : DoctorAnalyzer.Complaint;
  complaint_alert : option AlertSystem.AlertDict
}.

(** [file_doctor_complaint]: [file_complaint], then [check_complaint_alert]
    with the same severity; [severity] is [data.get('severity', 'MEDIUM')]. *)
Definition file_doctor_complaint
    (doctor_analyzer : DoctorAnalyzer.DoctorAnalyzer)
    (alert_manager : option AlertSystem.AlertManager)
    (filed_at alerted_at : Z) (doctor_id complaint_type description : string)
    (severity : option string)
    : ComplaintResponse * DoctorAnalyzer.DoctorAnalyzer
      * option AlertSystem.AlertManager :=
  let severity := default "MEDIUM" severity in
  let (result, doctor_analyzer') :=
    DoctorAnalyzer.file_complaint doctor_analyzer filed_at doctor_id
      complaint_type description severity in
  match alert_manager with
  | Some manager =>
      let (alert, manager') :=
        AlertSystem.check_complaint_alert manager alerted_at doctor_id
          complaint_type severity in
      ({| complaint_filed := result;
          complaint_alert := AlertSystem.to_dict <$> alert |},
       doctor_analyzer', Some manager')
  | None =>
      ({| complaint_filed := result; complaint_alert := None |},
       doctor_analyzer', None)
  end.

End App.

(** ** Scenarios

    The concrete stores and inputs at which the properties below are
    evaluated. *)

Module Scenarios.

(** One shift of doctor D1, of 13 hours with 20 patients and 3 emergencies,
    logged at time 0. *)
Definition stale_log : DoctorAnalyzer.DoctorAnalyzer :=
  snd (DoctorAnalyzer.register_duty_shift DoctorAnalyzer.init 0 "D1"
         "2024-01-01" 13 20 3).

(** Doctor D1 has two tracked sentiment samples, doctor D2 none. *)
Definition tracked : DoctorAnalyzer.DoctorAnalyzer :=
  DoctorAnalyzer.track_sentiment
    (DoctorAnalyzer.track_sentiment stale_log 5 "D1" (-0.5) None)
    6 "D1" 1 None.

(** Four alerts of severities LOW, CRITICAL, MEDIUM and HIGH, created in
    that order at times 1 to 4; none is acknowledged. *)
Definition four_alerts : AlertSystem.AlertManager :=
  let create (severity : AlertSystem.AlertSeverity) (now : Z)
      (self : AlertSystem.AlertManager) :=
    snd (AlertSystem.create_alert self now AlertSystem.SYSTEM_ERROR severity
           [Py.Lit "test"] []) in
  create AlertSystem.HIGH 4%Z
    (create AlertSystem.MEDIUM 3%Z
       (create AlertSystem.CRITICAL 2%Z
          (create AlertSystem.LOW 1%Z AlertSystem.init))).

(** A store holding one MEDIUM alert, created at time 3. *)
Definition one_alert : AlertSystem.AlertManager :=
  snd (AlertSystem.create_alert AlertSystem.init 3%Z AlertSystem.SYSTEM_ERROR
         AlertSystem.MEDIUM [Py.Lit "test"] []).

(** A NEGATIVE review of score -0.5 in category general. *)
Definition negative_review (review_id : string) (keywords : list string)
    (timestamp : Z) : Dashboard.Review :=
  {| Dashboard.review_id := review_id;
     Dashboard.sentiment_score := -0.5;
     Dashboard.sentiment_label := "NEGATIVE";
     Dashboard.category := "general";
     Dashboard.emotions := [];
     Dashboard.keywords := keywords;
     Dashboard.original_language := "en";
     Dashboard.timestamp := timestamp;
     Dashboard.extra := [] |}.

(** Six NEGATIVE reviews whose only keyword is wait. *)
Definition wait_only_ledger : list Dashboard.Review :=
  [ negative_review "r1" ["wait"] 1; negative_review "r2" ["wait"] 2;
    negative_review "r3" ["wait"] 3; negative_review "r4" ["wait"] 4;
    negative_review "r5" ["wait"] 5; negative_review "r6" ["wait"] 6 ]%Z.

(** Six NEGATIVE reviews that all contain wait, each with one more keyword
    that no other review contains. *)
Definition wait_ledger : list Dashboard.Review :=
  [ negative_review "r1" ["long"; "wait"] 1;
    negative_review "r2" ["wait"; "queue"] 2;
    negative_review "r3" ["wait"; "hours"] 3;
    negative_review "r4" ["wait"; "reception"] 4;
    negative_review "r5" ["wait"; "appointment"] 5;
    negative_review "r6" ["wait"; "forever"] 6 ]%Z.

(** An analyzer without translator and without transformer model, whose
    lexicon and polarity signals rate every text at -0.1 and 0.2, with
    subjectivity 0.5; tokenizing is unavailable. *)
Definition offline_analyzer : Sentiment.SentimentAnalyzer :=
  {| Sentiment.HAS_GOOGLETRANS := false;
     Sentiment.vader := λ _, Sentiment.mkPolarityScores (-0.1) 0 0.1 0.9;
     Sentiment.textblob_sentiment := λ _, (0.2, 0.5)%Q;
     Sentiment.translator := None;
     Sentiment.transformer := None;
     Sentiment.stop_words := [];
     Sentiment.word_tokenize := λ _, None |}.

(** The four alerts after the MEDIUM one, created at time 3, has been
    acknowledged by alice. *)
Definition four_alerts_one_acknowledged : AlertSystem.AlertManager :=
  (AlertSystem.acknowledge_alert four_alerts 10 3 "alice").2.

(** Doctor D1 after a MEDIUM complaint about waiting, filed at time 8. *)
Definition one_complaint : DoctorAnalyzer.DoctorAnalyzer :=
  (DoctorAnalyzer.file_complaint tracked 8 "D1" "waiting" "two hours late"
     "MEDIUM").2.

End Scenarios.

(** * Properties *)

(** ** Rounding *)

Module PyFacts.
Import Py.

Lemma round_half_even_spec (x : Q) :
  (inject_Z (round_half_even x) - (1 # 2) <= x
   ∧ x <= inject_Z (round_half_even x) + (1 # 2))%Q.
Proof.
  unfold round_half_even.
  pose proof (Qfloor_le x) as Hlo.
  pose proof (Qlt_floor x) as Hhi.
  rewrite inject_Z_plus in Hhi.
  destruct (Qcompare_spec (x - inject_Z (Qfloor x)) (1 # 2)) as [He|Hl|Hg];
    [destruct (Z.even (Qfloor x))| |];
    rewrite ?inject_Z_plus; change (inject_Z 1) with 1%Q in *; split; lra.
Qed.

#[global] Instance round_half_even_comp : Proper (Qeq ==> eq) round_half_even.
Proof.
  intros x y Hxy. unfold round_half_even.
  rewrite (Qfloor_comp x y Hxy).
  assert ((x - inject_Z (Qfloor y) ?= 1 # 2)
          = (y - inject_Z (Qfloor y) ?= 1 # 2))%Q as ->; [|done].
  apply Qcompare_comp; [by rewrite Hxy | reflexivity].
Qed.

Lemma round_half_even_mono (x y : Q) :
  (x <= y)%Q → (round_half_even x <= round_half_even y)%Z.
Proof.
  intros Hxy. destruct (Qle_lt_or_eq _ _ Hxy) as [Hlt|Heq].
  - destruct (round_half_even_spec x) as [Hx _].
    destruct (round_half_even_spec y) as [_ Hy].
    assert (inject_Z (round_half_even x) < inject_Z (round_half_even y + 1))%Q
      as H by (rewrite inject_Z_plus; change (inject_Z 1) with 1%Q; lra).
    rewrite <- Zlt_Qlt in H. lia.
  - by rewrite Heq.
Qed.

Lemma round_half_even_Z (z : Z) : round_half_even (inject_Z z) = z.
Proof.
  unfold round_half_even. rewrite Qfloor_Z.
  destruct (Qcompare_spec (inject_Z z - inject_Z z) (1 # 2)); [lra|done|lra].
Qed.

Lemma pow10_pos (n : nat) : (0 < inject_Z (pow10 n))%Q.
Proof.
  unfold pow10. change 0%Q with (inject_Z 0). rewrite <- Zlt_Qlt.
  apply Z.pow_pos_nonneg; lia.
Qed.

#[global] Instance round_comp : Proper (Qeq ==> eq ==> Qeq) round.
Proof.
  intros x y Hxy n ? <-. unfold round.
  assert (x * inject_Z (pow10 n) == y * inject_Z (pow10 n))%Q as H
    by (by rewrite Hxy).
  by rewrite (round_half_even_comp _ _ H).
Qed.

(** Rounding is monotone. *)
Lemma round_mono (x y : Q) (n : nat) : (x <= y)%Q → (round x n <= round y n)%Q.
Proof.
  intros Hxy. unfold round.
  pose proof (pow10_pos n) as Hp.
  apply Qmult_le_compat_r; [|apply Qlt_le_weak, Qinv_lt_0_compat, Hp].
  rewrite <- Zle_Qle. apply round_half_even_mono.
  apply Qmult_le_compat_r; [done | lra].
Qed.

(** A multiple of [10^-n] is its own rounding; so is every integer. *)
Lemma round_exact (z : Z) (n : nat) :
  (round (inject_Z z / inject_Z (pow10 n)) n == inject_Z z / inject_Z (pow10 n))%Q.
Proof.
  unfold round. pose proof (pow10_pos n) as Hp.
  assert (inject_Z z / inject_Z (pow10 n) * inject_Z (pow10 n) == inject_Z z)%Q
    as H by (field; lra).
  by rewrite (round_half_even_comp _ _ H), round_half_even_Z.
Qed.

Lemma round_Z (z : Z) (n : nat) : (round (inject_Z z) n == inject_Z z)%Q.
Proof.
  pose proof (pow10_pos n) as Hp.
  assert (inject_Z z == inject_Z (z * pow10 n) / inject_Z (pow10 n))%Q as H
    by (rewrite inject_Z_mult; field; lra).
  rewrite H at 1. rewrite round_exact. by rewrite <- H.
Qed.

(** Rounding keeps a number between the integers that bound it. *)
Lemma round_between (a b : Z) (x : Q) (n : nat) :
  (inject_Z a <= x)%Q → (x <= inject_Z b)%Q →
  (inject_Z a <= round x n ∧ round x n <= inject_Z b)%Q.
Proof.
  intros Ha Hb. split.
  - rewrite <- (round_Z a n). by apply round_mono.
  - rewrite <- (round_Z b n). by apply round_mono.
Qed.


(** ** Sorting *)

Section SortingFacts.
Context {A : Type} (key : A → Z).

Lemma insert_by_perm (before : Z → Z → bool) (x : A) (l : list A) :
  insert_by key before x l ≡ₚ x :: l.
Proof.
  induction l as [|y l IH]; cbn; [done|].
  destruct (before (key x) (key y)); [done|].
  rewrite IH. apply Permutation_swap.
Qed.

(** [sorted] rearranges its argument. *)
Lemma sorted_perm (reverse : bool) (l : list A) : sorted key reverse l ≡ₚ l.
Proof.
  unfold sorted. induction l as [|x l IH]; cbn; [done|].
  by rewrite insert_by_perm, IH.
Qed.

Lemma insert_by_in_order (reverse : bool) (x : A) (l : list A) :
  StronglySorted (in_order key reverse) l →
  StronglySorted (in_order key reverse)
    (insert_by key (if reverse then Z.geb else Z.leb) x l).
Proof.
  induction 1 as [|y l Hs IH Hy]; cbn.
  { repeat constructor. }
  destruct ((if reverse then Z.geb else Z.leb) (key x) (key y)) eqn:E.
  - constructor; [by constructor|].
    assert (in_order key reverse x y) as Hxy.
    { unfold in_order. destruct reverse; lia. }
    constructor; [done|].
    eapply Forall_impl; [exact Hy|].
    intros z Hz. unfold in_order in *. destruct reverse; lia.
  - constructor; [done|].
    rewrite (insert_by_perm _ x l). constructor; [|done].
    unfold in_order. destruct reverse; lia.
Qed.

Lemma sorted_in_order (reverse : bool) (l : list A) :
  StronglySorted (in_order key reverse) (sorted key reverse l).
Proof.
  unfold sorted. induction l as [|x l IH]; cbn; [constructor|].
  by apply insert_by_in_order.
Qed.

End SortingFacts.

(** ** Dictionaries *)

Section DictFacts.
Context {K V : Type} `{EqDecision K}.
Implicit Types (k : K) (v : V) (d : list (K * V)).

Lemma dict_get_set k k' v d :
  dict_get k (dict_set k' v d)
  = if decide (k = k') then Some v else dict_get k d.
Proof.
  induction d as [|[k0 v0] d IH]; cbn.
  - destruct (decide (k = k')); [by rewrite bool_decide_eq_true_2|
                                 by rewrite bool_decide_eq_false_2].
  - destruct (decide (k' = k0)) as [->|Hne].
    + rewrite (bool_decide_eq_true_2 (k0 = k0)) by done. cbn.
      destruct (decide (k = k0)); [by rewrite bool_decide_eq_true_2|
                                   by rewrite bool_decide_eq_false_2].
    + rewrite (bool_decide_eq_false_2 (k' = k0)) by done. cbn.
      rewrite IH. destruct (decide (k = k0)) as [->|Hk].
      * rewrite bool_decide_eq_true_2 by done. by rewrite decide_False.
      * by rewrite bool_decide_eq_false_2.
Qed.

Lemma dict_get_None k d : dict_get k d = None ↔ k ∉ d.*1.
Proof.
  induction d as [|[k0 v0] d IH]; cbn.
  - split; [intros _; apply not_elem_of_nil | done].
  - rewrite not_elem_of_cons. destruct (decide (k = k0)) as [->|Hne].
    + rewrite bool_decide_eq_true_2 by done. split; [done | tauto].
    + rewrite bool_decide_eq_false_2 by done. tauto.
Qed.

Lemma dict_get_elem_of k v d : dict_get k d = Some v → (k, v) ∈ d.
Proof.
  induction d as [|[k0 v0] d IH]; cbn; [done|].
  destruct (decide (k = k0)) as [->|Hne].
  - rewrite bool_decide_eq_true_2 by done. intros [= ->]. by left.
  - rewrite bool_decide_eq_false_2 by done. intros. right. by apply IH.
Qed.

Lemma elem_of_dict_get k v d : NoDup d.*1 → (k, v) ∈ d → dict_get k d = Some v.
Proof.
  induction d as [|[k0 v0] d IH]; cbn; intros Hnd Hin.
  { by apply elem_of_nil in Hin. }
  apply NoDup_cons in Hnd as [Hk0 Hnd].
  apply elem_of_cons in Hin as [[= -> ->]|Hin].
  - by rewrite bool_decide_eq_true_2.
  - rewrite bool_decide_eq_false_2; [by apply IH|].
    intros ->. apply Hk0. apply list_elem_of_fmap. by exists (k0, v).
Qed.

Lemma dict_set_keys k v d :
  (dict_set k v d).*1 = if decide (k ∈ d.*1) then d.*1 else d.*1 ++ [k].
Proof.
  induction d as [|[k0 v0] d IH]; cbn.
  { rewrite decide_False; [done | apply not_elem_of_nil]. }
  destruct (decide (k = k0)) as [->|Hne].
  - rewrite bool_decide_eq_true_2 by done. cbn.
    rewrite decide_True; [done | by left].
  - rewrite bool_decide_eq_false_2 by done. cbn. rewrite IH.
    destruct (decide (k ∈ d.*1)) as [Hin|Hin].
    + rewrite decide_True; [done | by right].
    + rewrite decide_False; [done|]. rewrite not_elem_of_cons. tauto.
Qed.

Lemma dict_set_NoDup k v d : NoDup d.*1 → NoDup (dict_set k v d).*1.
Proof.
  intros Hnd. rewrite dict_set_keys. destruct (decide (k ∈ d.*1)); [done|].
  apply NoDup_app. split; [done|]. split; [|apply NoDup_singleton].
  intros x Hx ->%list_elem_of_singleton. done.
Qed.

End DictFacts.

Section TallyFacts.
Context {K : Type} `{EqDecision K}.
Implicit Types (k : K) (l : list K) (d : list (K * nat)).

Lemma tally_app l1 l2 d : tally (l1 ++ l2) d = tally l2 (tally l1 d).
Proof. unfold tally. apply fold_left_app. Qed.

Lemma tally_cons k l d : tally (k :: l) d = tally l (dict_update 0%nat S k d).
Proof. done. Qed.

Lemma tally_NoDup l d : NoDup d.*1 → NoDup (tally l d).*1.
Proof.
  revert d. induction l as [|k l IH]; intros d Hnd; [done|].
  rewrite tally_cons. apply IH. by apply dict_set_NoDup.
Qed.

Lemma tally_keys l d k : k ∈ (tally l d).*1 ↔ k ∈ d.*1 ∨ k ∈ l.
Proof.
  revert d. induction l as [|k0 l IH]; intros d.
  { cbn. rewrite elem_of_nil. tauto. }
  rewrite tally_cons, IH. unfold dict_update.
  rewrite dict_set_keys, elem_of_cons.
  destruct (decide (k0 ∈ d.*1)) as [Hin|Hin].
  - split; [tauto|]. intros [?|[->|?]]; tauto.
  - rewrite elem_of_app, list_elem_of_singleton. tauto.
Qed.

(** Each count is the count before plus the occurrences tallied. *)
Lemma tally_get l d k :
  default 0%nat (dict_get k (tally l d))
  = (default 0%nat (dict_get k d) + occurrences k l)%nat.
Proof.
  revert d. induction l as [|k0 l IH]; intros d.
  { unfold occurrences. cbn. lia. }
  rewrite tally_cons, IH. unfold dict_update. rewrite dict_get_set.
  unfold occurrences. rewrite filter_cons.
  destruct (decide (k = k0)) as [->|Hne].
  - rewrite decide_True by done. cbn. lia.
  - rewrite decide_False by done. done.
Qed.

(** The entries of a tally from scratch are the keys that occur, each with
    its number of occurrences. *)
Lemma tally_entries l k n :
  (k, n) ∈ tally l [] ↔ k ∈ l ∧ n = occurrences k l.
Proof.
  pose proof (tally_NoDup l [] (NoDup_nil_2)) as Hnd.
  pose proof (tally_get l [] k) as Hget. cbn in Hget.
  split.
  - intros Hin. split.
    + assert (k ∈ (tally l []).*1) as Hk
        by (apply list_elem_of_fmap; by exists (k, n)).
      apply tally_keys in Hk as [Hk|Hk]; [|done].
      by apply elem_of_nil in Hk.
    + apply elem_of_dict_get in Hin; [|done]. by rewrite Hin in Hget.
  - intros [Hin ->]. apply dict_get_elem_of.
    destruct (dict_get k (tally l [])) as [m|] eqn:E.
    + cbn in Hget. by rewrite Hget.
    + apply dict_get_None in E. exfalso. apply E.
      apply tally_keys. by right.
Qed.
End TallyFacts.

(** ** Filters *)

Lemma filter_twice {A : Type} (P Q R : A → Prop)
    `{∀ x, Decision (P x), ∀ x, Decision (Q x), ∀ x, Decision (R x)}
    (l : list A) :
  (∀ x, R x ↔ P x ∧ Q x) → filter Q (filter P l) = filter R l.
Proof.
  intros HR. induction l as [|x l IH]; [done|].
  rewrite !(filter_cons _ x). specialize (HR x).
  destruct (decide (P x)), (decide (R x)); rewrite ?filter_cons;
    try destruct (decide (Q x)); rewrite ?IH; tauto.
Qed.

(** ** Occurrences *)

Section OccurrencesFacts.
Context {A : Type} `{EqDecision A}.
Implicit Types (x : A) (l : list A).


Lemma occurrences_pos x l : x ∈ l ↔ (0 < occurrences x l)%nat.
Proof.
  unfold occurrences. induction l as [|y l IH].
  { cbn. rewrite elem_of_nil. lia. }
  rewrite filter_cons, elem_of_cons. destruct (decide (y = x)) as [->|Hne].
  - cbn. split; [lia | by left].
  - rewrite <- IH. split; [intros [?|?]; [congruence | done] | by right].
Qed.


End OccurrencesFacts.

Section OccurrencesNoDup.
Context {A : Type} `{EqDecision A}.
Implicit Types (x : A) (l : list A).


End OccurrencesNoDup.


(** A number with at most [n] decimals is its own rounding. *)
Lemma round_decimal (q : Q) (z : Z) (n : nat) :
  (q == inject_Z z / inject_Z (pow10 n))%Q → (round q n == q)%Q.
Proof. intros Hq. rewrite Hq at 1. by rewrite round_exact. Qed.

(** ** More on filters and tallies *)

Lemma filter_fmap {A B : Type} (f : A → B) (P : B → Prop)
    `{∀ y, Decision (P y)} (l : list A) :
  filter P (f <$> l) = f <$> filter (λ x, P (f x)) l.
Proof.
  induction l as [|x l IH]; [done|].
  cbn [fmap list_fmap]. rewrite !filter_cons.
  destruct (decide (P (f x))); cbn [fmap list_fmap]; by rewrite IH.
Qed.

Lemma filter_all {A : Type} (P : A → Prop) `{∀ x, Decision (P x)}
    (l : list A) :
  Forall P l → filter P l = l.
Proof.
  induction 1 as [|x l Hx _ IH]; [done|].
  by rewrite filter_cons, decide_True, IH.
Qed.

Lemma dict_update_sum {K : Type} `{EqDecision K} (k : K)
    (d : list (K * nat)) :
  sum_list (dict_update 0%nat S k d).*2 = S (sum_list d.*2).
Proof.
  unfold dict_update. induction d as [|[k0 n0] d IH]; [done|].
  cbn [dict_get dict_set]. destruct (decide (k = k0)) as [->|Hne].
  - rewrite !bool_decide_eq_true_2 by done. cbn. lia.
  - rewrite !bool_decide_eq_false_2 by done. cbn. cbn in IH. rewrite IH. lia.
Qed.

(** The counts of a tally add up to the number of items tallied. *)
Lemma tally_sum {K : Type} `{EqDecision K} (l : list K) (d : list (K * nat)) :
  sum_list (tally l d).*2 = (sum_list d.*2 + length l)%nat.
Proof.
  revert d. induction l as [|k l IH]; intros d; [cbn; lia|].
  rewrite tally_cons, IH, dict_update_sum. cbn. lia.
Qed.

Lemma fold_tally {A K : Type} `{EqDecision K} (f : A → K) (l : list A)
    (d : list (K * nat)) :
  fold_left (λ d x, dict_update 0%nat S (f x) d) l d = tally (f <$> l) d.
Proof. revert d. induction l as [|x l IH]; intros d; [done|]. apply IH. Qed.

(** In a sorted list an earlier element is related to a later one. *)
Lemma strongly_sorted_lookup {A : Type} (R : A → A → Prop) (l : list A)
    (i j : nat) (x y : A) :
  StronglySorted R l → l !! i = Some x → l !! j = Some y → (i < j)%nat →
  R x y.
Proof.
  intros Hs. revert i j. induction Hs as [|a l Hs IH Ha]; intros i j Hi Hj Hij.
  { done. }
  destruct j as [|j]; [lia|]. cbn in Hj. destruct i as [|i].
  - cbn in Hi. injection Hi as ->.
    rewrite Forall_forall in Ha. apply Ha. by eapply list_elem_of_lookup_2.
  - cbn in Hi. apply (IH i j); [done..|lia].
Qed.



(** *** Truncation *)

Lemma int_nonneg (x : Q) : (0 <= x)%Q → int x = Qfloor x.
Proof.
  destruct x as [n d]. unfold Qle, int, Qfloor. cbn. intros H.
  apply Z.quot_div_nonneg; lia.
Qed.

Lemma int_nonpos (x : Q) : (x <= 0)%Q → (int x ≤ 0)%Z.
Proof.
  destruct x as [n d]. unfold Qle, int. cbn. intros H.
  assert (0 ≤ (- n) ÷ Z.pos d)%Z as Hq by (apply Z.quot_pos; lia).
  rewrite Z.quot_opp_l in Hq; lia.
Qed.

(** For a positive [k], [int x] reaches [k] exactly when [x] does. *)
Lemma int_ge (x : Q) (k : Z) :
  (0 < k)%Z → (k ≤ int x)%Z ↔ (inject_Z k <= x)%Q.
Proof.
  intros Hk. destruct (Qlt_le_dec x 0) as [Hneg|Hpos].
  - pose proof (int_nonpos x (Qlt_le_weak _ _ Hneg)) as Hi.
    assert (0 < inject_Z k)%Q
      by (change 0%Q with (inject_Z 0); by rewrite <- Zlt_Qlt).
    split; [lia | lra].
  - rewrite (int_nonneg x Hpos). split; intros H.
    + apply Qle_trans with (inject_Z (Qfloor x)); [|apply Qfloor_le].
      by rewrite <- Zle_Qle.
    + rewrite <- (Qfloor_Z k). by apply Qfloor_resp_le.
Qed.


(** *** Rounding a shifted number *)

Lemma Qfloor_shift (x : Q) (z : Z) : Qfloor (x + inject_Z z) = (Qfloor x + z)%Z.
Proof.
  pose proof (Qfloor_le x) as H1. pose proof (Qlt_floor x) as H2.
  pose proof (Qfloor_le (x + inject_Z z)) as H3.
  pose proof (Qlt_floor (x + inject_Z z)) as H4.
  assert (inject_Z (Qfloor (x + inject_Z z)) < inject_Z (Qfloor x + 1 + z))%Q
    as Ha by (rewrite (inject_Z_plus _ z); lra).
  assert (inject_Z (Qfloor x + z) < inject_Z (Qfloor (x + inject_Z z) + 1))%Q
    as Hb by (rewrite (inject_Z_plus _ z); lra).
  rewrite <- Zlt_Qlt in Ha, Hb. lia.
Qed.

(** Ties go to the even neighbour, so rounding commutes with a shift by an
    even integer. *)
Lemma round_half_even_shift (x : Q) (k : Z) :
  round_half_even (x + inject_Z (2 * k)) = (round_half_even x + 2 * k)%Z.
Proof.
  unfold round_half_even. rewrite Qfloor_shift.
  assert ((x + inject_Z (2 * k) - inject_Z (Qfloor x + 2 * k) ?= 1 # 2)
          = (x - inject_Z (Qfloor x) ?= 1 # 2))%Q as ->.
  { apply Qcompare_comp; [|reflexivity]. rewrite inject_Z_plus. ring. }
  rewrite Z.even_add_mul_2.
  destruct (x - inject_Z (Qfloor x) ?= 1 # 2)%Q;
    [destruct (Z.even (Qfloor x))| |]; lia.
Qed.

(** Rounding to at least one decimal commutes with a shift by an integer. *)
Lemma round_shift (x : Q) (z : Z) (n : nat) :
  (round (x + inject_Z z) (S n) == round x (S n) + inject_Z z)%Q.
Proof.
  unfold round.
  assert (pow10 (S n) = 2 * (5 * pow10 n))%Z as Hp.
  { unfold pow10. rewrite Nat2Z.inj_succ, Z.pow_succ_r by lia. lia. }
  assert ((x + inject_Z z) * inject_Z (pow10 (S n))
          == x * inject_Z (pow10 (S n)) + inject_Z (2 * (z * (5 * pow10 n))))%Q
    as ->.
  { rewrite Hp, !inject_Z_mult. ring. }
  rewrite round_half_even_shift, inject_Z_plus.
  pose proof (pow10_pos (S n)) as Hpos.
  assert (inject_Z (2 * (z * (5 * pow10 n)))
          == inject_Z z * inject_Z (pow10 (S n)))%Q as ->.
  { rewrite Hp, !inject_Z_mult. ring. }
  field. lra.
Qed.


(** *** Grouping into a dictionary

    The loop [for x in l: d[key(x)] = step(x, d[key(x)])] on a
    [defaultdict] whose factory returns [dflt]. *)

Section GroupFacts.
Context {A K V : Type} `{EqDecision K}.
Context (key : A → K) (dflt : V) (step : A → V → V).




End GroupFacts.




Lemma strongly_sorted_take {A : Type} (R : A → A → Prop) (n : nat)
    (l : list A) :
  StronglySorted R l → StronglySorted R (take n l).
Proof.
  intros Hs. revert n. induction Hs as [|x l Hs IH Hx]; intros [|n]; cbn;
    try constructor; [apply IH|].
  apply Forall_forall. intros y Hy%subseteq_take.
  by eapply Forall_forall in Hx.
Qed.

Lemma strongly_sorted_impl {A : Type} (R R' : A → A → Prop) (l : list A) :
  (∀ x y, R x y → R' x y) → StronglySorted R l → StronglySorted R' l.
Proof.
  intros HR. induction 1 as [|x l Hs IH Hx]; constructor; [done|].
  eapply Forall_impl; [done|]. intros y. apply HR.
Qed.

Lemma strongly_sorted_fmap {A B : Type} (f : A → B) (R : B → B → Prop)
    (l : list A) :
  StronglySorted (λ x y, R (f x) (f y)) l → StronglySorted R (f <$> l).
Proof.
  induction 1 as [|x l Hs IH Hx]; cbn; constructor; [done|].
  by apply Forall_fmap.
Qed.

Lemma dict_set_entries {K V : Type} `{EqDecision K} (k k' : K) (v v' : V)
    (d : list (K * V)) :
  (k', v') ∈ dict_set k v d → (k', v') = (k, v) ∨ (k', v') ∈ d.
Proof.
  induction d as [|[k0 v0] d IH]; cbn.
  - intros ->%list_elem_of_singleton. by left.
  - case_bool_decide.
    + intros [->|?]%elem_of_cons; [by left|]. right. by right.
    + intros [->|Hin]%elem_of_cons; [right; by left|].
      destruct (IH Hin) as [?|?]; [by left|]. right. by right.
Qed.

End PyFacts.

(** ** Doctor risk and rating *)

Module DoctorFacts.
Import Py PyFacts DoctorAnalyzer Scenarios.

(** Each factor grows with its average. *)
Lemma capped_ratio_mono (x y d w : Q) :
  (0 < d)%Q → (0 <= w)%Q → (x <= y)%Q →
  (min (x / d) 1 * w <= min (y / d) 1 * w)%Q.
Proof.
  intros Hd Hw Hxy. apply Qmult_le_compat_r; [|done].
  apply Q.min_le_compat_r. apply Qmult_le_compat_r; [done|].
  apply Qlt_le_weak, Qinv_lt_0_compat, Hd.
Qed.

Lemma hours_factor_mono (x y : Q) :
  (x <= y)%Q → (hours_factor x <= hours_factor y)%Q.
Proof. intros. apply capped_ratio_mono; lra. Qed.

Lemma patient_factor_mono (x y : Q) :
  (x <= y)%Q → (patient_factor x <= patient_factor y)%Q.
Proof. intros. apply capped_ratio_mono; lra. Qed.

Lemma emergency_factor_mono (x y : Q) :
  (x <= y)%Q → (emergency_factor x <= emergency_factor y)%Q.
Proof. intros. apply capped_ratio_mono; lra. Qed.

(** With shifts in the window, the reported risk is the rounded score of
    the three averages and the level is read off the unrounded score. *)
Lemma risk_score_in_window (self : DoctorAnalyzer) (now : Z)
    (doctor_id : string) (days_window : Z) :
  let recent :=
    shifts_in_window now days_window (default [] (duty_logs self !! doctor_id)) in
  recent ≠ [] →
  let '(h, p, e) := averages_of recent in
  let r := calculate_burnout_risk self now doctor_id days_window in
  risk_score r = round (burnout_score_of h p e) 3
  ∧ risk_level r = risk_level_of (burnout_score_of h p e).
Proof.
  intros recent Hne. unfold calculate_burnout_risk, averages_of.
  fold recent.
  destruct (default [] (duty_logs self !! doctor_id)) as [|s0 l] eqn:Hl.
  { by subst recent. }
  fold recent. destruct recent as [|s1 rec] eqn:Hrec; [done|].
  cbn [length]. destruct (decide (0 < S (length rec))%nat); [done | lia].
Qed.

(** C9. The burnout risk score, the sum of the hours, patient and
    emergency factors, does not decrease when the average hours per shift,
    the average patients per shift or the average emergencies per shift
    grows while the other two stay fixed; the same holds of the score as
    reported, rounded to three decimals. *)
Theorem burnout_score_monotone (h h' p p' e e' : Q) :
  (h <= h')%Q → (p <= p')%Q → (e <= e')%Q →
  (burnout_score_of h p e <= burnout_score_of h' p e)%Q
  ∧ (burnout_score_of h p e <= burnout_score_of h p' e)%Q
  ∧ (burnout_score_of h p e <= burnout_score_of h p e')%Q
  ∧ (round (burnout_score_of h p e) 3 <= round (burnout_score_of h' p e) 3)%Q
  ∧ (round (burnout_score_of h p e) 3 <= round (burnout_score_of h p' e) 3)%Q
  ∧ (round (burnout_score_of h p e) 3 <= round (burnout_score_of h p e') 3)%Q.
Proof.
  intros Hh Hp He.
  pose proof (hours_factor_mono _ _ Hh).
  pose proof (patient_factor_mono _ _ Hp).
  pose proof (emergency_factor_mono _ _ He).
  unfold burnout_score_of.
  repeat split; try apply round_mono; lra.
Qed.

Lemma burnout_score_monotone_witness :
  (6 <= 9 ∧ 15 <= 40 ∧ 1 <= 2)%Q
  ∧ (burnout_score_of 6 15 1 <= burnout_score_of 9 15 1)%Q
  ∧ (burnout_score_of 6 15 1 <= burnout_score_of 6 40 1)%Q
  ∧ (burnout_score_of 6 15 1 <= burnout_score_of 6 15 2)%Q
  ∧ (round (burnout_score_of 6 15 1) 3 <= round (burnout_score_of 9 15 1) 3)%Q
  ∧ (round (burnout_score_of 6 15 1) 3 <= round (burnout_score_of 6 40 1) 3)%Q
  ∧ (round (burnout_score_of 6 15 1) 3 <= round (burnout_score_of 6 15 2) 3)%Q.
Proof.
  split; [by vm_compute|].
  apply (burnout_score_monotone 6 9 15 40 1 2); by vm_compute.
Defined.

(** A doctor without any logged shift gets the [NO_DATA] report. *)
Lemma burnout_never_logged (self : DoctorAnalyzer) (now : Z)
    (doctor_id : string) (days_window : Z) :
  default [] (duty_logs self !! doctor_id) = [] →
  calculate_burnout_risk self now doctor_id days_window
  = {| burnout_doctor_id := doctor_id;
       risk_level := "NO_DATA";
       risk_score := 0;
       metrics := None;
       recommendations := None |}.
Proof. intros H. unfold calculate_burnout_risk. by rewrite H. Qed.

(** A doctor whose logged shifts are all older than the window gets a
    [LOW] report. *)
Lemma burnout_only_stale (self : DoctorAnalyzer) (now : Z)
    (doctor_id : string) (days_window : Z) :
  default [] (duty_logs self !! doctor_id) ≠ [] →
  shifts_in_window now days_window (default [] (duty_logs self !! doctor_id))
  = [] →
  calculate_burnout_risk self now doctor_id days_window
  = {| burnout_doctor_id := doctor_id;
       risk_level := "LOW";
       risk_score := 0;
       metrics := None;
       recommendations := None |}.
Proof.
  intros Hne Hw. unfold calculate_burnout_risk.
  destruct (default [] (duty_logs self !! doctor_id)) as [|s l]; [done|].
  by rewrite Hw.
Qed.

(** C5, as the claim states it, fails: 31 days after the only shift of D1
    no shift falls in the 30-day window, and the risk level reported is
    [LOW], the level of an ordinary low-risk result, not [NO_DATA]. *)
Lemma burnout_empty_window_not_NO_DATA :
  shifts_in_window (timedelta_days 31) 30
    (default [] (duty_logs stale_log !! "D1")) = []
  ∧ risk_level (calculate_burnout_risk stale_log (timedelta_days 31) "D1" 30)
    ≠ "NO_DATA"
  ∧ risk_level (calculate_burnout_risk stale_log (timedelta_days 31) "D1" 30)
    = risk_level_of 0.
Proof. by vm_compute. Qed.

(** C5, amended. When no shift of the doctor falls in the trailing window
    the report has risk score 0, empty metrics and no recommendations; its
    risk level is [NO_DATA] if the doctor has no logged shift at all, and
    [LOW] if shifts are logged but all are older than the window. *)
Theorem burnout_empty_window (self : DoctorAnalyzer) (now : Z)
    (doctor_id : string) (days_window : Z) :
  shifts_in_window now days_window (default [] (duty_logs self !! doctor_id))
  = [] →
  let r := calculate_burnout_risk self now doctor_id days_window in
  risk_score r = 0%Q
  ∧ metrics r = None
  ∧ recommendations r = None
  ∧ (default [] (duty_logs self !! doctor_id) = [] → risk_level r = "NO_DATA")
  ∧ (default [] (duty_logs self !! doctor_id) ≠ [] → risk_level r = "LOW").
Proof.
  intros Hw r. subst r.
  destruct (decide (default [] (duty_logs self !! doctor_id) = [])) as [He|Hne].
  - rewrite (burnout_never_logged _ _ _ _ He). by repeat split.
  - rewrite (burnout_only_stale _ _ _ _ Hne Hw). by repeat split.
Qed.

Lemma burnout_empty_window_witness :
  let r := calculate_burnout_risk stale_log (timedelta_days 31) "D1" 30 in
  shifts_in_window (timedelta_days 31) 30
    (default [] (duty_logs stale_log !! "D1")) = []
  ∧ risk_score r = 0%Q
  ∧ metrics r = None
  ∧ recommendations r = None
  ∧ (default [] (duty_logs stale_log !! "D1") = [] → risk_level r = "NO_DATA")
  ∧ (default [] (duty_logs stale_log !! "D1") ≠ [] → risk_level r = "LOW").
Proof.
  split; [reflexivity|].
  apply (burnout_empty_window stale_log (timedelta_days 31) "D1" 30).
  reflexivity.
Defined.

(** *** Ratings *)

Lemma fold_sum_bounds (lo hi : Q) (l : list Q) (a : Q) :
  Forall (λ x, lo <= x ∧ x <= hi)%Q l →
  (a + lo * inject_Z (Z.of_nat (length l)) <= fold_left Qplus l a
   ∧ fold_left Qplus l a <= a + hi * inject_Z (Z.of_nat (length l)))%Q.
Proof.
  intros H. revert a. induction H as [|x l [Hlo Hhi] _ IH]; intros a.
  - cbn [fold_left length]. change (inject_Z (Z.of_nat 0)) with 0%Q. split; lra.
  - cbn [fold_left length]. destruct (IH (a + x)%Q) as [IHlo IHhi].
    rewrite Nat2Z.inj_succ, <- Z.add_1_r, inject_Z_plus.
    change (inject_Z 1) with 1%Q. split; lra.
Qed.

(** The mean of a non-empty list lies between the bounds of its elements. *)
Lemma mean_bounds (lo hi : Q) (l : list Q) :
  l ≠ [] → Forall (λ x, lo <= x ∧ x <= hi)%Q l →
  (lo <= mean l ∧ mean l <= hi)%Q.
Proof.
  intros Hne H. unfold mean, sum.
  destruct (fold_sum_bounds lo hi l 0 H) as [Hlo Hhi].
  assert (0 < inject_Z (Z.of_nat (length l)))%Q as Hn.
  { change 0%Q with (inject_Z 0). rewrite <- Zlt_Qlt.
    destruct l; [done | cbn [length]; lia]. }
  set (n := inject_Z (Z.of_nat (length l))) in *.
  split.
  - apply Qle_shift_div_l; [done | lra].
  - apply Qle_shift_div_r; [done | lra].
Qed.

Lemma rating_of_score_bounds (s : Q) :
  (-1 <= s)%Q → (s <= 1)%Q →
  (1 <= rating_of_score s ∧ rating_of_score s <= 5)%Q.
Proof.
  intros Hlo Hhi.
  assert (rating_of_score s == 2 * s + 3)%Q as ->
    by (unfold rating_of_score; field).
  split; lra.
Qed.

(** A doctor with samples, all in [-1, 1], is rated on the 1-5 scale. *)
Lemma rating_with_samples (self : DoctorAnalyzer) (doctor_id : string) :
  default [] (sentiment_scores self !! doctor_id) ≠ [] →
  Forall (λ s, -1 <= score s ∧ score s <= 1)%Q
    (default [] (sentiment_scores self !! doctor_id)) →
  (1 <= rating (get_doctor_rating self doctor_id)
   ∧ rating (get_doctor_rating self doctor_id) <= 5)%Q.
Proof.
  intros Hne Hall. unfold get_doctor_rating.
  destruct (default [] (sentiment_scores self !! doctor_id)) as [|s l] eqn:E;
    [done|].
  cbn [rating].
  destruct (mean_bounds (-1) 1 (score <$> s :: l)) as [Hlo Hhi]; [done| |].
  { by apply Forall_fmap. }
  destruct (rating_of_score_bounds _ Hlo Hhi) as [H1 H5].
  apply (round_between 1 5); done.
Qed.



(** *** The range of the burnout score *)

Lemma fold_sum_nonneg (l : list Q) (a : Q) :
  Forall (λ x, 0 <= x)%Q l → (a <= fold_left Qplus l a)%Q.
Proof.
  intros H. revert a. induction H as [|x l Hx _ IH]; intros a; cbn; [lra|].
  specialize (IH (a + x)%Q). lra.
Qed.

Lemma fold_sum_int_nonneg (l : list Z) (a : Z) :
  Forall (λ x, 0 <= x)%Z l → (a <= fold_left Z.add l a)%Z.
Proof.
  intros H. revert a. induction H as [|x l Hx _ IH]; intros a; cbn; [lia|].
  specialize (IH (a + x)%Z). lia.
Qed.

Lemma burnout_score_of_le_1 (h p e : Q) : (burnout_score_of h p e <= 1)%Q.
Proof.
  unfold burnout_score_of, hours_factor, patient_factor, emergency_factor, min.
  pose proof (Q.le_min_r (h / 12) 1). pose proof (Q.le_min_r (p / 30) 1).
  pose proof (Q.le_min_r (e / 5) 1). lra.
Qed.

Lemma capped_ratio_nonneg (x d : Q) :
  (0 < d)%Q → (0 <= x)%Q → (0 <= min (x / d) 1)%Q.
Proof.
  intros Hd Hx. apply Q.min_glb; [|lra].
  apply Qle_shift_div_l; [done | lra].
Qed.

Lemma burnout_score_of_nonneg (h p e : Q) :
  (0 <= h)%Q → (0 <= p)%Q → (0 <= e)%Q → (0 <= burnout_score_of h p e)%Q.
Proof.
  intros Hh Hp He.
  unfold burnout_score_of, hours_factor, patient_factor, emergency_factor.
  pose proof (capped_ratio_nonneg h 12). pose proof (capped_ratio_nonneg p 30).
  pose proof (capped_ratio_nonneg e 5). lra.
Qed.

Lemma averages_nonneg (recent : list Shift) :
  recent ≠ [] → Forall plausible_shift recent →
  let '(h, p, e) := averages_of recent in (0 <= h ∧ 0 <= p ∧ 0 <= e)%Q.
Proof.
  intros Hne Hall. unfold averages_of.
  assert (0 < inject_Z (Z.of_nat (length recent)))%Q as Hn.
  { change 0%Q with (inject_Z 0). rewrite <- Zlt_Qlt.
    destruct recent; [done | cbn [length]; lia]. }
  assert (0 <= sum (hours <$> recent))%Q as Hh.
  { apply fold_sum_nonneg, Forall_fmap. eapply Forall_impl; [exact Hall|].
    by intros s (? & _). }
  assert (0 <= inject_Z (sum_int (patient_count <$> recent)))%Q as Hp.
  { change 0%Q with (inject_Z 0). rewrite <- Zle_Qle.
    apply fold_sum_int_nonneg, Forall_fmap. eapply Forall_impl; [exact Hall|].
    by intros s (_ & ? & _). }
  assert (0 <= inject_Z (sum_int (emergency_cases <$> recent)))%Q as He.
  { change 0%Q with (inject_Z 0). rewrite <- Zle_Qle.
    apply fold_sum_int_nonneg, Forall_fmap. eapply Forall_impl; [exact Hall|].
    by intros s (_ & _ & ?). }
  split_and!; apply Qle_shift_div_l; lra.
Qed.

(** The reported risk score is 0 or the rounded score of the averages of a
    non-empty window. *)
Lemma risk_score_cases (self : DoctorAnalyzer) (now : Z) (doctor_id : string)
    (days_window : Z) :
  let recent :=
    shifts_in_window now days_window (default [] (duty_logs self !! doctor_id)) in
  let r := calculate_burnout_risk self now doctor_id days_window in
  (recent = [] ∧ risk_score r = 0%Q
   ∧ (risk_level r = "NO_DATA" ∨ risk_level r = "LOW")
   ∧ metrics r = None)
  ∨ (recent ≠ []
     ∧ ∃ h p e, averages_of recent = (h, p, e)
                ∧ risk_score r = round (burnout_score_of h p e) 3
                ∧ risk_level r = risk_level_of (burnout_score_of h p e)
                ∧ is_Some (metrics r)).
Proof.
  intros recent r.
  destruct (decide (recent = [])) as [Hempty|Hne]; [left|right].
  - split; [done|]. subst r.
    destruct (decide (default [] (duty_logs self !! doctor_id) = []))
      as [Hnone|Hsome].
    + rewrite (burnout_never_logged _ _ _ _ Hnone). cbn. tauto.
    + rewrite (burnout_only_stale _ _ _ _ Hsome Hempty). cbn. tauto.
  - split; [done|].
    pose proof (risk_score_in_window self now doctor_id days_window Hne) as H.
    fold recent in H. destruct (averages_of recent) as [[h p] e].
    exists h, p, e. destruct H as [H1 H2]. split_and!; try done.
    subst r. unfold calculate_burnout_risk.
    destruct (default [] (duty_logs self !! doctor_id)) as [|s0 l] eqn:Hl.
    { by subst recent. }
    fold recent. destruct recent; [done|]. by eexists.
Qed.

Lemma Forall_shifts_in_window (P : Shift → Prop) (now days_window : Z)
    (l : list Shift) :
  Forall P l → Forall P (shifts_in_window now days_window l).
Proof.
  intros H. unfold shifts_in_window. apply Forall_forall. intros s Hs.
  apply list_elem_of_filter in Hs as [_ Hs]. by eapply Forall_forall in H.
Qed.

Lemma risk_score_between (self : DoctorAnalyzer) (now : Z) (doctor_id : string)
    (days_window : Z) :
  (risk_score (calculate_burnout_risk self now doctor_id days_window) <= 1)%Q
  ∧ (Forall plausible_shift (default [] (duty_logs self !! doctor_id)) →
     (0 <= risk_score (calculate_burnout_risk self now doctor_id days_window))%Q).
Proof.
  destruct (risk_score_cases self now doctor_id days_window)
    as [(_ & -> & _)|(Hne & h & p & e & Havg & -> & _)].
  { split; [lra | intros _; lra]. }
  split.
  - change 1%Q with (inject_Z 1). rewrite <- (round_Z 1 3).
    apply round_mono, burnout_score_of_le_1.
  - intros Hall. change 0%Q with (inject_Z 0). rewrite <- (round_Z 0 3).
    apply round_mono.
    pose proof (averages_nonneg _ Hne
                  (Forall_shifts_in_window _ now days_window _ Hall)) as H.
    rewrite Havg in H. destruct H as (? & ? & ?).
    by apply burnout_score_of_nonneg.
Qed.




(** *** Logging shifts *)

Lemma risk_level_of_values (score : Q) :
  risk_level_of score ∈ ["CRITICAL"; "HIGH"; "MODERATE"; "LOW"].
Proof.
  unfold risk_level_of. repeat case_decide; apply (bool_decide_unpack _); done.
Qed.

(** X12. After [register_duty_shift], a burnout query for that doctor whose
    window still contains the time of logging analyses the shift: the report
    has metrics and recommendations, its level is not NO_DATA, and it counts
    one shift more than the doctor's earlier shifts in the window.  The
    reports of all other doctors are unchanged. *)
Theorem registered_shift_is_analysed (self : DoctorAnalyzer) (now : Z)
    (doctor_id shift_date : string) (hours0 : Q)
    (patient_count0 emergency_cases0 : Z) (query_time days_window : Z) :
  (query_time - timedelta_days days_window < now)%Z →
  let self' :=
    (register_duty_shift self now doctor_id shift_date hours0 patient_count0
       emergency_cases0).2 in
  let r := calculate_burnout_risk self' query_time doctor_id days_window in
  risk_level r ≠ "NO_DATA"
  ∧ is_Some (recommendations r)
  ∧ (∃ m, metrics r = Some m
          ∧ total_shifts_analyzed m
            = S (length (shifts_in_window query_time days_window
                           (default [] (duty_logs self !! doctor_id)))))
  ∧ ∀ other, other ≠ doctor_id →
      calculate_burnout_risk self' query_time other days_window
      = calculate_burnout_risk self query_time other days_window.
Proof.
  intros Hwindow self' r.
  set (old := default [] (duty_logs self !! doctor_id)).
  set (shift := (register_duty_shift self now doctor_id shift_date hours0
                   patient_count0 emergency_cases0).1).
  assert (default [] (duty_logs self' !! doctor_id) = old ++ [shift]) as Hnew.
  { subst self'. cbn. by rewrite lookup_insert_eq. }
  assert (shifts_in_window query_time days_window (old ++ [shift])
          = shifts_in_window query_time days_window old ++ [shift]) as Hrecent.
  { unfold shifts_in_window. rewrite filter_app. f_equal.
    rewrite filter_cons, decide_True; done. }
  split_and!.
  - destruct (risk_score_cases self' query_time doctor_id days_window)
      as [(Hempty & _)|(_ & h & p & e & _ & _ & Hlevel & _)].
    + rewrite Hnew, Hrecent in Hempty.
      by destruct (shifts_in_window query_time days_window old).
    + fold r in Hlevel. rewrite Hlevel. intros Hbad.
      pose proof (risk_level_of_values (burnout_score_of h p e)) as Hv.
      rewrite Hbad in Hv. revert Hv. apply (bool_decide_unpack _). done.
  - subst r. unfold calculate_burnout_risk. rewrite Hnew, Hrecent.
    destruct (old ++ [shift]) eqn:E1; [by destruct old|].
    destruct (shifts_in_window query_time days_window old ++ [shift]) eqn:E2;
      [by destruct (shifts_in_window query_time days_window old)|].
    by eexists.
  - subst r. unfold calculate_burnout_risk. rewrite Hnew, Hrecent.
    destruct (old ++ [shift]) eqn:E1; [by destruct old|].
    destruct (shifts_in_window query_time days_window old ++ [shift]) eqn:E2;
      [by destruct (shifts_in_window query_time days_window old)|].
    eexists. split; [done|]. cbn [total_shifts_analyzed].
    rewrite <- E2, length_app. cbn. lia.
  - intros other Hother. subst self'. unfold calculate_burnout_risk. cbn.
    by rewrite lookup_insert_ne.
Qed.

Lemma registered_shift_is_analysed_witness :
  (timedelta_days 1 - timedelta_days 30 < 0)%Z
  ∧ risk_level (calculate_burnout_risk stale_log (timedelta_days 1) "D1" 30)
    ≠ "NO_DATA".
Proof.
  assert (timedelta_days 1 - timedelta_days 30 < 0)%Z as Hw by done.
  split; [exact Hw|].
  exact (proj1 (registered_shift_is_analysed DoctorAnalyzer.init 0 "D1"
                  "2024-01-01" 13 20 3 (timedelta_days 1) 30 Hw)).
Defined.

(** X13. The level of a burnout report agrees with the score it reports,
    up to the rounding of the score: CRITICAL comes with a reported score of
    at least 0.7, HIGH with one in [0.5, 0.7], MODERATE with one in
    [0.3, 0.5], LOW with one of at most 0.3, and NO_DATA with 0. *)
Theorem risk_level_and_reported_score (self : DoctorAnalyzer) (now : Z)
    (doctor_id : string) (days_window : Z) :
  let r := calculate_burnout_risk self now doctor_id days_window in
  risk_level r ∈ ["NO_DATA"; "LOW"; "MODERATE"; "HIGH"; "CRITICAL"]
  ∧ (risk_level r = "CRITICAL" → (0.7 <= risk_score r)%Q)
  ∧ (risk_level r = "HIGH" → (0.5 <= risk_score r ∧ risk_score r <= 0.7)%Q)
  ∧ (risk_level r = "MODERATE" →
     (0.3 <= risk_score r ∧ risk_score r <= 0.5)%Q)
  ∧ (risk_level r = "LOW" → (risk_score r <= 0.3)%Q)
  ∧ (risk_level r = "NO_DATA" → risk_score r = 0%Q).
Proof.
  intros r. subst r.
  assert (round 0.7 3 == 0.7)%Q as R7
    by (apply (round_decimal _ 700); by vm_compute).
  assert (round 0.5 3 == 0.5)%Q as R5
    by (apply (round_decimal _ 500); by vm_compute).
  assert (round 0.3 3 == 0.3)%Q as R3
    by (apply (round_decimal _ 300); by vm_compute).
  destruct (risk_score_cases self now doctor_id days_window)
    as [(_ & -> & [->| ->] & _)|(_ & h & p & e & _ & -> & -> & _)].
  - split_and!; try done; try (intros _; lra).
    apply (bool_decide_unpack _). done.
  - split_and!; try done; try (intros _; lra).
    apply (bool_decide_unpack _). done.
  - set (score := burnout_score_of h p e).
    pose proof (round_mono 0.7 score 3). pose proof (round_mono score 0.7 3).
    pose proof (round_mono 0.5 score 3). pose proof (round_mono score 0.5 3).
    pose proof (round_mono 0.3 score 3). pose proof (round_mono score 0.3 3).
    unfold risk_level_of.
    repeat case_decide;
      (split_and!; [apply (bool_decide_unpack _); done|..]);
      try done; intros _; try split; lra.
Qed.

(** *** Complaints *)

Lemma complaint_history_total (self : DoctorAnalyzer) (doctor_id : string) :
  total_complaints (get_complaint_history self doctor_id)
  = length (default [] (complaints self !! doctor_id)).
Proof.
  unfold get_complaint_history.
  by destruct (default [] (complaints self !! doctor_id)).
Qed.

Lemma file_complaint_frame (self : DoctorAnalyzer) (now : Z)
    (doctor_id complaint_type0 description0 severity0 : string) :
  let result :=
    file_complaint self now doctor_id complaint_type0 description0 severity0 in
  default [] (complaints result.2 !! doctor_id)
  = default [] (complaints self !! doctor_id) ++ [result.1]
  ∧ (∀ other, other ≠ doctor_id →
       get_complaint_history result.2 other = get_complaint_history self other)
  ∧ (∀ d t w, calculate_burnout_risk result.2 t d w
              = calculate_burnout_risk self t d w)
  ∧ (∀ d, get_doctor_rating result.2 d = get_doctor_rating self d).
Proof.
  intros result. split_and!; try done.
  - subst result. cbn. by rewrite lookup_insert_eq.
  - intros other Hother. subst result. unfold get_complaint_history. cbn.
    by rewrite lookup_insert_ne.
Qed.

(** X14. [file_complaint] stores one OPEN complaint for the doctor: the
    complaint total of that doctor grows by one, the new complaint is the
    last of the recent complaints, the histories of all other doctors are
    unchanged, and so are every burnout report and every rating. *)
Theorem file_complaint_history (self : DoctorAnalyzer) (now : Z)
    (doctor_id complaint_type0 description0 severity0 : string) :
  let result :=
    file_complaint self now doctor_id complaint_type0 description0 severity0 in
  let history := get_complaint_history result.2 doctor_id in
  complaint_status result.1 = "OPEN"
  ∧ resolved_date result.1 = None
  ∧ complaint_severity result.1 = severity0
  ∧ total_complaints history
    = S (total_complaints (get_complaint_history self doctor_id))
  ∧ (∃ p, patterns history = Some p ∧ last (recent_complaints p) = Some result.1)
  ∧ (∀ other, other ≠ doctor_id →
       get_complaint_history result.2 other = get_complaint_history self other)
  ∧ (∀ d t w, calculate_burnout_risk result.2 t d w
              = calculate_burnout_risk self t d w)
  ∧ (∀ d, get_doctor_rating result.2 d = get_doctor_rating self d).
Proof.
  intros result history.
  set (old := default [] (complaints self !! doctor_id)).
  destruct (file_complaint_frame self now doctor_id complaint_type0
              description0 severity0) as (Hnew & Hothers & Hburnout & Hrating).
  fold result old in Hnew. fold result in Hothers, Hburnout, Hrating.
  split_and!; try done.
  - subst history. rewrite !complaint_history_total, Hnew, length_app.
    fold old. cbn. lia.
  - subst history. unfold get_complaint_history. rewrite Hnew.
    destruct (old ++ [result.1]) eqn:E; [by destruct old|].
    eexists. split; [done|]. cbn [recent_complaints]. rewrite <- E.
    unfold last_n. rewrite <- (take_drop (length (old ++ [result.1]) - 5) old)
      at 2.
    rewrite <- app_assoc, drop_app_length'.
    + by rewrite last_snoc.
    + rewrite length_take, length_app. cbn. lia.
Qed.

(** X15. In a complaint history the counts by type add up to the total, and
    so do the counts by severity; each type and each severity is listed
    once; the resolution rate lies between 0 and 100; and at most five
    recent complaints are given, the last ones filed. *)
Theorem complaint_history_counts (self : DoctorAnalyzer) (doctor_id : string) :
  let history := get_complaint_history self doctor_id in
  let filed := default [] (complaints self !! doctor_id) in
  total_complaints history = length filed
  ∧ sum_list (complaint_patterns history).*2 = total_complaints history
  ∧ NoDup (complaint_patterns history).*1
  ∧ (filed = [] ↔ patterns history = None)
  ∧ ∀ p, patterns history = Some p →
      sum_list (DoctorAnalyzer.severity_distribution p).*2 = length filed
      ∧ NoDup (DoctorAnalyzer.severity_distribution p).*1
      ∧ (0 <= resolution_rate p ∧ resolution_rate p <= 100)%Q
      ∧ (length (recent_complaints p) ≤ 5)%nat
      ∧ ∃ earlier, filed = earlier ++ recent_complaints p.
Proof.
  intros history filed. subst history. split; [apply complaint_history_total|].
  rewrite complaint_history_total. fold filed.
  unfold get_complaint_history. fold filed.
  destruct filed as [|c cs] eqn:E.
  { cbn. split_and!; try done. apply NoDup_nil_2. }
  rewrite <- E. cbn [complaint_patterns patterns].
  rewrite !fold_tally.
  split_and!.
  - by rewrite tally_sum, length_fmap.
  - apply tally_NoDup, NoDup_nil_2.
  - split; [by rewrite E | done].
  - intros p [= <-].
    cbn [DoctorAnalyzer.severity_distribution resolution_rate
         recent_complaints].
    split; [|split; [|split; [|split]]].
    + by rewrite tally_sum, length_fmap.
    + apply tally_NoDup, NoDup_nil_2.
    + assert (0 < inject_Z (Z.of_nat (length filed)))%Q as Hn.
      { change 0%Q with (inject_Z 0). rewrite <- Zlt_Qlt, E. cbn [length]. lia. }
      pose proof (length_filter (λ c, complaint_status c = "RESOLVED") filed)
        as Hle.
      set (k := length (filter _ filed)) in *.
      assert (0 <= inject_Z (Z.of_nat k))%Q as Hk0.
      { change 0%Q with (inject_Z 0). rewrite <- Zle_Qle. lia. }
      assert (inject_Z (Z.of_nat k) <= inject_Z (Z.of_nat (length filed)))%Q
        as Hk1 by (rewrite <- Zle_Qle; lia).
      apply (round_between 0 100).
      * change (inject_Z 0) with 0%Q. apply Qmult_le_0_compat; [|lra].
        apply Qle_shift_div_l; [done | lra].
      * change (inject_Z 100) with (1 * 100)%Q.
        apply Qmult_le_compat_r; [|lra].
        apply Qle_shift_div_r; [done | lra].
    + unfold last_n. rewrite length_drop. lia.
    + exists (take (length filed - 5) filed). unfold last_n.
      by rewrite take_drop.
Qed.

(** X16. The overall complaint status is GOOD exactly for a doctor without
    complaints; a single CRITICAL complaint makes it CRITICAL, whatever else
    is filed and whether or not complaints are resolved; without a CRITICAL
    one it is CRITICAL for more than three OPEN complaints, CONCERNING for
    two or three, and ACCEPTABLE otherwise. *)
Theorem complaint_status_levels (cs : list Complaint) :
  let unresolved := length (filter (λ c, complaint_status c = "OPEN") cs) in
  (_calculate_complaint_status cs = "GOOD" ↔ cs = [])
  ∧ (∀ c, c ∈ cs → complaint_severity c = "CRITICAL" →
          _calculate_complaint_status cs = "CRITICAL")
  ∧ (cs ≠ [] → Forall (λ c, complaint_severity c ≠ "CRITICAL") cs →
     _calculate_complaint_status cs
     = if decide (3 < unresolved)%nat then "CRITICAL"
       else if decide (1 < unresolved)%nat then "CONCERNING"
       else "ACCEPTABLE").
Proof.
  intros unresolved. unfold _calculate_complaint_status.
  destruct cs as [|c0 cs0] eqn:E; [by split_and!; try done; intros c Hc;
                                   apply elem_of_nil in Hc|].
  rewrite <- E. fold unresolved.
  set (critical := length (filter (λ c, complaint_severity c = "CRITICAL") cs)).
  split_and!.
  - split; [|by rewrite E]. repeat case_decide; done.
  - intros c Hc Hsev.
    assert (0 < critical)%nat as Hpos.
    { subst critical.
      assert (c ∈ filter (λ c, complaint_severity c = "CRITICAL") cs) as Hin
        by (by apply list_elem_of_filter).
      destruct (filter _ cs); [by apply elem_of_nil in Hin | cbn; lia]. }
    rewrite decide_True; [done | by left].
  - intros _ Hnone.
    assert (critical = 0%nat) as ->.
    { subst critical.
      destruct (filter (λ c, complaint_severity c = "CRITICAL") cs)
        as [|c l] eqn:Ef; [done|].
      assert (c ∈ filter (λ c, complaint_severity c = "CRITICAL") cs) as Hin
        by (rewrite Ef; by left).
      apply list_elem_of_filter in Hin as [Hsev Hin].
      by eapply Forall_forall in Hnone. }
    subst unresolved. rewrite <- E.
    repeat case_decide; try done; lia.
Qed.


(** *** Tracked sentiment and ratings *)

Lemma rating_total_reviews (self : DoctorAnalyzer) (doctor_id : string) :
  total_reviews (get_doctor_rating self doctor_id)
  = length (default [] (sentiment_scores self !! doctor_id)).
Proof.
  unfold get_doctor_rating.
  by destruct (default [] (sentiment_scores self !! doctor_id)).
Qed.

Lemma rating_distribution_tally (self : DoctorAnalyzer) (doctor_id : string) :
  rating_distribution (get_doctor_rating self doctor_id)
  = tally (rating_bin <$>
             (score <$> default [] (sentiment_scores self !! doctor_id))) [].
Proof.
  unfold get_doctor_rating.
  destruct (default [] (sentiment_scores self !! doctor_id)) as [|s l] eqn:E;
    [done|].
  cbn [rating_distribution]. apply (fold_tally rating_bin).
Qed.

Lemma rating_bin_cases (s : Q) :
  (1 ≤ rating_bin s ≤ 5)%Z
  ∧ (rating_bin s = 5%Z ↔ (1 <= s)%Q)
  ∧ (rating_bin s = 1%Z ↔ (s < -(1 # 2))%Q).
Proof.
  unfold rating_bin.
  pose proof (int_ge (rating_of_score s) 5) as H5.
  pose proof (int_ge (rating_of_score s) 2) as H2.
  assert (inject_Z 5 <= rating_of_score s ↔ 1 <= s)%Q as E5.
  { unfold rating_of_score, inject_Z. split; intros H.
    - assert ((s + 1) / 2 * 4 + 1 == 2 * s + 3)%Q as E by field.
      rewrite E in H. lra.
    - assert ((s + 1) / 2 * 4 + 1 == 2 * s + 3)%Q as E by field.
      rewrite E. lra. }
  assert (inject_Z 2 <= rating_of_score s ↔ ¬ s < -(1 # 2))%Q as E2.
  { unfold rating_of_score, inject_Z.
    assert ((s + 1) / 2 * 4 + 1 == 2 * s + 3)%Q as E by field.
    rewrite E. split; intros H; lra. }
  split; [lia|]. split.
  - rewrite <- E5, <- H5; lia.
  - destruct (Qlt_le_dec s (-(1 # 2))) as [Hlt|Hge].
    + assert (¬ (2 ≤ int (rating_of_score s))%Z) by (rewrite H2, E2; tauto || lia).
      split; [done | lia].
    + assert (2 ≤ int (rating_of_score s))%Z by (apply H2; [lia|]; apply E2; lra).
      split; [lia | lra].
Qed.



(** X18. In a rating report the counts of the distribution add up to the
    number of reviews; every bin is one of 1 to 5, is listed once and counts
    at least one sample; bin 5 holds only the samples with a score of at
    least 1 and bin 1 those with a score below -0.5, so a sample rated 4.9
    is counted in bin 4. *)
Theorem rating_distribution_bins (self : DoctorAnalyzer) (doctor_id : string) :
  let report := get_doctor_rating self doctor_id in
  let samples := default [] (sentiment_scores self !! doctor_id) in
  sum_list (rating_distribution report).*2 = total_reviews report
  ∧ NoDup (rating_distribution report).*1
  ∧ (∀ bin n, (bin, n) ∈ rating_distribution report →
       (1 ≤ bin ≤ 5)%Z ∧ (1 ≤ n)%nat
       ∧ n = length (filter (λ s, rating_bin (score s) = bin) samples))
  ∧ (∀ n, (5%Z, n) ∈ rating_distribution report →
       n = length (filter (λ s, 1 <= score s)%Q samples))
  ∧ (∀ n, (1%Z, n) ∈ rating_distribution report →
       n = length (filter (λ s, score s < -(1 # 2))%Q samples))
  ∧ rating_bin (19 # 20) = 4%Z.
Proof.
  intros report samples.
  assert (∀ bin n, (bin, n) ∈ rating_distribution report →
            (1 ≤ bin ≤ 5)%Z ∧ (1 ≤ n)%nat
            ∧ n = length (filter (λ s, rating_bin (score s) = bin) samples))
    as Hbins.
  { intros bin n. subst report. rewrite rating_distribution_tally. fold samples.
    intros [Hin ->]%tally_entries. split_and!.
    - apply list_elem_of_fmap in Hin as (s & -> & _).
      apply (rating_bin_cases s).
    - apply list_elem_of_fmap in Hin as (s & -> & _).
      apply (rating_bin_cases s).
    - by apply occurrences_pos in Hin.
    - unfold occurrences. by rewrite <- list_fmap_compose, filter_fmap,
        length_fmap. }
  subst report. split_and!; try done.
  - rewrite rating_distribution_tally, rating_total_reviews. fold samples.
    by rewrite tally_sum, !length_fmap.
  - rewrite rating_distribution_tally. apply tally_NoDup, NoDup_nil_2.
  - intros n (_ & _ & ->)%Hbins. f_equal. apply list_filter_iff.
    intros s. apply (rating_bin_cases (score s)).
  - intros n (_ & _ & ->)%Hbins. f_equal. apply list_filter_iff.
    intros s. apply (rating_bin_cases (score s)).
Qed.

Lemma rating_status_cases (r : Q) :
  let st := _get_rating_status r in
  (st = "EXCELLENT" ↔ 4.5 <= r)%Q
  ∧ (st = "VERY_GOOD" ↔ 4.0 <= r ∧ r < 4.5)%Q
  ∧ (st = "GOOD" ↔ 3.5 <= r ∧ r < 4.0)%Q
  ∧ (st = "FAIR" ↔ 3.0 <= r ∧ r < 3.5)%Q
  ∧ (st = "POOR" ↔ r < 3.0)%Q.
Proof.
  unfold _get_rating_status.
  repeat case_decide; split_and!; split; intros; try done; lra.
Qed.

(** X19. The status of a rating report in terms of the mean sentiment of the
    doctor's samples: EXCELLENT from a mean of 0.75, VERY_GOOD from 0.5,
    GOOD from 0.25, FAIR from 0 and POOR for a negative mean.  The status is
    decided before the rating is rounded; still an EXCELLENT report shows a
    rating of at least 4.5 and a POOR one a rating of at most 3. *)
Theorem rating_status_of_mean (self : DoctorAnalyzer) (doctor_id st : string) :
  rating_status (get_doctor_rating self doctor_id) = Some st →
  let report := get_doctor_rating self doctor_id in
  let avg := mean (score <$> default [] (sentiment_scores self !! doctor_id)) in
  (st = "EXCELLENT" ↔ 3 # 4 <= avg)%Q
  ∧ (st = "VERY_GOOD" ↔ 1 # 2 <= avg ∧ avg < 3 # 4)%Q
  ∧ (st = "GOOD" ↔ 1 # 4 <= avg ∧ avg < 1 # 2)%Q
  ∧ (st = "FAIR" ↔ 0 <= avg ∧ avg < 1 # 4)%Q
  ∧ (st = "POOR" ↔ avg < 0)%Q
  ∧ (st = "EXCELLENT" → 4.5 <= rating report)%Q
  ∧ (st = "POOR" → rating report <= 3)%Q.
Proof.
  intros Hst report avg. subst report. revert Hst. unfold get_doctor_rating.
  fold avg.
  destruct (default [] (sentiment_scores self !! doctor_id)) as [|s l] eqn:E;
    [done|].
  rewrite <- E. fold avg. cbn [rating_status rating]. intros [= <-].
  destruct (rating_status_cases (rating_of_score avg))
    as (He & Hv & Hg & Hf & Hp).
  assert (rating_of_score avg == 2 * avg + 3)%Q as Hr
    by (unfold rating_of_score; field).
  set (r := rating_of_score avg) in *.
  split_and!.
  - rewrite He. split; intros; lra.
  - rewrite Hv. split; intros; lra.
  - rewrite Hg. split; intros; lra.
  - rewrite Hf. split; intros; lra.
  - rewrite Hp. split; intros; lra.
  - intros H%He. rewrite <- (round_decimal 4.5 450 2) by done.
    apply round_mono. lra.
  - intros H%Hp. rewrite <- (round_decimal 3 300 2) by done.
    apply round_mono. lra.
Qed.

Lemma rating_status_of_mean_witness :
  rating_status (get_doctor_rating tracked "D1") = Some "GOOD"
  ∧ (1 # 4 <= mean (score <$> default [] (sentiment_scores tracked !! "D1")))%Q.
Proof.
  assert (rating_status (get_doctor_rating tracked "D1") = Some "GOOD") as H
    by reflexivity.
  split; [exact H|].
  destruct (rating_status_of_mean tracked "D1" "GOOD" H)
    as (_ & _ & Hgood & _).
  by apply Hgood.
Defined.


(** *** The performance dashboard *)

Lemma rating_range (self : DoctorAnalyzer) (doctor_id : string) :
  Forall (λ s, -1 <= score s ∧ score s <= 1)%Q
    (default [] (sentiment_scores self !! doctor_id)) →
  (0 <= rating (get_doctor_rating self doctor_id)
   ∧ rating (get_doctor_rating self doctor_id) <= 5)%Q.
Proof.
  intros Hrange.
  destruct (default [] (sentiment_scores self !! doctor_id)) as [|s l] eqn:E.
  - unfold get_doctor_rating. rewrite E. cbn. lra.
  - destruct (rating_with_samples self doctor_id); [by rewrite E|by rewrite E|].
    split; lra.
Qed.

Lemma complaint_term_range (n : nat) :
  (0 <= inject_Z (100 - Z.min (Z.of_nat n * 5) 100)
   ∧ inject_Z (100 - Z.min (Z.of_nat n * 5) 100) <= 100)%Q.
Proof.
  change 0%Q with (inject_Z 0). change 100%Q with (inject_Z 100).
  rewrite <- !Zle_Qle. lia.
Qed.

(** X20. The overall performance score of the dashboard lies between 0 and
    100 for a doctor whose logged shifts have no negative entries and whose
    sentiment samples lie in [-1, 1], whatever the complaints. *)
Theorem performance_score_range (self : DoctorAnalyzer) (now : Z)
    (doctor_id : string) :
  Forall plausible_shift (default [] (duty_logs self !! doctor_id)) →
  Forall (λ s, -1 <= score s ∧ score s <= 1)%Q
    (default [] (sentiment_scores self !! doctor_id)) →
  (0 <= overall_performance_score
          (get_doctor_performance_dashboard self now doctor_id)
   ∧ overall_performance_score
       (get_doctor_performance_dashboard self now doctor_id) <= 100)%Q.
Proof.
  intros Hshifts Hscores.
  unfold get_doctor_performance_dashboard. cbn [overall_performance_score].
  destruct (rating_range self doctor_id Hscores) as [Hr0 Hr5].
  destruct (risk_score_between self now doctor_id 30) as [Hb1 Hb0].
  specialize (Hb0 Hshifts).
  destruct (complaint_term_range
              (total_complaints (get_complaint_history self doctor_id)))
    as [Hc0 Hc1].
  unfold performance_score_of.
  set (r := rating (get_doctor_rating self doctor_id)) in *.
  set (b := risk_score (calculate_burnout_risk self now doctor_id 30)) in *.
  set (c := inject_Z (100 - Z.min _ 100)) in *.
  assert (r / 5 * 100 * 0.5 + (1 - b) * 100 * 0.3 + c * 0.2
          == 10 * r + 30 * (1 - b) + (1 # 5) * c)%Q as -> by field.
  apply (round_between 0 100); unfold inject_Z; lra.
Qed.

Lemma performance_score_range_witness :
  (Forall plausible_shift (default [] (duty_logs tracked !! "D1"))
   ∧ Forall (λ s, -1 <= score s ∧ score s <= 1)%Q
       (default [] (sentiment_scores tracked !! "D1")))
  ∧ (0 <= overall_performance_score
            (get_doctor_performance_dashboard tracked 7 "D1")
     ∧ overall_performance_score
         (get_doctor_performance_dashboard tracked 7 "D1") <= 100)%Q.
Proof.
  assert (Forall plausible_shift (default [] (duty_logs tracked !! "D1")))
    as Hshifts.
  { apply Forall_singleton. split_and!; by vm_compute. }
  assert (Forall (λ s, -1 <= score s ∧ score s <= 1)%Q
            (default [] (sentiment_scores tracked !! "D1"))) as Hscores.
  { apply Forall_cons. split; [split; by vm_compute|].
    apply Forall_singleton. split; by vm_compute. }
  split; [by split|].
  exact (performance_score_range tracked 7 "D1" Hshifts Hscores).
Defined.

(** X21. In the performance score every complaint on file costs one point,
    up to twenty complaints: at the same query time, filing a complaint
    against a doctor with fewer than 20 complaints lowers the doctor's
    overall score by exactly 1, filing one against a doctor with 20 or more
    leaves it as it was, and the scores of all other doctors do not move. *)
Theorem complaint_penalty (self : DoctorAnalyzer) (filed_at now : Z)
    (doctor_id complaint_type0 description0 severity0 : string) :
  let self' :=
    (file_complaint self filed_at doctor_id complaint_type0 description0
       severity0).2 in
  let on_file := total_complaints (get_complaint_history self doctor_id) in
  let score_in s d :=
    overall_performance_score (get_doctor_performance_dashboard s now d) in
  ((on_file < 20)%nat →
   (score_in self' doctor_id == score_in self doctor_id - 1)%Q)
  ∧ ((20 ≤ on_file)%nat →
     (score_in self' doctor_id == score_in self doctor_id)%Q)
  ∧ (∀ other, other ≠ doctor_id → score_in self' other = score_in self other).
Proof.
  intros self' on_file score_in.
  destruct (file_complaint_frame self filed_at doctor_id complaint_type0
              description0 severity0) as (Hnew & Hothers & Hburnout & Hrating).
  fold self' in Hnew, Hothers, Hburnout, Hrating.
  assert (total_complaints (get_complaint_history self' doctor_id)
          = S on_file) as Htotal.
  { subst on_file. rewrite !complaint_history_total, Hnew, length_app.
    cbn. lia. }
  subst score_in. unfold get_doctor_performance_dashboard.
  cbn [overall_performance_score].
  split_and!.
  - intros Hlt. rewrite Hburnout, Hrating, Htotal. fold on_file.
    match goal with
    | |- (_ == ?a - 1)%Q => change (a - 1)%Q with (a + inject_Z (-1))%Q
    end.
    rewrite <- (round_shift _ (-1) 1).
    apply round_comp; [|done]. unfold performance_score_of.
    rewrite !Z.min_l by lia.
    replace (100 - Z.of_nat (S on_file) * 5)%Z
      with (100 - Z.of_nat on_file * 5 + -5)%Z by lia.
    rewrite inject_Z_plus.
    change (inject_Z (-5)) with (-5 # 1)%Q.
    change (inject_Z (-1)) with (-1 # 1)%Q.
    set (c := inject_Z (100 - Z.of_nat on_file * 5)). field.
  - intros Hge. rewrite Hburnout, Hrating, Htotal. fold on_file.
    apply round_comp; [|done]. unfold performance_score_of.
    rewrite !Z.min_r by lia. reflexivity.
  - intros other Hother. by rewrite Hburnout, Hrating, (Hothers other Hother).
Qed.






Lemma complaint_status_critical (cs : list Complaint) (c : Complaint) :
  c ∈ cs → complaint_severity c = "CRITICAL" →
  _calculate_complaint_status cs = "CRITICAL".
Proof.
  intros Hc Hsev. unfold _calculate_complaint_status.
  destruct cs as [|c0 cs0] eqn:E; [by apply elem_of_nil in Hc|].
  rewrite <- E in *.
  assert (c ∈ filter (λ c, complaint_severity c = "CRITICAL") cs) as Hin
    by (by apply list_elem_of_filter).
  rewrite decide_True; [done|]. left.
  destruct (filter _ cs); [by apply elem_of_nil in Hin | cbn; lia].
Qed.

End DoctorFacts.


(** ** Alerts *)

Module AlertFacts.
Import Py PyFacts AlertSystem Scenarios.

(** The sort key is the rank of the severity: the dictionary of
    [get_active_alerts] has an entry for each severity value. *)
Lemma severity_rank_eq (a : Alert) :
  severity_rank a
  = match severity a with
    | CRITICAL => 0 | HIGH => 1 | MEDIUM => 2 | LOW => 3
    end%Z.
Proof. unfold severity_rank. by destruct (severity a). Qed.

(** The alerts that [get_active_alerts] selects. *)
Lemma get_active_alerts_perm (self : AlertManager)
    (severity_filter : option AlertSeverity) :
  get_active_alerts self severity_filter
  ≡ₚ to_dict
       <$> filter
             (λ a, acknowledged a = false
                   ∧ (severity_filter = None ∨ severity_filter = Some (severity a)))
             self.
Proof.
  unfold get_active_alerts. rewrite sorted_perm. f_equiv.
  destruct severity_filter as [s|].
  - apply filter_twice. intros a. intuition congruence.
  - apply list_filter_iff. intros a. tauto.
Qed.

(** The order in which they are returned: the rank never increases, so an
    alert of rank 3 (LOW) precedes one of rank 0 (CRITICAL). *)
Lemma get_active_alerts_order (self : AlertManager)
    (severity_filter : option AlertSeverity) :
  ∃ l, get_active_alerts self severity_filter = to_dict <$> l
       ∧ StronglySorted (λ a b, (severity_rank b <= severity_rank a)%Z) l.
Proof.
  unfold get_active_alerts. eexists. split; [done|].
  apply (sorted_in_order severity_rank true).
Qed.

(** C1, at the input of the claim.  For the four alerts created with
    severities LOW, CRITICAL, MEDIUM, HIGH and none acknowledged,
    [get_active_alerts] returns all four, but in the order LOW, MEDIUM, HIGH,
    CRITICAL: the least severe first, the reverse of the order CRITICAL,
    HIGH, MEDIUM, LOW that the claim states. *)
Theorem get_active_alerts_least_severe_first :
  (severity <$> four_alerts = [LOW; CRITICAL; MEDIUM; HIGH]
   ∧ Forall (λ a, acknowledged a = false) four_alerts)
  ∧ d_severity <$> get_active_alerts four_alerts None
    = ["LOW"; "MEDIUM"; "HIGH"; "CRITICAL"]
  ∧ d_severity <$> get_active_alerts four_alerts None
    ≠ ["CRITICAL"; "HIGH"; "MEDIUM"; "LOW"].
Proof.
  split; [split; [done | by repeat constructor]|].
  by vm_compute.
Qed.

(** *** Acknowledgment *)

(** [acknowledge_alert] rewrites the first alert that carries the id. *)
Lemma acknowledge_alert_found (self : AlertManager) (now id : Z)
    (user_id : string) (i : nat) (a : Alert) :
  list_find (λ a, alert_id a = id) self = Some (i, a) →
  acknowledge_alert self now id user_id
  = (true, <[i := acknowledge now user_id a]> self).
Proof.
  revert i. induction self as [|b self IH]; intros i Hfind; [done|].
  cbn in Hfind. cbn [acknowledge_alert].
  destruct (decide (alert_id b = id)) as [Hb|Hb].
  - injection Hfind as <- <-. by rewrite bool_decide_eq_true_2.
  - rewrite bool_decide_eq_false_2 by done.
    destruct (list_find _ self) as [[j c]|] eqn:E; [|done].
    injection Hfind as <- <-. by rewrite (IH j eq_refl).
Qed.

Lemma acknowledge_alert_not_found (self : AlertManager) (now id : Z)
    (user_id : string) :
  list_find (λ a, alert_id a = id) self = None →
  acknowledge_alert self now id user_id = (false, self).
Proof.
  induction self as [|b self IH]; intros Hfind; [done|].
  cbn in Hfind. cbn [acknowledge_alert].
  destruct (decide (alert_id b = id)) as [Hb|Hb]; [done|].
  rewrite bool_decide_eq_false_2 by done.
  destruct (list_find _ self) as [[j c]|] eqn:E; [done|].
  by rewrite IH.
Qed.

Lemma list_find_insert_found {A : Type} (P : A → Prop) `{∀ x, Decision (P x)}
    (l : list A) (i : nat) (a b : A) :
  list_find P l = Some (i, a) → P b →
  list_find P (<[i := b]> l) = Some (i, b).
Proof.
  revert i. induction l as [|c l IH]; intros i Hfind Hb; [done|].
  cbn in Hfind. destruct (decide (P c)) as [Hc|Hc].
  - injection Hfind as <- <-. cbn. by rewrite decide_True.
  - destruct (list_find P l) as [[j d]|] eqn:E; [|done].
    injection Hfind as <- <-.
    change (<[S j:=b]> (c :: l)) with (c :: <[j:=b]> l).
    cbn [list_find]. rewrite decide_False by done.
    by rewrite (IH j eq_refl Hb).
Qed.

(** C4, as the claim states it, fails: when the alert of [one_alert] is
    acknowledged by alice at time 10 and again by bob at time 20, both calls
    return true, and the second replaces the actor and the time recorded by
    the first. *)
Lemma reacknowledge_overwrites :
  let first := acknowledge_alert one_alert 10 3 "alice" in
  let second := acknowledge_alert first.2 20 3 "bob" in
  first.1 = true ∧ second.1 = true
  ∧ acknowledged_by <$> first.2 = [Some "alice"]
  ∧ acknowledged_at <$> first.2 = [Some 10%Z]
  ∧ acknowledged_by <$> second.2 = [Some "bob"]
  ∧ acknowledged_at <$> second.2 = [Some 20%Z]
  ∧ acknowledged_by <$> second.2 ≠ acknowledged_by <$> first.2
  ∧ acknowledged_at <$> second.2 ≠ acknowledged_at <$> first.2.
Proof. by vm_compute. Qed.

(** C4, amended.  Acknowledging a stored alert id twice returns true both
    times.  The first call marks the first alert carrying the id as
    acknowledged and records its time and user; the second call overwrites
    [acknowledged_at] and [acknowledged_by] with its own time and user and
    changes nothing else, so the store ends as if only the second call had
    been made. *)
Theorem acknowledge_alert_twice (self : AlertManager) (id : Z)
    (now1 now2 : Z) (user1 user2 : string) (i : nat) (a : Alert) :
  list_find (λ a, alert_id a = id) self = Some (i, a) →
  let first := acknowledge_alert self now1 id user1 in
  let second := acknowledge_alert first.2 now2 id user2 in
  first.1 = true
  ∧ second.1 = true
  ∧ first.2 = <[i := acknowledge now1 user1 a]> self
  ∧ second.2 = <[i := acknowledge now2 user2 a]> self
  ∧ second.2 = (acknowledge_alert self now2 id user2).2
  ∧ ∃ b, second.2 !! i = Some b
         ∧ acknowledged b = true
         ∧ acknowledged_at b = Some now2
         ∧ acknowledged_by b = Some user2.
Proof.
  intros Hfind first second. subst second first.
  rewrite (acknowledge_alert_found _ now1 _ user1 _ _ Hfind). cbn [fst snd].
  assert (alert_id (acknowledge now1 user1 a) = id) as Hid.
  { apply list_find_Some in Hfind as (_ & Ha & _). done. }
  pose proof (list_find_insert_found _ _ _ _ _ Hfind Hid) as Hfind'.
  rewrite (acknowledge_alert_found _ now2 _ user2 _ _ Hfind').
  rewrite (acknowledge_alert_found _ now2 _ user2 _ _ Hfind). cbn [fst snd].
  rewrite list_insert_insert_eq.
  repeat split; try done.
  exists (acknowledge now2 user2 a). split; [|done].
  apply list_lookup_insert_eq.
  apply list_find_Some in Hfind as (Hi & _). by eapply lookup_lt_Some.
Qed.

Lemma acknowledge_alert_twice_witness :
  (∃ a, list_find (λ a, alert_id a = 3%Z) one_alert = Some (0%nat, a))
  ∧ (acknowledge_alert (acknowledge_alert one_alert 10 3 "alice").2
       20 3 "bob").1 = true
  ∧ (acknowledge_alert (acknowledge_alert one_alert 10 3 "alice").2
       20 3 "bob").2
    = (acknowledge_alert one_alert 20 3 "bob").2.
Proof.
  assert (list_find (λ a, alert_id a = 3%Z) one_alert
          = Some (0%nat, new_alert 3 SYSTEM_ERROR MEDIUM [Lit "test"] []))
    as Hfind by reflexivity.
  destruct (acknowledge_alert_twice one_alert 3 10 20 "alice" "bob" _ _ Hfind)
    as (_ & Hsecond & _ & _ & Hsame & _).
  split; [by eexists|]. split; [exact Hsecond | exact Hsame].
Defined.

(** *** The selection, the life cycle and the threshold checks *)

(** X1. [get_active_alerts] returns each unacknowledged alert that passes
    the severity filter exactly once and nothing else, so its length is the
    number of such alerts and an acknowledged alert is never returned; the
    alerts come in the order of non-increasing rank number. *)
Theorem get_active_alerts_selection (self : AlertManager)
    (severity_filter : option AlertSeverity) :
  let selected :=
    filter
      (λ a, acknowledged a = false
            ∧ (severity_filter = None ∨ severity_filter = Some (severity a)))
      self in
  get_active_alerts self severity_filter ≡ₚ to_dict <$> selected
  ∧ length (get_active_alerts self severity_filter) = length selected
  ∧ Forall (λ d, d_acknowledged d = false)
      (get_active_alerts self severity_filter)
  ∧ ∃ l, get_active_alerts self severity_filter = to_dict <$> l
         ∧ StronglySorted (λ a b, (severity_rank b <= severity_rank a)%Z) l.
Proof.
  intros selected. pose proof (get_active_alerts_perm self severity_filter) as Hp.
  fold selected in Hp. split_and!.
  - done.
  - by rewrite Hp, length_fmap.
  - rewrite Hp. apply Forall_fmap, Forall_forall.
    intros a Ha. apply list_elem_of_filter in Ha as [[Hack _] _]. done.
  - unfold get_active_alerts. eexists. split; [done|].
    apply (sorted_in_order severity_rank true).
Qed.

(** X2. [acknowledge_alert] returns true exactly when an alert with the id
    is stored; for an unknown id the store is left as it was, and in every
    case the store keeps its length and the id, type, severity, message and
    creation time of every alert. *)
Theorem acknowledge_alert_outcome (self : AlertManager) (now id : Z)
    (user_id : string) :
  let result := acknowledge_alert self now id user_id in
  (result.1 = true ↔ id ∈ alert_id <$> self)
  ∧ (result.1 = false → result.2 = self)
  ∧ length result.2 = length self
  ∧ alert_id <$> result.2 = alert_id <$> self
  ∧ alert_type <$> result.2 = alert_type <$> self
  ∧ severity <$> result.2 = severity <$> self
  ∧ message <$> result.2 = message <$> self
  ∧ created_at <$> result.2 = created_at <$> self.
Proof.
  induction self as [|a self IH]; cbn [acknowledge_alert].
  { cbn. rewrite elem_of_nil. by split_and!. }
  destruct (decide (alert_id a = id)) as [<-|Ha].
  - rewrite bool_decide_eq_true_2 by done. cbn.
    split_and!; try done. split; [intros _; by left | done].
  - rewrite bool_decide_eq_false_2 by done.
    destruct (acknowledge_alert self now id user_id) as [found rest].
    cbn in *. destruct IH as (IH1 & IH2 & IH3 & IH4 & IH5 & IH6 & IH7 & IH8).
    rewrite elem_of_cons.
    split_and!; try (f_equal; done).
    + rewrite IH1. split; [by right | intros [?|?]; [congruence | done]].
    + intros H. by rewrite IH2.
Qed.

Lemma acknowledge_alert_active (self : AlertManager) (now id : Z)
    (user_id : string) (P : Alert → Prop) `{∀ a, Decision (P a)} :
  (∀ a, P (acknowledge now user_id a) ↔ P a) →
  NoDup (alert_id <$> self) →
  filter (λ a, acknowledged a = false ∧ P a)
    (acknowledge_alert self now id user_id).2
  = filter (λ a, alert_id a ≠ id)
      (filter (λ a, acknowledged a = false ∧ P a) self).
Proof.
  intros HP. induction self as [|a self IH]; intros Hnd; [done|].
  cbn in Hnd. apply NoDup_cons in Hnd as [Ha Hnd].
  cbn [acknowledge_alert]. destruct (decide (alert_id a = id)) as [Hid|Hid].
  - rewrite bool_decide_eq_true_2 by done. cbn [snd].
    rewrite (filter_cons _ (acknowledge _ _ _)), decide_False
      by (cbn; intros [? _]; done).
    assert (filter (λ a, alert_id a ≠ id)
              (filter (λ a, acknowledged a = false ∧ P a) self)
            = filter (λ a, acknowledged a = false ∧ P a) self) as Hrest.
    { apply filter_all, Forall_forall. intros b Hb.
      apply list_elem_of_filter in Hb as [_ Hb]. intros Hbid.
      apply Ha. rewrite Hid, <- Hbid. apply list_elem_of_fmap. by exists b. }
    rewrite (filter_cons _ a).
    destruct (decide (acknowledged a = false ∧ P a)); [|by rewrite Hrest].
    rewrite filter_cons, decide_False by (intros Hne; done).
    by rewrite Hrest.
  - rewrite bool_decide_eq_false_2 by done.
    destruct (acknowledge_alert self now id user_id) as [found rest] eqn:E.
    cbn [snd] in *. rewrite !(filter_cons _ a).
    destruct (decide (acknowledged a = false ∧ P a)).
    + rewrite filter_cons, decide_True by done. by rewrite IH.
    + by apply IH.
Qed.

(** X3. When the stored alert ids are distinct, acknowledging an id removes
    exactly the alerts with that id from the active alerts: the active alerts
    afterwards are the earlier active alerts without that id, for every
    severity filter. *)
Theorem acknowledged_alert_not_active (self : AlertManager) (now id : Z)
    (user_id : string) (severity_filter : option AlertSeverity) :
  NoDup (alert_id <$> self) →
  get_active_alerts (acknowledge_alert self now id user_id).2 severity_filter
  ≡ₚ filter (λ d, d_alert_id d ≠ id) (get_active_alerts self severity_filter).
Proof.
  intros Hnd. rewrite !get_active_alerts_perm.
  rewrite (filter_fmap to_dict). f_equiv. cbn [d_alert_id to_dict].
  by apply (acknowledge_alert_active self now id user_id
              (λ a, severity_filter = None ∨ severity_filter = Some (severity a))).
Qed.

Lemma acknowledged_alert_not_active_witness :
  NoDup (alert_id <$> four_alerts)
  ∧ d_alert_id <$> get_active_alerts four_alerts None = [1; 3; 4; 2]%Z
  ∧ get_active_alerts four_alerts_one_acknowledged None
    ≡ₚ filter (λ d, d_alert_id d ≠ 3%Z) (get_active_alerts four_alerts None).
Proof.
  assert (NoDup (alert_id <$> four_alerts)) as Hnd
    by (apply (bool_decide_unpack _); by vm_compute).
  split; [exact Hnd|]. split; [reflexivity|].
  exact (acknowledged_alert_not_active four_alerts 10 3 "alice" None Hnd).
Defined.

(** X4. [create_alert] appends one unacknowledged alert carrying the given
    type, severity, message and details, and touches no stored alert; the
    new alert is active at once: the active alerts afterwards are the new
    alert together with the earlier active alerts. *)
Theorem create_alert_active (self : AlertManager) (now : Z)
    (alert_type0 : AlertType) (severity0 : AlertSeverity) (message0 : fstring)
    (details0 : list (string * value)) :
  let result :=
    create_alert self now alert_type0 severity0 message0 details0 in
  result.2 = self ++ [result.1]
  ∧ acknowledged result.1 = false
  ∧ alert_type result.1 = alert_type0
  ∧ severity result.1 = severity0
  ∧ message result.1 = message0
  ∧ details result.1 = details0
  ∧ get_active_alerts result.2 None
    ≡ₚ to_dict result.1 :: get_active_alerts self None.
Proof.
  intros result. subst result. unfold create_alert. cbn [fst snd].
  split_and!; try done.
  rewrite !get_active_alerts_perm, filter_app, fmap_app.
  rewrite filter_cons, decide_True by (cbn; tauto).
  rewrite filter_nil. cbn [fmap list_fmap].
  by rewrite Permutation_app_comm.
Qed.

(** X5. [check_sentiment_alert] raises an alert exactly for a score below
    -0.7: a HIGH alert of type SENTIMENT_CRITICAL, appended to the store; a
    score of -0.7 or more returns nothing and leaves the store unchanged. *)
Theorem check_sentiment_alert_threshold (self : AlertManager) (now : Z)
    (sentiment_score : Q) (review_id : option string) :
  let result := check_sentiment_alert self now sentiment_score review_id in
  ((sentiment_score < -0.7)%Q ↔ is_Some result.1)
  ∧ ((-0.7 <= sentiment_score)%Q ↔ result = (None, self))
  ∧ ∀ a, result.1 = Some a →
         result.2 = self ++ [a]
         ∧ alert_type a = SENTIMENT_CRITICAL
         ∧ severity a = HIGH
         ∧ acknowledged a = false.
Proof.
  unfold check_sentiment_alert.
  assert (threshold "sentiment_critical" == -0.7)%Q as Ht by done.
  destruct (decide (sentiment_score < threshold "sentiment_critical")%Q)
    as [H|H]; cbn.
  - split_and!.
    + split; [by eexists | lra].
    + split; [lra | done].
    + by intros a [= <-].
  - split_and!.
    + split; [lra | by intros [? ?]].
    + split; [done | lra].
    + done.
Qed.

(** X6. [check_burnout_alert] decides on the level alone: level CRITICAL
    gives a CRITICAL alert and level HIGH a HIGH alert, both of type
    DOCTOR_BURNOUT and appended to the store; every other level gives
    nothing and leaves the store unchanged, whatever the score. *)
Theorem check_burnout_alert_levels (self : AlertManager) (now : Z)
    (doctor_id : string) (burnout_score : Q) (burnout_level : string) :
  let result :=
    check_burnout_alert self now doctor_id burnout_score burnout_level in
  (burnout_level = "CRITICAL" ∨ burnout_level = "HIGH" ↔ is_Some result.1)
  ∧ (burnout_level ≠ "CRITICAL" ∧ burnout_level ≠ "HIGH"
     ↔ result = (None, self))
  ∧ (∀ a, result.1 = Some a →
          result.2 = self ++ [a]
          ∧ alert_type a = DOCTOR_BURNOUT
          ∧ severity_value (severity a) = burnout_level)
  ∧ ∀ other_score,
      severity
        <$> (check_burnout_alert self now doctor_id other_score burnout_level).1
      = severity <$> result.1.
Proof.
  unfold check_burnout_alert.
  destruct (decide (burnout_level = "CRITICAL")) as [->|Hc].
  { cbn. split_and!; try done.
    - split; [by eexists | by left].
    - split; [by intros [? _] | done].
    - by intros a [= <-]. }
  rewrite !(bool_decide_eq_false_2 (burnout_level = "CRITICAL")) by done.
  destruct (decide (burnout_level = "HIGH")) as [->|Hh].
  { cbn. split_and!; try done.
    - split; [by eexists | by right].
    - split; [by intros [_ ?] | done].
    - by intros a [= <-]. }
  rewrite !(bool_decide_eq_false_2 (burnout_level = "HIGH")) by done.
  cbn. split_and!; try done.
  split; [by intros [?|?] | by intros [? ?]].
Qed.

(** X7. [check_complaint_alert] compares the severity with the upper-case
    names: CRITICAL gives a CRITICAL alert, HIGH a HIGH alert, both of type
    COMPLAINT_FILED; any other string gives nothing.  In particular none of
    the severity options of the complaint form (Low, Medium, High, Critical)
    raises an alert when passed on as it is spelled. *)
Theorem check_complaint_alert_severities (self : AlertManager) (now : Z)
    (doctor_id complaint_type severity0 : string) :
  let result :=
    check_complaint_alert self now doctor_id complaint_type severity0 in
  (severity0 = "CRITICAL" ∨ severity0 = "HIGH" ↔ is_Some result.1)
  ∧ (severity0 ≠ "CRITICAL" ∧ severity0 ≠ "HIGH" ↔ result = (None, self))
  ∧ (∀ a, result.1 = Some a →
          result.2 = self ++ [a]
          ∧ alert_type a = COMPLAINT_FILED
          ∧ severity_value (severity a) = severity0)
  ∧ (severity0 ∈ FeedbackForm.complaint_severity_options →
     result = (None, self)).
Proof.
  unfold check_complaint_alert.
  destruct (decide (severity0 = "CRITICAL")) as [->|Hc].
  { cbn. split_and!; try done.
    - split; [by eexists | by left].
    - split; [by intros [? _] | done].
    - by intros a [= <-].
    - intros Hin. exfalso. revert Hin. apply (bool_decide_unpack _).
      by vm_compute. }
  rewrite !(bool_decide_eq_false_2 (severity0 = "CRITICAL")) by done.
  destruct (decide (severity0 = "HIGH")) as [->|Hh].
  { cbn. split_and!; try done.
    - split; [by eexists | by right].
    - split; [by intros [_ ?] | done].
    - by intros a [= <-].
    - intros Hin. exfalso. revert Hin. apply (bool_decide_unpack _).
      by vm_compute. }
  rewrite !(bool_decide_eq_false_2 (severity0 = "HIGH")) by done.
  cbn. split_and!; try done.
  split; [by intros [?|?] | by intros [? ?]].
Qed.

(** X8. [check_issue_cluster_alert] reads the frequency of the cluster
    dictionary, 0 when the key is missing: a frequency of 5 or more gives a
    MEDIUM alert of type ISSUE_CLUSTER whose details are the dictionary
    itself; a smaller or missing frequency gives nothing and leaves the
    store unchanged; a frequency that is not a number fails. *)
Theorem check_issue_cluster_alert_frequency (self : AlertManager) (now : Z)
    (cluster_data : list (string * value)) :
  (dict_get "frequency" cluster_data = None →
   check_issue_cluster_alert self now cluster_data = Some (None, self))
  ∧ (∀ n : Z, dict_get "frequency" cluster_data = Some (VInt n) →
       ((5 <= n)%Z →
        ∃ a, check_issue_cluster_alert self now cluster_data
             = Some (Some a, self ++ [a])
             ∧ alert_type a = ISSUE_CLUSTER
             ∧ severity a = MEDIUM
             ∧ details a = cluster_data)
       ∧ ((n < 5)%Z →
          check_issue_cluster_alert self now cluster_data = Some (None, self)))
  ∧ (∀ s, dict_get "frequency" cluster_data = Some (VStr s) →
          check_issue_cluster_alert self now cluster_data = None)
  ∧ (dict_get "frequency" cluster_data = Some VNone →
     check_issue_cluster_alert self now cluster_data = None).
Proof.
  unfold check_issue_cluster_alert.
  assert (threshold "issue_cluster_critical" == 5)%Q as Ht by done.
  split_and!.
  - intros ->. cbn. rewrite decide_False; [done|].
    rewrite Ht. by vm_compute.
  - intros n ->. cbn. split; intros Hn.
    + rewrite decide_True; [by eexists|].
      rewrite Ht. change 5%Q with (inject_Z 5). by rewrite <- Zle_Qle.
    + rewrite decide_False; [done|].
      rewrite Ht. change 5%Q with (inject_Z 5). rewrite <- Zle_Qle. lia.
  - by intros s ->.
  - by intros ->.
Qed.

Lemma severity_counts (l : list Alert) :
  (length (filter (λ a, severity a = CRITICAL) l)
   + length (filter (λ a, severity a = HIGH) l)
   + length (filter (λ a, severity a = MEDIUM) l)
   + length (filter (λ a, severity a = LOW) l))%nat
  = length l.
Proof.
  induction l as [|a l IH]; [done|].
  rewrite !(filter_cons _ a). cbn [length]. rewrite <- IH.
  destruct (severity a); repeat case_decide; try done; cbn [length]; lia.
Qed.

(** X9. In the report of [get_alert_statistics] the four severity counts
    add up to [total_alerts], and so do the counts of the type
    distribution, which lists each alert type that occurred once; the
    unacknowledged alerts are at most the total, and the total is at most
    the number of stored alerts. *)
Theorem alert_statistics_totals (self : AlertManager) (now hours : Z) :
  let stats := get_alert_statistics self now hours in
  (severity_distribution stats).*1 = ["CRITICAL"; "HIGH"; "MEDIUM"; "LOW"]
  ∧ sum_list (severity_distribution stats).*2 = total_alerts stats
  ∧ sum_list (type_distribution stats).*2 = total_alerts stats
  ∧ NoDup (type_distribution stats).*1
  ∧ (unacknowledged_alerts stats ≤ total_alerts stats)%nat
  ∧ (total_alerts stats ≤ length self)%nat.
Proof.
  intros stats. subst stats. unfold get_alert_statistics.
  cbn [severity_distribution type_distribution total_alerts
       unacknowledged_alerts].
  set (recent := filter _ self).
  split_and!.
  - done.
  - cbn. rewrite <- (severity_counts recent). lia.
  - rewrite fold_tally, tally_sum, length_fmap. done.
  - rewrite fold_tally. apply tally_NoDup, NoDup_nil_2.
  - apply length_filter.
  - apply length_filter.
Qed.

End AlertFacts.

(** ** Quality thresholds *)

Module QualityFacts.
Import Py PyFacts.

(** The alert manager raises a food alert exactly below the threshold 2. *)
Lemma check_food_quality_alert_spec (self : AlertSystem.AlertManager) (now : Z)
    (quality_score : Q) :
  ((quality_score < 2)%Q →
   ∃ a, AlertSystem.check_food_quality_alert self now quality_score
        = (Some a, self ++ [a])
        ∧ AlertSystem.alert_type a = AlertSystem.FOOD_QUALITY
        ∧ AlertSystem.severity a = AlertSystem.HIGH)
  ∧ ((2 <= quality_score)%Q →
     AlertSystem.check_food_quality_alert self now quality_score = (None, self)).
Proof.
  unfold AlertSystem.check_food_quality_alert.
  assert (AlertSystem.threshold "food_quality_critical" == 2)%Q as Ht by done.
  split; intros Hq;
    destruct (decide (quality_score < AlertSystem.threshold "food_quality_critical")%Q)
      as [H|H]; try lra; try done.
  by eexists.
Qed.

(** So it does for rooms. *)
Lemma check_room_quality_alert_spec (self : AlertSystem.AlertManager) (now : Z)
    (room_id : string) (cleanliness_score : Q) :
  ((cleanliness_score < 2)%Q →
   ∃ a, AlertSystem.check_room_quality_alert self now room_id cleanliness_score
        = (Some a, self ++ [a])
        ∧ AlertSystem.alert_type a = AlertSystem.ROOM_QUALITY
        ∧ AlertSystem.severity a = AlertSystem.HIGH)
  ∧ ((2 <= cleanliness_score)%Q →
     AlertSystem.check_room_quality_alert self now room_id cleanliness_score
     = (None, self)).
Proof.
  unfold AlertSystem.check_room_quality_alert.
  assert (AlertSystem.threshold "room_quality_critical" == 2)%Q as Ht by done.
  split; intros Hq;
    destruct (decide (cleanliness_score < AlertSystem.threshold "room_quality_critical")%Q)
      as [H|H]; try lra; try done.
  by eexists.
Qed.

(** The facility monitor attaches an alert to a room submission exactly when
    the score is at most 2, whatever the aspects and comments. *)
Lemma submit_room_quality_review_alert
    (self : FacilityMonitor.FacilityQualityMonitor) (now : Z)
    (review_id room_id : string) (cleanliness_score : Q)
    (aspects : list (string * Q)) (comments : string) :
  let alert :=
    FacilityMonitor.result_alert
      (FacilityMonitor.submit_room_quality_review self now review_id room_id
         cleanliness_score aspects comments).1 in
  ((cleanliness_score <= 2)%Q →
   ∃ a, alert = Some a
        ∧ FacilityMonitor.alert_type a = "ROOM_QUALITY_CRITICAL"
        ∧ FacilityMonitor.alert_severity a = "HIGH"
        ∧ FacilityMonitor.alert_room_id a = Some room_id)
  ∧ ((2 < cleanliness_score)%Q → alert = None).
Proof.
  cbn. split; intros Hq; destruct (decide (cleanliness_score <= 2)%Q) as [H|H];
    try lra; try done.
  by eexists.
Qed.

Lemma submit_food_quality_review_alert
    (self : FacilityMonitor.FacilityQualityMonitor) (now : Z)
    (review_id : string) (quality_score : Q)
    (aspects : list (string * Q)) (comments : string) :
  let alert :=
    FacilityMonitor.result_alert
      (FacilityMonitor.submit_food_quality_review self now review_id
         quality_score aspects comments).1 in
  ((quality_score <= 2)%Q →
   ∃ a, alert = Some a
        ∧ FacilityMonitor.alert_type a = "FOOD_QUALITY_CRITICAL"
        ∧ FacilityMonitor.alert_severity a = "HIGH")
  ∧ ((2 < quality_score)%Q → alert = None).
Proof.
  cbn. split; intros Hq; destruct (decide (quality_score <= 2)%Q) as [H|H];
    try lra; try done.
  by eexists.
Qed.

(** A room submission with cleanliness score 1 always carries a
    [ROOM_QUALITY_CRITICAL] alert of severity HIGH, and the alert manager
    raises a HIGH alert for it as well. *)
Lemma room_score_one_alerts (self : FacilityMonitor.FacilityQualityMonitor)
    (manager : AlertSystem.AlertManager) (now : Z) (review_id room_id : string)
    (aspects : list (string * Q)) (comments : string) :
  (∃ a, FacilityMonitor.result_alert
          (FacilityMonitor.submit_room_quality_review self now review_id
             room_id 1 aspects comments).1 = Some a
        ∧ FacilityMonitor.alert_type a = "ROOM_QUALITY_CRITICAL"
        ∧ FacilityMonitor.alert_severity a = "HIGH")
  ∧ (∃ a, (AlertSystem.check_room_quality_alert manager now room_id 1).1
          = Some a
          ∧ AlertSystem.severity a = AlertSystem.HIGH).
Proof. split; by eexists. Qed.

(** C3, at the boundary.  For a score of exactly 2 the checks of the alert
    manager return no alert, for food and for rooms, although 2 <= 2; the
    submission paths of the facility monitor, which test [score <= 2], do
    attach a HIGH alert for the same score. *)
Theorem quality_check_skips_score_two (manager : AlertSystem.AlertManager)
    (monitor : FacilityMonitor.FacilityQualityMonitor) (now : Z)
    (review_id room_id : string) (aspects : list (string * Q))
    (comments : string) :
  AlertSystem.check_food_quality_alert manager now 2 = (None, manager)
  ∧ AlertSystem.check_room_quality_alert manager now room_id 2
    = (None, manager)
  ∧ (∃ a, FacilityMonitor.result_alert
            (FacilityMonitor.submit_food_quality_review monitor now review_id
               2 aspects comments).1 = Some a
          ∧ FacilityMonitor.alert_type a = "FOOD_QUALITY_CRITICAL"
          ∧ FacilityMonitor.alert_severity a = "HIGH")
  ∧ (∃ a, FacilityMonitor.result_alert
            (FacilityMonitor.submit_room_quality_review monitor now review_id
               room_id 2 aspects comments).1 = Some a
          ∧ FacilityMonitor.alert_type a = "ROOM_QUALITY_CRITICAL"
          ∧ FacilityMonitor.alert_severity a = "HIGH").
Proof. repeat split; by eexists. Qed.

End QualityFacts.

(** ** Trends and issue clusters *)

Module DashboardFacts.
Import Py PyFacts Dashboard Scenarios.

(** The report counts the reviews that pass the filter. *)
Lemma trends_total_reviews (self : SentimentTrendAnalyzer) (now days : Z)
    (category0 : option string) :
  total_reviews (get_sentiment_trends self now days category0)
  = length (relevant_reviews self now days category0).
Proof.
  unfold get_sentiment_trends.
  by destruct (relevant_reviews self now days category0).
Qed.

(** C8. For every ledger, window length and optional category, when no
    review passes the window and category filter the trend report is the
    zero-valued one: [total_reviews] is 0 and [trend_data] is the empty
    sequence.  [get_sentiment_trends] is a total function, so a report is
    returned in every case. *)
Theorem trends_empty_window (self : SentimentTrendAnalyzer) (now days : Z)
    (category0 : option string) :
  relevant_reviews self now days category0 = [] →
  get_sentiment_trends self now days category0
  = {| period_days := days;
       report_category := category0;
       total_reviews := 0;
       trend_data := [];
       overall_average_score := None;
       sentiment_distribution := None |}
  ∧ total_reviews (get_sentiment_trends self now days category0) = 0%nat
  ∧ length (trend_data (get_sentiment_trends self now days category0)) = 0%nat.
Proof.
  intros Hempty. unfold get_sentiment_trends. by rewrite Hempty.
Qed.

Lemma trends_empty_window_witness :
  relevant_reviews wait_ledger (timedelta_days 40) 30 None = []
  ∧ total_reviews (get_sentiment_trends wait_ledger (timedelta_days 40) 30 None)
    = 0%nat
  ∧ length (trend_data
              (get_sentiment_trends wait_ledger (timedelta_days 40) 30 None))
    = 0%nat.
Proof.
  assert (relevant_reviews wait_ledger (timedelta_days 40) 30 None = [])
    as Hempty by reflexivity.
  split; [exact Hempty|].
  exact (proj2 (trends_empty_window wait_ledger (timedelta_days 40) 30 None
                  Hempty)).
Defined.

(** *** Issue clusters *)

(** [all_keywords] tallies the keywords of the reviews in sequence. *)
Lemma count_keywords_tally (reviews : list Review) :
  count_keywords reviews = tally (concat (keywords <$> reviews)) [].
Proof.
  unfold count_keywords. generalize (@nil (string * nat)).
  induction reviews as [|r reviews IH]; intros d; [done|].
  cbn [fold_left fmap list_fmap concat]. by rewrite IH, tally_app.
Qed.









(** When wait is the only keyword of the six reviews, the wait cluster is
    the whole report. *)
Example cluster_issues_wait_only :
  clusters (cluster_issues wait_only_ledger 5)
  = [{| cluster_id := 1;
        primary_issue := "wait";
        frequency := 6;
        related_reviews := ["r1"; "r2"; "r3"; "r4"; "r5"; "r6"];
        severity := "HIGH";
        recommendation :=
          "Review process efficiency and resource allocation" |}].
Proof. reflexivity. Qed.


(** *** The daily trend *)







(** *** The shape of the clusters *)

Lemma make_cluster_entries (m : list (string * list string))
    (entries : list (string * nat)) (start : nat) :
  (λ c, (primary_issue c, frequency c))
    <$> (make_cluster m <$> zip (seq start (length entries)) entries)
  = entries
  ∧ cluster_id
      <$> (make_cluster m <$> zip (seq start (length entries)) entries)
    = seq (S start) (length entries).
Proof.
  revert start. induction entries as [|[k n] entries IH]; intros start; [done|].
  destruct (IH (S start)) as [IH1 IH2]. cbn [length seq zip zip_with fmap
                                              list_fmap].
  cbn [fmap] in IH1, IH2. rewrite IH1, IH2. cbn.
  split; [done|]. f_equal. lia.
Qed.

Lemma clusters_either (self : SentimentTrendAnalyzer) (max_clusters : Z) :
  clusters (cluster_issues self max_clusters) = []
  ∨ ((3 ≤ length self)%nat ∧ negative_reviews self ≠ []
     ∧ clusters (cluster_issues self max_clusters)
       = make_cluster (keyword_map (negative_reviews self))
           <$> enumerate
                 (slice_to max_clusters
                    (sorted (λ x, Z.of_nat x.2) true
                       (count_keywords (negative_reviews self))))).
Proof.
  unfold cluster_issues.
  destruct (decide (length self < 3)%nat); [by left|].
  destruct (negative_reviews self) eqn:E; [by left|].
  right. split; [lia|]. by split.
Qed.

Lemma slice_to_take {A : Type} (n : Z) (l : list A) :
  ∃ k, slice_to n l = take k l
       ∧ ((0 ≤ n)%Z → k = Z.to_nat n)
       ∧ ((n < 0)%Z → k = (length l - Z.to_nat (- n))%nat).
Proof.
  unfold slice_to. destruct (0 <=? n)%Z eqn:E.
  - apply Z.leb_le in E. eexists. split; [done|]. split; [done | lia].
  - apply Z.leb_gt in E. eexists. split; [done|]. split; [lia | done].
Qed.

Lemma keyword_map_entries (reviews : list Review)
    (d : list (string * list string)) (rid : string) :
  rid ∈ (fold_left
           (λ d review, dict_set (review_id review) (keywords review) d)
           reviews d).*1
  ↔ rid ∈ d.*1 ∨ rid ∈ review_id <$> reviews.
Proof.
  revert d. induction reviews as [|r reviews IH]; intros d.
  - cbn. rewrite elem_of_nil. tauto.
  - cbn [fold_left]. rewrite IH, dict_set_keys, fmap_cons, elem_of_cons.
    destruct (decide (review_id r ∈ d.*1)) as [Hin|Hnin].
    + split; [tauto|]. intros [?|[->|?]]; tauto.
    + rewrite elem_of_app, list_elem_of_singleton. tauto.
Qed.

Lemma keyword_map_NoDup (reviews : list Review)
    (d : list (string * list string)) :
  NoDup d.*1 →
  NoDup (fold_left
           (λ d review, dict_set (review_id review) (keywords review) d)
           reviews d).*1.
Proof.
  revert d. induction reviews as [|r reviews IH]; intros d Hd; [done|].
  cbn [fold_left]. apply IH. by apply dict_set_NoDup.
Qed.


Lemma keyword_map_sources (reviews : list Review)
    (d : list (string * list string)) (rid : string) (kws : list string) :
  (rid, kws)
    ∈ fold_left (λ d review, dict_set (review_id review) (keywords review) d)
        reviews d →
  (rid, kws) ∈ d
  ∨ ∃ r, r ∈ reviews ∧ review_id r = rid ∧ keywords r = kws.
Proof.
  revert d. induction reviews as [|r reviews IH]; intros d; [by left|].
  cbn [fold_left]. intros [Hin|(r' & Hr' & ? & ?)]%IH.
  - apply dict_set_entries in Hin as [[= -> ->]|?]; [|by left].
    right. exists r. split; [by left | done].
  - right. exists r'. split; [by right | done].
Qed.

(** X25. The clusters of [cluster_issues]: none for a ledger of fewer than
    three reviews or without NEGATIVE reviews; at most [max_clusters] of
    them for a non-negative [max_clusters]; numbered 1, 2, ... in order;
    one per keyword, each keyword mentioned by a NEGATIVE review, with the
    number of its mentions as frequency, in order of non-increasing
    frequency; the related reviews of a cluster are distinct ids of NEGATIVE
    reviews that list the keyword. *)
Theorem cluster_issues_structure (self : SentimentTrendAnalyzer)
    (max_clusters : Z) :
  let report := cluster_issues self max_clusters in
  let negs := negative_reviews self in
  let mentions := concat (keywords <$> negs) in
  ((length self < 3)%nat ∨ negs = [] → clusters report = [])
  ∧ ((0 ≤ max_clusters)%Z →
     (length (clusters report) ≤ Z.to_nat max_clusters)%nat)
  ∧ cluster_id <$> clusters report = seq 1 (length (clusters report))
  ∧ NoDup (primary_issue <$> clusters report)
  ∧ StronglySorted ge (frequency <$> clusters report)
  ∧ ∀ c, c ∈ clusters report →
      primary_issue c ∈ mentions
      ∧ frequency c = occurrences (primary_issue c) mentions
      ∧ (1 ≤ frequency c)%nat
      ∧ NoDup (related_reviews c)
      ∧ ∀ rid, rid ∈ related_reviews c →
          ∃ r, r ∈ negs ∧ review_id r = rid ∧ primary_issue c ∈ keywords r.
Proof.
  intros report negs mentions. subst report.
  split.
  { unfold cluster_issues. fold negs. intros [Hshort|Hnone].
    - by rewrite decide_True.
    - rewrite Hnone. by destruct (decide _). }
  destruct (clusters_either self max_clusters) as [->|(_ & _ & ->)].
  { cbn. split_and!; try done.
    - lia.
    - apply NoDup_nil_2.
    - constructor.
    - intros c Hc. by apply elem_of_nil in Hc. }
  fold negs. rewrite count_keywords_tally. fold mentions.
  set (ranked := sorted (λ x : string * nat, Z.of_nat x.2) true
                   (tally mentions [])).
  destruct (slice_to_take max_clusters ranked) as (k & -> & Hk & _).
  set (entries := take k ranked). unfold enumerate.
  destruct (make_cluster_entries (keyword_map negs) entries 0)
    as [Hentries Hids].
  set (cs := make_cluster (keyword_map negs)
               <$> zip (seq 0 (length entries)) entries) in *.
  assert (length cs = length entries) as Hlen
    by (by rewrite <- Hentries, length_fmap).
  assert (primary_issue <$> cs = entries.*1) as Hissues
    by (by rewrite <- Hentries, <- list_fmap_compose).
  assert (frequency <$> cs = entries.*2) as Hfreq
    by (by rewrite <- Hentries, <- list_fmap_compose).
  assert (ranked ≡ₚ tally mentions []) as Hperm by apply sorted_perm.
  split_and!.
  - intros Hpos. rewrite Hlen. subst entries. rewrite length_take, (Hk Hpos).
    lia.
  - by rewrite Hlen.
  - rewrite Hissues. subst entries. rewrite fmap_take.
    eapply sublist_NoDup; [|apply sublist_take].
    rewrite Hperm. apply tally_NoDup, NoDup_nil_2.
  - rewrite Hfreq. apply strongly_sorted_fmap, strongly_sorted_take.
    eapply strongly_sorted_impl;
      [|apply (sorted_in_order (λ x : string * nat, Z.of_nat x.2) true)].
    intros x y. cbn. lia.
  - intros c Hc.
    assert ((primary_issue c, frequency c) ∈ tally mentions []) as Hentry.
    { rewrite <- Hperm. apply (subseteq_take k). fold entries.
      rewrite <- Hentries. apply list_elem_of_fmap. by exists c. }
    apply tally_entries in Hentry as [Hin Hocc].
    assert (related_reviews c
            = (filter (λ item, primary_issue c ∈ item.2) (keyword_map negs)).*1)
      as Hrelated.
    { subst cs. apply list_elem_of_fmap in Hc as ([i [kw n]] & -> & _).
      done. }
    split_and!; try done.
    + rewrite Hocc. by apply occurrences_pos.
    + rewrite Hrelated. eapply sublist_NoDup;
        [|apply fmap_sublist, sublist_filter].
      apply keyword_map_NoDup, NoDup_nil_2.
    + intros rid. rewrite Hrelated.
      intros ([rid' kws] & -> & [Hkw Hmap]%list_elem_of_filter)%list_elem_of_fmap.
      apply keyword_map_sources in Hmap
        as [Hnil|(r & Hr & <- & <-)]; [by apply elem_of_nil in Hnil|].
      by exists r.
Qed.


(** *** Adding a review *)

(** X26. A review added by [add_review_analysis] is counted by every trend
    query whose window contains the time of adding and whose category filter
    is absent or is the review's category: the total grows by one.  Queries
    for any other category report what they reported before.  The review
    enters the NEGATIVE reviews that [cluster_issues] works on exactly when
    the analysis is labeled NEGATIVE, and it carries the five metadata keys
    exactly when a non-empty metadata dictionary is given. *)
Theorem add_review_counted (self : SentimentTrendAnalyzer) (added_at : Z)
    (review_id0 : string) (analysis : Sentiment.Analysis) (category1 : string)
    (metadata : option (list (string * value))) (now days : Z)
    (category0 : option string) :
  (now - timedelta_days days < added_at)%Z →
  category0 = None ∨ category0 = Some category1 →
  let self' :=
    add_review_analysis self added_at review_id0 analysis category1 metadata in
  total_reviews (get_sentiment_trends self' now days category0)
  = S (total_reviews (get_sentiment_trends self now days category0))
  ∧ (∀ other, other ≠ category1 →
       get_sentiment_trends self' now days (Some other)
       = get_sentiment_trends self now days (Some other))
  ∧ (∃ review,
       self' = self ++ [review]
       ∧ sentiment_score review = Sentiment.overall_score analysis
       ∧ (length (extra review) = 5%nat
          ↔ ∃ m, metadata = Some m ∧ m ≠ [])
       ∧ (extra review = [] ↔ metadata = None ∨ metadata = Some [])
       ∧ negative_reviews self'
         = negative_reviews self
             ++ (if decide (Sentiment.sentiment_label analysis = "NEGATIVE")
                 then [review] else [])).
Proof.
  intros Hwindow Hcategory self'.
  split_and!.
  - rewrite !trends_total_reviews. subst self'.
    unfold add_review_analysis, relevant_reviews.
    rewrite filter_app, length_app, filter_cons, decide_True by done.
    cbn. lia.
  - intros other Hother. subst self'.
    unfold get_sentiment_trends, add_review_analysis, relevant_reviews.
    rewrite filter_app, filter_cons, decide_False.
    + by rewrite filter_nil, app_nil_r.
    + cbn. intros [_ [?|[= ?]]]; done.
  - eexists. split; [done|]. cbn [sentiment_score extra].
    split; [done|]. split; [|split].
    + destruct metadata as [[|? ?]|]; cbn; split; try done;
        try (by intros (? & [= <-] & ?)); try (by intros (? & [= ] & ?)).
      intros _. by eexists.
    + destruct metadata as [[|? ?]|]; cbn; split; try done;
        try (by intros [?|?]); try tauto.
    + subst self'. unfold add_review_analysis, negative_reviews.
      rewrite filter_app, filter_cons. cbn [sentiment_label].
      by destruct (decide _).
Qed.


Lemma add_review_counted_witness :
  ((6 - timedelta_days 30 < 5)%Z
   ∧ ((None : option string) = None ∨ None = Some "general"))
  ∧ total_reviews
      (get_sentiment_trends
         (add_review_analysis wait_ledger 5 "r7"
            (Sentiment.comprehensive_analysis offline_analyzer "slow")
            "general" None)
         6 30 None)
    = S (total_reviews (get_sentiment_trends wait_ledger 6 30 None)).
Proof.
  assert (6 - timedelta_days 30 < 5)%Z as Hwindow by reflexivity.
  assert ((None : option string) = None ∨ None = Some "general") as Hcategory
    by (by left).
  split; [by split|].
  exact (proj1 (add_review_counted wait_ledger 5 "r7"
                  (Sentiment.comprehensive_analysis offline_analyzer "slow")
                  "general" None 6 30 None Hwindow Hcategory)).
Defined.

End DashboardFacts.

(** ** Sentiment fusion *)

Module SentimentFacts.
Import Py PyFacts Sentiment Scenarios.


Lemma round_minus_three_tenths : (round (-0.3) 3 == -0.3)%Q.
Proof. apply (round_decimal _ (-300)). by vm_compute. Qed.


Lemma round_below_threshold (s : Q) : (round s 3 < -0.3)%Q → (s < -0.3)%Q.
Proof.
  intros H. destruct (Qlt_le_dec s (-0.3)) as [|Hle]; [done|].
  apply (round_mono _ _ 3) in Hle. rewrite round_minus_three_tenths in Hle. lra.
Qed.

(** The decision of [label_of], case by case. *)
Lemma label_of_cases (s : Q) (n : nat) (v p : Q) :
  ((0.3 < s)%Q → label_of s n v p = "POSITIVE")
  ∧ (¬ (0.3 < s)%Q →
     (s < -0.3)%Q ∨ ((0 < n)%nat ∧ ((v < 0)%Q ∨ (p < 0)%Q)) →
     label_of s n v p = "NEGATIVE")
  ∧ (¬ (0.3 < s)%Q →
     ¬ ((s < -0.3)%Q ∨ ((0 < n)%nat ∧ ((v < 0)%Q ∨ (p < 0)%Q))) →
     label_of s n v p = "NEUTRAL").
Proof.
  unfold label_of. split_and!.
  - intros H. by rewrite decide_True.
  - intros Hpos Hneg. rewrite decide_False by done.
    destruct Hneg as [H|[Hn [H|H]]].
    + by rewrite (bool_decide_eq_true_2 _ H).
    + apply Nat.ltb_lt in Hn. rewrite Hn, (bool_decide_eq_true_2 _ H).
      by rewrite orb_true_r.
    + apply Nat.ltb_lt in Hn. rewrite Hn, (bool_decide_eq_true_2 (p < 0)%Q H).
      by rewrite !orb_true_r.
  - intros Hpos Hneg. rewrite decide_False by done.
    rewrite (bool_decide_eq_false_2 (s < -0.3)%Q) by tauto.
    destruct (Nat.ltb_spec 0 n) as [Hn|Hn]; [|done].
    rewrite (bool_decide_eq_false_2 (v < 0)%Q) by tauto.
    by rewrite (bool_decide_eq_false_2 (p < 0)%Q) by tauto.
Qed.







(** *** Language handling *)

(** X27. Language handling degrades to English: without a translator, or
    with the translation package missing, every text is detected as "en"
    and returned untranslated whatever source language is named; a detection
    that raises or returns nothing gives "en"; a text named or detected as
    English is never passed to the translator; and when translation raises
    or returns a dictionary without text, the original text is analysed. *)
Theorem language_fallback (self : SentimentAnalyzer) (text : string) :
  (translator self = None ∨ HAS_GOOGLETRANS self = false →
   detect_language self text = "en"
   ∧ ∀ source_lang, translate_to_english self text source_lang = text)
  ∧ (∀ t, translator self = Some t →
          detect t text = None ∨ detect t text = Some None →
          detect_language self text = "en")
  ∧ translate_to_english self text (Some "en") = text
  ∧ (detect_language self text = "en" →
     original_language (comprehensive_analysis self text) = "en"
     ∧ translated_text (comprehensive_analysis self text) = text)
  ∧ (∀ t lang, translator self = Some t →
       translate t text lang = None
       ∨ translate t text lang = Some (TranslatedDict None) →
       translate_to_english self text (Some lang) = text).
Proof.
  split_and!.
  - intros Hoff.
    assert (detect_language self text = "en") as Hdetect.
    { unfold detect_language. destruct Hoff as [-> | Hoff]; [done|].
      rewrite Hoff. by destruct (translator self). }
    split; [done|]. intros source_lang. unfold translate_to_english.
    case_bool_decide; [done|].
    destruct Hoff as [Hnone | Hoff].
    + rewrite Hnone. destruct source_lang as [lang|]; [|done].
      by case_bool_decide.
    + rewrite Hdetect, Hoff.
      destruct source_lang as [lang|], (translator self) as [t|]; try done;
        by case_bool_decide.
  - intros t Ht Hfail. unfold detect_language. rewrite Ht.
    destruct (HAS_GOOGLETRANS self); [|done].
    by destruct Hfail as [-> | ->].
  - done.
  - intros Hen. unfold comprehensive_analysis.
    cbn [original_language translated_text]. rewrite Hen. by split.
  - intros t lang Ht Hfail. unfold translate_to_english.
    case_bool_decide; [done|]. rewrite Ht. case_bool_decide; [done|].
    destruct (HAS_GOOGLETRANS self); [|done].
    by destruct Hfail as [-> | ->].
Qed.


(** *** Emotions and keywords *)

Lemma argmax_from_elem (best : string * Q) (d : list (string * Q)) :
  argmax_from best d ∈ best.1 :: d.*1.
Proof.
  revert best. induction d as [|kv d IH]; intros best; cbn; [by left|].
  case_decide.
  - right. apply IH.
  - specialize (IH best). apply elem_of_cons in IH as [->|?]; [by left|].
    right. by right.
Qed.

Lemma argmax_from_ties (best : string * Q) (d : list (string * Q)) :
  Forall (λ kv, kv.2 <= best.2)%Q d → argmax_from best d = best.1.
Proof.
  induction 1 as [|kv d Hle _ IH]; cbn; [done|].
  rewrite decide_False by lra. done.
Qed.

Lemma count_matches_le (keywords : list string) (text : string) :
  (count_matches keywords text ≤ length keywords)%nat.
Proof. apply length_filter. Qed.

(** X28. [extract_emotions] scores the same six emotions for every text, in
    the order joy, sadness, anger, fear, surprise, trust, each with a score
    between 0 and 1; the dominant emotion of an analysis is one of the six,
    and it is joy whenever no emotion scores above joy, in particular for a
    text that matches no emotion word. *)
Theorem emotion_scores (self : SentimentAnalyzer) (text : string) :
  let scores := extract_emotions text in
  scores.*1 = ["joy"; "sadness"; "anger"; "fear"; "surprise"; "trust"]
  ∧ Forall (λ kv, 0 <= kv.2 ∧ kv.2 <= 1)%Q scores
  ∧ (∃ emotion,
       dominant_emotion (comprehensive_analysis self text) = Some emotion
       ∧ emotion ∈ ["joy"; "sadness"; "anger"; "fear"; "surprise"; "trust"])
  ∧ (Forall (λ kv, kv.2 <= default 0 (dict_get "joy" scores))%Q scores →
     argmax scores = Some "joy")
  ∧ (Forall (λ kv, kv.2 == 0)%Q scores → argmax scores = Some "joy").
Proof.
  intros scores.
  assert (scores.*1 = ["joy"; "sadness"; "anger"; "fear"; "surprise"; "trust"])
    as Hkeys by done.
  assert (Forall (λ kv, 0 <= kv.2 ∧ kv.2 <= 1)%Q scores) as Hrange.
  { subst scores. unfold extract_emotions. apply Forall_fmap, Forall_forall.
    intros [emotion keywords] Hin. cbn.
    assert (0 < inject_Z (Z.of_nat (length keywords)))%Q as Hlen.
    { change 0%Q with (inject_Z 0). rewrite <- Zlt_Qlt.
      assert (Forall (λ kv, 0 < length kv.2)%nat emotion_keywords) as Hall
        by (apply (bool_decide_unpack _); by vm_compute).
      pose proof (proj1 (Forall_forall _ _) Hall _ Hin) as Hpos.
      cbn in Hpos. lia. }
    assert (0 <= inject_Z (Z.of_nat (count_matches keywords (lower text))))%Q
      as Hcount.
    { change 0%Q with (inject_Z 0). rewrite <- Zle_Qle. lia. }
    unfold min. split.
    - apply Q.min_glb; [|lra]. by apply Qle_shift_div_l; [|lra].
    - eapply Qle_trans; [apply Q.le_min_r | lra]. }
  assert (∀ d : list (string * Q),
            d.*1 = ["joy"; "sadness"; "anger"; "fear"; "surprise"; "trust"] →
            ∃ joy rest, d = ("joy", joy) :: rest) as Hhead.
  { intros [|[k v] d] [= -> _]. by eexists _, _. }
  destruct (Hhead scores Hkeys) as (joy & rest & Hscores).
  split_and!; try done.
  - unfold comprehensive_analysis. cbn [dominant_emotion].
    set (english := translate_to_english self text
                      (Some (detect_language self text))).
    assert ((extract_emotions english).*1
            = ["joy"; "sadness"; "anger"; "fear"; "surprise"; "trust"])
      as Hk by done.
    destruct (Hhead _ Hk) as (j & r & Heq). rewrite Heq in Hk |- *.
    cbn [argmax]. eexists. split; [done|].
    rewrite <- Hk. apply (argmax_from_elem ("joy", j) r).
  - rewrite Hscores. cbn [dict_get argmax]. rewrite bool_decide_eq_true_2 by done.
    cbn [default]. intros [_ Hrest]%Forall_cons.
    by rewrite (argmax_from_ties ("joy", joy) rest Hrest).
  - rewrite Hscores. cbn [argmax]. intros [Hjoy Hrest]%Forall_cons.
    rewrite (argmax_from_ties ("joy", joy) rest); [done|].
    eapply Forall_impl; [done|]. cbn in *. intros kv Hkv. lra.
Qed.





(** *** Critical reviews *)

(** X30. A text is a critical issue at the default threshold exactly when
    [check_sentiment_alert] raises an alert for the score of its analysis.
    Such a text is labeled NEGATIVE, its unrounded score lies below -0.7 and
    its confidence is at least 0.7; more generally every text that is
    critical at a threshold of at most -0.3 is labeled NEGATIVE. *)
Theorem critical_review_is_negative (self : SentimentAnalyzer) (text : string)
    (manager : AlertSystem.AlertManager) (now : Z)
    (review_id : option string) :
  let result := comprehensive_analysis self text in
  let checked :=
    AlertSystem.check_sentiment_alert manager now (overall_score result)
      review_id in
  (identify_critical_issues self text (-0.7) = true ↔ is_Some checked.1)
  ∧ (is_Some checked.1 →
     sentiment_label result = "NEGATIVE"
     ∧ (fused_score self (english_text_of self text) < -0.7)%Q
     ∧ (0.7 <= confidence result)%Q)
  ∧ ∀ threshold, (threshold <= -0.3)%Q →
      identify_critical_issues self text threshold = true →
      sentiment_label result = "NEGATIVE".
Proof.
  intros result checked.
  set (english_text := english_text_of self text).
  set (s := fused_score self english_text).
  set (lexicon := vader_compound (analyze_with_vader self english_text)).
  set (blob := polarity (analyze_with_textblob self english_text)).
  assert (overall_score result = round s 3) as Hscore by reflexivity.
  assert (sentiment_label result
          = label_of s (neg_count english_text) lexicon blob)
    as Hlabel by reflexivity.
  assert (confidence result = round (Qabs s) 3) as Hconf by reflexivity.
  assert (∀ threshold,
            identify_critical_issues self text threshold
            = bool_decide (overall_score result < threshold)%Q) as Hcritical
    by reflexivity.
  subst checked. rewrite Hcritical, Hscore.
  clearbody result s lexicon blob.
  destruct (label_of_cases s (neg_count english_text) lexicon blob)
    as (_ & Hneg & _).
  assert (∀ threshold, (threshold <= -0.3)%Q →
            (round s 3 < threshold)%Q → sentiment_label result = "NEGATIVE")
    as Hbelow.
  { intros threshold Ht Hlt. rewrite Hlabel.
    assert (s < -0.3)%Q as Hs by (apply round_below_threshold; lra).
    apply Hneg; [lra | by left]. }
  assert (is_Some
            (AlertSystem.check_sentiment_alert manager now (round s 3)
               review_id).1
          ↔ (round s 3 < -0.7)%Q) as Halert.
  { generalize (round s 3). intros q.
    unfold AlertSystem.check_sentiment_alert.
    assert (AlertSystem.threshold "sentiment_critical" == -0.7)%Q as Ht by done.
    destruct (decide (q < AlertSystem.threshold "sentiment_critical")%Q)
      as [H|H]; cbn.
    - split; [lra | by eexists].
    - split; [by intros [? ?] | lra]. }
  split_and!.
  - rewrite Halert. apply bool_decide_eq_true.
  - intros Hraised%Halert.
    assert (s < -0.7)%Q as Hs.
    { destruct (Qlt_le_dec s (-0.7)) as [?|Hge]; [done|].
      pose proof (round_mono _ _ 3 Hge) as Hmono.
      rewrite (round_decimal (-0.7) (-700) 3) in Hmono by (by vm_compute).
      lra. }
    split_and!; [apply (Hbelow (-0.7)); [lra | done] | done |].
    rewrite Hconf, <- (round_decimal 0.7 700 3) by (by vm_compute).
    apply round_mono. rewrite Qabs_neg by lra. lra.
  - intros threshold Ht Hlt. apply (Hbelow threshold Ht).
    rewrite Hcritical, Hscore in Hlt. by apply bool_decide_eq_true in Hlt.
Qed.

End SentimentFacts.

(** ** Facility quality *)

Module FacilityFacts.
Import Py PyFacts FacilityMonitor.

Lemma priority_rank_of (room_id : string) (score : Q) :
  priority_rank
    {| entry_room_id := room_id; entry_score := score;
       priority := priority_of score |}
  = if decide (score < 3)%Q then 0%Z
    else if decide (score < 3.5)%Q then 1%Z
    else if decide (score < 4)%Q then 2%Z
    else 3%Z.
Proof. unfold priority_rank, priority_of. cbn. by repeat case_decide. Qed.

Lemma priority_entries_rooms (room_scores : list (string * Q)) :
  (λ e, (entry_room_id e, entry_score e))
    <$> ((λ '(room_id, score),
            {| entry_room_id := room_id; entry_score := score;
               priority := priority_of score |}) <$> room_scores)
  = room_scores.
Proof.
  induction room_scores as [|[r s] l IH]; [done|].
  cbn [fmap list_fmap] in *. by rewrite IH.
Qed.

(** X10. [_get_maintenance_priority] lists every room of the dictionary
    once, with its score and the priority of that score (URGENT below 3,
    HIGH below 3.5, MEDIUM below 4, LOW otherwise), the most urgent first:
    a room never follows a room with a higher score band, so every room
    listed before an URGENT room is URGENT. *)
Theorem maintenance_priority_order (room_scores : list (string * Q)) :
  let result := _get_maintenance_priority room_scores in
  (λ e, (entry_room_id e, entry_score e)) <$> result ≡ₚ room_scores
  ∧ Forall (λ e, priority e = priority_of (entry_score e)) result
  ∧ StronglySorted (λ e1 e2, (priority_rank e1 <= priority_rank e2)%Z) result
  ∧ ∀ i j e1 e2,
      result !! i = Some e1 → result !! j = Some e2 → (i < j)%nat →
      priority e2 = "URGENT" → priority e1 = "URGENT".
Proof.
  intros result. subst result. unfold _get_maintenance_priority.
  set (entries := _ <$> room_scores).
  assert (Forall (λ e, priority e = priority_of (entry_score e)) entries)
    as Hentries.
  { subst entries. apply Forall_fmap, Forall_forall. by intros [r s] _. }
  assert (Forall (λ e, priority e = priority_of (entry_score e))
            (sorted priority_rank false entries)) as Hsorted.
  { by rewrite sorted_perm. }
  pose proof (sorted_in_order priority_rank false entries) as Hord.
  split_and!.
  - rewrite sorted_perm. subst entries. by rewrite priority_entries_rooms.
  - done.
  - exact Hord.
  - intros i j e1 e2 Hi Hj Hij Hurgent.
    assert (priority_rank e1 <= priority_rank e2)%Z as Hle.
    { exact (strongly_sorted_lookup _ _ i j e1 e2 Hord Hi Hj Hij). }
    rewrite Forall_forall in Hsorted.
    pose proof (Hsorted e1 (list_elem_of_lookup_2 _ _ _ Hi)) as H1.
    pose proof (Hsorted e2 (list_elem_of_lookup_2 _ _ _ Hj)) as H2.
    destruct e1 as [r1 s1 p1], e2 as [r2 s2 p2].
    cbn [priority entry_score] in H1, H2, Hurgent |- *. subst p1 p2.
    rewrite !priority_rank_of in Hle. unfold priority_of in *.
    repeat case_decide; try done; lia.
Qed.

End FacilityFacts.

(** ** The endpoints of app.py *)

Module AppFacts.
Import Py PyFacts DoctorAnalyzer App.




(** X23. Filing a complaint through [file_doctor_complaint]: the complaint
    is stored with the severity of the request, MEDIUM when none is given;
    an alert is returned exactly for the severities CRITICAL and HIGH, so
    never for the default; and whenever the alert is CRITICAL, the doctor's
    complaint history right after the call has the status CRITICAL.
    Without an alert the alert store is unchanged. *)
Theorem file_doctor_complaint_alert (doctor_analyzer : DoctorAnalyzer)
    (manager : AlertSystem.AlertManager) (filed_at alerted_at : Z)
    (doctor_id complaint_type0 description0 : string)
    (severity0 : option string) :
  let out :=
    file_doctor_complaint doctor_analyzer (Some manager) filed_at alerted_at
      doctor_id complaint_type0 description0 severity0 in
  let response := out.1.1 in
  let history := get_complaint_history out.1.2 doctor_id in
  complaint_severity (complaint_filed response) = default "MEDIUM" severity0
  ∧ (is_Some (complaint_alert response)
     ↔ severity0 = Some "CRITICAL" ∨ severity0 = Some "HIGH")
  ∧ (∀ a, complaint_alert response = Some a →
       Some (AlertSystem.d_severity a) = severity0
       ∧ AlertSystem.d_alert_type a = "COMPLAINT_FILED"
       ∧ (AlertSystem.d_severity a = "CRITICAL" →
          overall_complaint_status <$> patterns history = Some "CRITICAL")
       ∧ ∃ alert, AlertSystem.to_dict alert = a
                  ∧ out.2 = Some (manager ++ [alert]))
  ∧ (complaint_alert response = None → out.2 = Some manager)
  ∧ total_complaints history
    = S (total_complaints (get_complaint_history doctor_analyzer doctor_id)).
Proof.
  intros out response history.
  set (sev := default "MEDIUM" severity0).
  set (result := file_complaint doctor_analyzer filed_at doctor_id
                   complaint_type0 description0 sev).
  set (checked := AlertSystem.check_complaint_alert manager alerted_at
                    doctor_id complaint_type0 sev).
  assert (out = ({| complaint_filed := result.1;
                    complaint_alert := AlertSystem.to_dict <$> checked.1 |},
                 result.2, Some checked.2)) as Hout.
  { subst out checked result. unfold file_doctor_complaint, file_complaint.
    fold sev. cbn [fst snd].
    by destruct (AlertSystem.check_complaint_alert _ _ _ _ _). }
  clearbody out. subst out response history.
  cbn [fst snd complaint_filed complaint_alert].
  destruct (DoctorFacts.file_complaint_frame doctor_analyzer filed_at doctor_id
              complaint_type0 description0 sev) as (Hnew & _).
  fold result in Hnew.
  assert (complaint_severity result.1 = sev) as Hsev by done.
  assert (overall_complaint_status
            <$> patterns (get_complaint_history result.2 doctor_id)
          = Some (_calculate_complaint_status
                    (default [] (complaints result.2 !! doctor_id)))) as Hstatus.
  { unfold get_complaint_history. rewrite Hnew.
    by destruct (_ ++ [result.1]) eqn:E;
      [destruct (default [] (complaints doctor_analyzer !! doctor_id))|]. }
  assert (total_complaints (get_complaint_history result.2 doctor_id)
          = S (total_complaints (get_complaint_history doctor_analyzer
                                   doctor_id))) as Htotal.
  { rewrite !DoctorFacts.complaint_history_total, Hnew, length_app. cbn. lia. }
  assert (sev = "CRITICAL" →
          overall_complaint_status
            <$> patterns (get_complaint_history result.2 doctor_id)
          = Some "CRITICAL") as Hcritical.
  { intros Hc. rewrite Hstatus. f_equal.
    apply (DoctorFacts.complaint_status_critical _ result.1); [|by rewrite Hsev].
    rewrite Hnew. apply elem_of_app. right. by left. }
  assert (sev = "CRITICAL" ∨ sev = "HIGH"
          ↔ severity0 = Some "CRITICAL" ∨ severity0 = Some "HIGH") as Hgiven.
  { subst sev. destruct severity0 as [s|]; cbn.
    - split; (intros [?|?]; [left | right]; congruence).
    - split; by intros [?|?]. }
  assert (sev = "CRITICAL" ∨ sev = "HIGH" → Some sev = severity0) as Hsome.
  { subst sev. destruct severity0 as [s|]; cbn; [done | by intros [?|?]]. }
  clearbody result sev. subst checked.
  unfold AlertSystem.check_complaint_alert, AlertSystem.create_alert.
  destruct (decide (sev = "CRITICAL")) as [->|Hnc].
  { rewrite bool_decide_eq_true_2 by done. cbn.
    split_and!; try done.
    - split; [intros _; apply Hgiven; by left | by eexists].
    - intros a [= <-]. cbn. split_and!; try done.
      + apply Hsome. by left.
      + by eexists. }
  rewrite !(bool_decide_eq_false_2 (sev = "CRITICAL")) by done.
  destruct (decide (sev = "HIGH")) as [->|Hnh].
  { rewrite bool_decide_eq_true_2 by done. cbn.
    split_and!; try done.
    - split; [intros _; apply Hgiven; by right | by eexists].
    - intros a [= <-]. cbn. split_and!; try done.
      + apply Hsome. by right.
      + by eexists. }
  rewrite !(bool_decide_eq_false_2 (sev = "HIGH")) by done. cbn.
  split_and!; try done.
  split; [by intros [? ?]|]. intros H. apply Hgiven in H. tauto.
Qed.

End AppFacts.
